(** * run_benchmark.py: the recipe benchmark runner

    A shallow embedding of [src/run_benchmark.py] and the properties of
    its validator, recipe resolver, command builder and readiness prober.

    Modelling conventions.
    - A Python [str] is a Rocq [string]; a character stands for a code
      point below 256.
    - A Python [int] is a [Z].
    - A Python [dict] keeps insertion order, so it is an association list
      in insertion order; lookups take the first binding of a key.
    - The recipe is a tree of values: the only mutation of the script is on
      the recipe and its [benchmark] sub-mappings, and it is written as an
      update of the tree that is handed back to the caller.
    - Printing, HTTP requests, sleeping and process execution are events
      appended to a trace; the wall clock counts whole seconds. *)

From Stdlib Require Import ZArith List String Ascii Bool Lia.
From Stdlib Require Import DecimalString.
Import ListNotations.
Set Warnings "-register-all".
Open Scope string_scope.
Open Scope list_scope.
Open Scope Z_scope.

(** String concatenation, kept apart from list append. *)
Infix "+++" := String.append (right associativity, at level 60).

(** ** Exceptions *)

Inductive exn_class :=
| ValueError
| TypeError
| AttributeError
| KeyError
| OverflowError
| FileNotFoundError
| OtherError (name : string).

Record exn := Exn { exn_cls : exn_class; exn_msg : string }.

(** The outcome of a call that may raise. *)
Inductive result (A : Type) :=
| Ret (a : A)
| Raise (e : exn).
Arguments Ret {A} a.
Arguments Raise {A} e.

Definition rbind {A B} (r : result A) (k : A -> result B) : result B :=
  match r with
  | Ret a => k a
  | Raise e => Raise e
  end.

(** ** Values *)

(** Python floats stay abstract: the script only stores them, prints them,
    tests them for truth and hands them to [int]. *)
Inductive value (float : Type) :=
| VNone
| VBool (b : bool)
| VInt (z : Z)
| VFloat (f : float)
| VStr (s : string)
| VList (l : list (value float))
| VDict (d : list (string * value float)).

Arguments VNone {float}.
Arguments VBool {float} b.
Arguments VInt {float} z.
Arguments VFloat {float} f.
Arguments VStr {float} s.
Arguments VList {float} l.
Arguments VDict {float} d.

(** What the script takes from the Python runtime without looking inside. *)
Class Runtime := {
  float : Type;
  (** [str(x)] and [repr(x)] of a float *)
  float_str : float -> string;
  (** [int(x)] of a float: truncation, or OverflowError / ValueError *)
  float_int : float -> result Z;
  (** [bool(x)] of a float *)
  float_truth : float -> bool;
  (** [repr(s)] of a str: quoting and escaping *)
  str_repr : string -> string;
  (** [int(s)] of a str *)
  str_int : string -> result Z;
  (** [json.loads(body)]; [None] when it raises *)
  json_loads : string -> option (value float);
  (** [json.dumps(payload, indent=2, ensure_ascii=False)] *)
  json_dumps : value float -> string
}.

Abbreviation pyvalue := (value float).
Abbreviation dict := (list (string * pyvalue)).

(** ** Strings *)

Definition string_of_Z (z : Z) : string :=
  NilZero.string_of_int (Z.to_int z).

Fixpoint replace_char (a b : ascii) (s : string) : string :=
  match s with
  | EmptyString => EmptyString
  | String c s' => String (if Ascii.eqb c a then b else c) (replace_char a b s')
  end.

Fixpoint join (sep : string) (l : list string) : string :=
  match l with
  | [] => ""
  | [x] => x
  | x :: rest => x +++ sep +++ join sep rest
  end.

(** [str.isspace] on a code point below 256. *)
Definition is_space (c : ascii) : bool :=
  let n := N_of_ascii c in
  ((9 <=? n) && (n <=? 13) || (28 <=? n) && (n <=? 32)
   || (n =? 133) || (n =? 160))%N.

Fixpoint lstrip_by (p : ascii -> bool) (s : string) : string :=
  match s with
  | EmptyString => EmptyString
  | String c s' => if p c then lstrip_by p s' else s
  end.

Fixpoint rstrip_by (p : ascii -> bool) (s : string) : string :=
  match s with
  | EmptyString => EmptyString
  | String c s' =>
      match rstrip_by p s' with
      | EmptyString => if p c then EmptyString else String c EmptyString
      | t => String c t
      end
  end.

(** [s.strip()] *)
Definition strip (s : string) : string := rstrip_by is_space (lstrip_by is_space s).

(** [s.rstrip('/')] *)
Definition rstrip_slash (s : string) : string := rstrip_by (Ascii.eqb "/") s.

Definition nonempty (s : string) : bool :=
  match s with EmptyString => false | _ => true end.

(** ** Dictionaries *)

Section Dict.
Context {V : Type}.

(** [d.get(k)] *)
Fixpoint dict_get (d : list (string * V)) (k : string) : option V :=
  match d with
  | [] => None
  | (k', v) :: rest => if String.eqb k' k then Some v else dict_get rest k
  end.

(** [d[k] = v]: in place when the key is there, at the end otherwise *)
Fixpoint dict_set (d : list (string * V)) (k : string) (v : V) : list (string * V) :=
  match d with
  | [] => [(k, v)]
  | (k', v') :: rest =>
      if String.eqb k' k then (k, v) :: rest else (k', v') :: dict_set rest k v
  end.

(** [d.setdefault(k, v)]: the mapping afterwards and the value returned *)
Definition dict_setdefault (d : list (string * V)) (k : string) (v : V)
  : list (string * V) * V :=
  match dict_get d k with
  | Some x => (d, x)
  | None => (d ++ [(k, v)], v)
  end.

End Dict.

(** ** Built-ins on values *)

Definition nl : string := String (ascii_of_nat 10) EmptyString.

Section Builtins.
Context `{Runtime}.

(** [type(v).__name__] *)
Definition type_name (v : pyvalue) : string :=
  match v with
  | VNone => "NoneType"
  | VBool _ => "bool"
  | VInt _ => "int"
  | VFloat _ => "float"
  | VStr _ => "str"
  | VList _ => "list"
  | VDict _ => "dict"
  end.

(** [repr(v)] *)
Fixpoint py_repr (v : pyvalue) : string :=
  match v with
  | VNone => "None"
  | VBool b => if b then "True" else "False"
  | VInt z => string_of_Z z
  | VFloat f => float_str f
  | VStr s => str_repr s
  | VList l => "[" +++ join ", " (map py_repr l) +++ "]"
  | VDict d =>
      "{" +++ join ", " (map (fun kv => str_repr (fst kv) +++ ": " +++ py_repr (snd kv)) d)
          +++ "}"
  end.

(** [str(v)], which is also what an f-string field prints *)
Definition py_str (v : pyvalue) : string :=
  match v with
  | VStr s => s
  | _ => py_repr v
  end.

(** [bool(v)] *)
Definition py_truth (v : pyvalue) : bool :=
  match v with
  | VNone => false
  | VBool b => b
  | VInt z => negb (z =? 0)
  | VFloat f => float_truth f
  | VStr s => nonempty s
  | VList l => match l with [] => false | _ => true end
  | VDict d => match d with [] => false | _ => true end
  end.

(** [int(v)] *)
Definition py_int (v : pyvalue) : result Z :=
  match v with
  | VInt z => Ret z
  | VBool b => Ret (if b then 1 else 0)
  | VFloat f => float_int f
  | VStr s => str_int s
  | _ =>
      Raise (Exn TypeError
               ("int() argument must be a string, a bytes-like object or a real number, not '"
                  +++ type_name v +++ "'"))
  end.

(** [v == s] for a str [s] *)
Definition py_eq_str (v : pyvalue) (s : string) : bool :=
  match v with
  | VStr t => String.eqb t s
  | _ => false
  end.

(** Values that [hash] accepts. *)
Definition hashable (v : pyvalue) : bool :=
  match v with
  | VList _ | VDict _ => false
  | _ => true
  end.

(** [v in S] for a set [S] of str: hashing comes first. *)
Definition py_in_str_set (v : pyvalue) (S : list string) : result bool :=
  if hashable v
  then Ret (existsb (py_eq_str v) S)
  else Raise (Exn TypeError ("unhashable type: '" +++ type_name v +++ "'")).

(** The error of [v.attr] on a value that has no such attribute. *)
Definition no_attribute (v : pyvalue) (attr : string) : exn :=
  Exn AttributeError
      ("'" +++ type_name v +++ "' object has no attribute '" +++ attr +++ "'").

End Builtins.

(** ** The validator *)

Definition SUPPORTED_BENCHMARK_FRAMEWORKS : list string := ["llama-benchy"].

(** [shutil.which]: the executables found on the search path. *)
Definition path_env := string -> option string.

Section Validator.
Context `{Runtime}.
Variable which : path_env.

Definition unsupported_framework (fw : pyvalue) : exn :=
  Exn ValueError
      ("Unsupported benchmark framework in recipe: " +++ py_str fw +++ nl
         +++ "Supported frameworks: " +++ join ", " SUPPORTED_BENCHMARK_FRAMEWORKS).

Definition missing_llama_benchy : exn :=
  Exn ValueError
      ("benchmark.enabled=true requires 'llama-benchy' in PATH." +++ nl
         +++ "Install with: uv pip install -U llama-benchy").

(** The checks of lines 39-50, on the normalised [benchmark] mapping. *)
Definition check_benchmark (benchmark : dict) : result unit :=
  match dict_get benchmark "framework" with
  | None => Raise (Exn KeyError "'framework'")
  | Some fw =>
      rbind (py_in_str_set fw SUPPORTED_BENCHMARK_FRAMEWORKS) (fun supported =>
      if negb supported then Raise (unsupported_framework fw)
      else
        let enabled :=
          match dict_get benchmark "enabled" with
          | Some e => e
          | None => VBool false
          end in
        if py_truth enabled
        then
          if py_eq_str fw "llama-benchy"
             && match which "llama-benchy" with None => true | Some _ => false end
          then Raise missing_llama_benchy
          else Ret tt
        else Ret tt)
  end.

(** The three [setdefault] calls of lines 35-37, on the [benchmark]
    mapping. *)
Definition normalised (b0 : dict) : dict :=
  let b1 := fst (dict_setdefault b0 "enabled" (VBool false)) in
  let b2 := fst (dict_setdefault b1 "framework" (VStr "llama-benchy")) in
  fst (dict_setdefault b2 "args" (VDict [])).

(** [validate_recipe_benchmark_config(recipe)]: the recipe as the call
    leaves it, and how the call ends. *)
Definition validate_recipe_benchmark_config (recipe : dict) : dict * result unit :=
  let (recipe1, benchmark) := dict_setdefault recipe "benchmark" (VDict []) in
  match benchmark with
  | VDict b0 =>
      let b3 := normalised b0 in
      (dict_set recipe1 "benchmark" (VDict b3), check_benchmark b3)
  | other => (recipe1, Raise (no_attribute other "setdefault"))
  end.

End Validator.

(** ** The command builder *)

Section Builder.
Context `{Runtime}.

(** [apply_llama_benchy_defaults(benchmark_args)] *)
Definition apply_llama_benchy_defaults (benchmark_args : dict) : dict :=
  let a1 := fst (dict_setdefault benchmark_args "pp" (VList [VInt 2048])) in
  let a2 := fst (dict_setdefault a1 "depth" (VList [VInt 0])) in
  let a3 := fst (dict_setdefault a2 "save_result" (VStr "test.md")) in
  fst (dict_setdefault a3 "enable_prefix_caching" (VBool true)).

Definition flag_of_key (key : string) : string :=
  "--" +++ replace_char "_" "-" key.

(** One turn of the loop of [append_cli_args_from_dict]. *)
Definition append_cli_arg (excludes : list string) (cmd : list string)
           (item : string * pyvalue) : list string :=
  let (key, value) := item in
  if existsb (String.eqb key) excludes then cmd
  else
    let flag := flag_of_key key in
    match value with
    | VBool b => if b then cmd ++ [flag] else cmd
    | VList l =>
        match l with
        | [] => cmd
        | _ => (cmd ++ [flag]) ++ map py_str l
        end
    | _ => cmd ++ [flag; py_str value]
    end.

(** [append_cli_args_from_dict(cmd, args, exclude_keys)]: the list [cmd]
    as the call leaves it. *)
Definition append_cli_args_from_dict (cmd : list string) (args : dict)
           (exclude_keys : option (list string)) : list string :=
  let excludes := match exclude_keys with Some (k :: ks) => k :: ks | _ => [] end in
  fold_left (append_cli_arg excludes) args cmd.

(** [get_recipe_base_url(recipe)] *)
Definition get_recipe_base_url (recipe : dict) : result string :=
  let defaults := match dict_get recipe "defaults" with
                  | Some d => d
                  | None => VDict []
                  end in
  match defaults with
  | VDict d =>
      let port := match dict_get d "port" with
                  | Some p => p
                  | None => VInt 8000
                  end in
      rbind (py_int port) (fun p =>
      Ret ("http://localhost:" +++ string_of_Z p +++ "/v1"))
  | other => Raise (no_attribute other "get")
  end.

Definition default_model : string := "__from_v1_models__".

(** [build_llama_benchy_command(recipe, model)]: the recipe as the call
    leaves it (the defaults are written into its [benchmark.args]) and
    the command. *)
Definition build_llama_benchy_command (recipe : dict) (model : string)
  : dict * result (list string) :=
  let stored := dict_get recipe "benchmark" in
  let benchmark := match stored with Some b => b | None => VDict [] end in
  match benchmark with
  | VDict b0 =>
      let (b1, benchmark_args) := dict_setdefault b0 "args" (VDict []) in
      let put (b : dict) : dict :=
        match stored with
        | Some _ => dict_set recipe "benchmark" (VDict b)
        | None => recipe
        end in
      match benchmark_args with
      | VDict a0 =>
          let args := apply_llama_benchy_defaults a0 in
          let recipe' := put (dict_set b1 "args" (VDict args)) in
          (recipe',
           rbind (get_recipe_base_url recipe') (fun base_url =>
           Ret (append_cli_args_from_dict
                  ["llama-benchy"; "--base-url"; base_url; "--model"; model]
                  args (Some ["base_url"; "model"]))))
      | other => (put b1, Raise (no_attribute other "setdefault"))
      end
  | other => (recipe, Raise (no_attribute other "setdefault"))
  end.

End Builder.

(** ** Recipe paths *)

(** A POSIX [pathlib.Path]: the root (nothing, one slash or two) and the
    components, with empty and single-dot components dropped. *)
Record path := { root : string; parts : list string }.

(** The pieces of [s] between slashes. *)
Fixpoint split_slash (s : string) : list string :=
  match s with
  | EmptyString => [EmptyString]
  | String c s' =>
      if Ascii.eqb c "/" then EmptyString :: split_slash s'
      else match split_slash s' with
           | [] => [String c EmptyString]
           | p :: ps => String c p :: ps
           end
  end.

Definition is_component (p : string) : bool :=
  negb (String.eqb p "" || String.eqb p ".").

Definition leading_slashes (s : string) : nat :=
  (String.length s - String.length (lstrip_by (Ascii.eqb "/") s))%nat.

(** [Path(s)] *)
Definition Path (s : string) : path :=
  {| root := match leading_slashes s with
             | O => ""
             | 2%nat => "//"
             | _ => "/"
             end;
     parts := filter is_component (split_slash s) |}.

(** [p.name] *)
Definition name (p : path) : string := last (parts p) "".

Fixpoint rfind_dot (s : string) : option nat :=
  match s with
  | EmptyString => None
  | String c s' =>
      match rfind_dot s' with
      | Some i => Some (S i)
      | None => if Ascii.eqb c "." then Some O else None
      end
  end.

(** [p.stem]: the name up to its last dot, when that dot is neither the
    first nor the last character of the name. *)
Definition stem (p : path) : string :=
  let n := name p in
  match rfind_dot n with
  | Some i =>
      if ((0 <? i) && (i <? String.length n - 1))%nat
      then substring 0 i n
      else n
  | None => n
  end.

(** [p / s] *)
Definition joinpath (p : path) (s : string) : path :=
  let q := Path s in
  if nonempty (root q) then q
  else {| root := root p; parts := parts p ++ parts q |}.

Infix "//" := joinpath (at level 40, left associativity).

(** The file system, as [Path.exists] sees it. *)
Definition filesystem := path -> bool.

Section Resolver.
Variable RECIPES_DIR : path.
Variable fs : filesystem.

Definition recipe_not_found (recipe_arg : string) : exn :=
  Exn FileNotFoundError ("Recipe not found: " +++ recipe_arg).

(** [resolve_recipe_path(recipe_arg)] *)
Definition resolve_recipe_path (recipe_arg : string) : result path :=
  let recipe_path := Path recipe_arg in
  if fs recipe_path then Ret recipe_path
  else
    let candidates :=
      [ RECIPES_DIR // name recipe_path;
        RECIPES_DIR // (name recipe_path +++ ".yaml");
        RECIPES_DIR // (name recipe_path +++ ".yml");
        RECIPES_DIR // (stem recipe_path +++ ".yaml") ] in
    match find fs candidates with
    | Some candidate => Ret candidate
    | None => Raise (recipe_not_found recipe_arg)
    end.

End Resolver.

(** ** The world of the prober and the runner *)

Inductive event :=
| Printed (text : string)
| HttpGet (url : string)
| Sleep (seconds : Z)
| Exec (cmd : list string).

(** What one GET gives: the text of the exception that [urlopen] or [read]
    raised, or the decoded body. *)
Inductive http_reply :=
| HttpFailed (error : string)
| HttpBody (body : string).

(** One request: its reply and the seconds it took. *)
Record attempt := { reply : http_reply; elapsed : N }.

Record env := {
  which : path_env;
  (** the reply to the n-th request to a URL *)
  endpoint : string -> nat -> attempt;
  (** [subprocess.run(cmd)]: the return code, or what it raises *)
  run_process : list string -> result Z
}.

Record state := { now : Z; requests : nat; trace : list event }.

(** Effects thread the state. *)
Definition M (A : Type) : Type := state -> A * state.

Definition ret {A} (a : A) : M A := fun st => (a, st).

Definition bind {A B} (m : M A) (k : A -> M B) : M B :=
  fun st => let (a, st') := m st in k a st'.

Notation "x <- m ;; k" := (bind m (fun x => k))
  (at level 61, m at next level, right associativity).
Notation "m ;;; k" := (bind m (fun _ => k))
  (at level 61, right associativity).

Definition emit (e : event) : M unit :=
  fun st => (tt, {| now := now st; requests := requests st; trace := trace st ++ [e] |}).

(** [print(text)] *)
Definition print (text : string) : M unit := emit (Printed text).

(** [time.time()] *)
Definition time_time : M Z := fun st => (now st, st).

(** [time.sleep(seconds)] *)
Definition time_sleep (seconds : Z) : M (result unit) :=
  fun st =>
    if seconds <? 0
    then (Raise (Exn ValueError "sleep length must be non-negative"), st)
    else (Ret tt, {| now := now st + seconds;
                     requests := requests st;
                     trace := trace st ++ [Sleep seconds] |}).

(** The request of lines 148-150. *)
Definition http_get (E : env) (url : string) : M http_reply :=
  fun st =>
    let a := endpoint E url (requests st) in
    (reply a, {| now := now st + Z.of_N (elapsed a);
                 requests := S (requests st);
                 trace := trace st ++ [HttpGet url] |}).

(** ** The readiness prober *)

(** The lines printed around a reply. *)
Definition endpoint_banner (models_url : string) : string :=
  nl +++ "=== vLLM Models Endpoint ===" +++ nl +++ "GET " +++ models_url.

Definition waiting_banner (models_url : string) (timeout_seconds : Z) : string :=
  "Waiting for endpoint readiness: " +++ models_url +++ " (timeout: "
    +++ string_of_Z timeout_seconds +++ "s)".

(** How one turn of the polling loop ends. *)
Inductive turn :=
| Resolved (model : string)
| Retry (last_error : string)
| Escaped (e : exn).

Section Prober.
Context `{Runtime}.
Variable E : env.

(** The loop over [("id", "model", "name")] of lines 166-170. *)
Fixpoint model_under_keys (first : dict) (keys : list string) : option string :=
  match keys with
  | [] => None
  | key :: rest =>
      match dict_get first key with
      | Some (VStr val) =>
          if nonempty (strip val) then Some (strip val)
          else model_under_keys first rest
      | _ => model_under_keys first rest
      end
  end.

(** Lines 162-170: the model that the payload names, if it names one. *)
Definition first_model (payload : pyvalue) : result (option string) :=
  match payload with
  | VDict p =>
      match dict_get p "data" with
      | Some (VList (first :: _)) =>
          match first with
          | VDict f => Ret (model_under_keys f ["id"; "model"; "name"])
          | _ => Ret None
          end
      | _ => Ret None
      end
  | other => Raise (no_attribute other "get")
  end.

(** The sleep of line 177, which no handler covers. *)
Definition sleep_then_retry (interval_seconds : Z) (last_error : string) : M turn :=
  r <- time_sleep interval_seconds ;;
  match r with
  | Ret _ => ret (Retry last_error)
  | Raise e => ret (Escaped e)
  end.

(** The body of the [while] loop, lines 147-177. *)
Definition probe_once (models_url : string) (interval_seconds : Z) : M turn :=
  got <- http_get E models_url ;;
  match got with
  | HttpFailed error => sleep_then_retry interval_seconds error
  | HttpBody body =>
      print (endpoint_banner models_url) ;;;
      match json_loads body with
      | None =>
          print body ;;;
          r <- time_sleep interval_seconds ;;
          match r with
          | Ret _ => ret (Retry "non-JSON /v1/models response")
          | Raise e => sleep_then_retry interval_seconds (exn_msg e)
          end
      | Some payload =>
          print (json_dumps payload) ;;;
          match first_model payload with
          | Ret (Some model) =>
              print ("Resolved first model from /v1/models: " +++ model) ;;;
              ret (Resolved model)
          | Ret None =>
              print "Endpoint reachable but model list is empty/invalid, retrying..." ;;;
              sleep_then_retry interval_seconds
                               "No model entry found in /v1/models response"
          | Raise e => sleep_then_retry interval_seconds (exn_msg e)
          end
      end
  end.

(** The [while] loop and the lines after it; [fuel] bounds the number of
    times the loop condition is tested. *)
Fixpoint poll (fuel : nat) (models_url : string) (deadline interval_seconds : Z)
         (last_error : string) (st : state) : option (result (option string) * state) :=
  match fuel with
  | O => None
  | S fuel' =>
      let (t, st0) := time_time st in
      if t <? deadline then
        match probe_once models_url interval_seconds st0 with
        | (Resolved model, st') => Some (Ret (Some model), st')
        | (Retry error, st') => poll fuel' models_url deadline interval_seconds error st'
        | (Escaped e, st') => Some (Raise e, st')
        end
      else
        Some ((print ("Timed out waiting for endpoint/model: " +++ models_url) ;;;
               print ("Last probe error: " +++ last_error) ;;;
               ret (Ret None)) st0)
  end.

(** [wait_for_models_endpoint_and_get_first_model(base_url, timeout_seconds,
    interval_seconds)] *)
Definition wait_for_models_endpoint_and_get_first_model
           (fuel : nat) (base_url : string) (timeout_seconds interval_seconds : Z)
           (st : state) : option (result (option string) * state) :=
  let models_url := rstrip_slash base_url +++ "/models" in
  let (t, st0) := time_time st in
  let deadline := t + timeout_seconds in
  let (_, st1) := print (waiting_banner models_url timeout_seconds) st0 in
  poll fuel models_url deadline interval_seconds "unknown error" st1.

End Prober.

(** ** The runner *)

Definition dquote : string := String (ascii_of_nat 34) EmptyString.

(** The characters that [shlex.quote] leaves alone. *)
Definition shell_safe (c : ascii) : bool :=
  let n := N_of_ascii c in
  ((48 <=? n) && (n <=? 57) || (65 <=? n) && (n <=? 90) || (97 <=? n) && (n <=? 122)
   || existsb (N.eqb n) [95; 64; 37; 43; 61; 58; 44; 46; 47; 45])%N.

Fixpoint all_chars (p : ascii -> bool) (s : string) : bool :=
  match s with
  | EmptyString => true
  | String c s' => p c && all_chars p s'
  end.

Fixpoint escape_quotes (s : string) : string :=
  match s with
  | EmptyString => EmptyString
  | String c s' =>
      if Ascii.eqb c "'"
      then "'" +++ dquote +++ "'" +++ dquote +++ "'" +++ escape_quotes s'
      else String c (escape_quotes s')
  end.

(** [shlex.quote(s)] *)
Definition shlex_quote (s : string) : string :=
  if negb (nonempty s) then "''"
  else if all_chars shell_safe s then s
  else "'" +++ escape_quotes s +++ "'".

(** [shlex.join(cmd)] *)
Definition shlex_join (cmd : list string) : string :=
  join " " (map shlex_quote cmd).

Section Runner.
Context `{Runtime}.
Variable E : env.

Definition disabled_message : string :=
  "Error: benchmark.enabled is false (or benchmark block is missing) in recipe".

(** [benchmark["enabled"]] of the validated recipe, lines 187-188. *)
Definition benchmark_enabled (recipe : dict) : result bool :=
  match dict_get recipe "benchmark" with
  | None => Raise (Exn KeyError "'benchmark'")
  | Some (VDict b) =>
      match dict_get b "enabled" with
      | None => Raise (Exn KeyError "'enabled'")
      | Some e => Ret (py_truth e)
      end
  | Some _ => Raise (Exn TypeError "object is not subscriptable")
  end.

(** Lines 211-216. *)
Definition execute (cmd : list string) : M (result Z) :=
  emit (Exec cmd) ;;;
  match run_process E cmd with
  | Ret code => ret (Ret code)
  | Raise e =>
      match exn_cls e with
      | FileNotFoundError =>
          print "Error: llama-benchy not found in PATH. You can install with 'uv pip install -U llama-benchy'" ;;;
          ret (Ret 1)
      | _ => ret (Raise e)
      end
  end.

(** [run_recipe_benchmark(recipe, dry_run)]: the recipe as the call leaves
    it, the exit code or the exception, and the state. *)
Definition run_recipe_benchmark (fuel : nat) (recipe : dict) (dry_run : bool)
           (st : state) : option ((dict * result Z) * state) :=
  let (recipe1, valid) := validate_recipe_benchmark_config (which E) recipe in
  match valid with
  | Raise e => Some ((recipe1, Raise e), st)
  | Ret _ =>
      match benchmark_enabled recipe1 with
      | Raise e => Some ((recipe1, Raise e), st)
      | Ret false => Some ((print disabled_message ;;; ret (recipe1, Ret 1)) st)
      | Ret true =>
          if dry_run then
            let (recipe2, built) := build_llama_benchy_command recipe1 default_model in
            match built with
            | Raise e => Some ((recipe2, Raise e), st)
            | Ret cmd =>
                Some ((print (nl +++ "=== Running Benchmark ===") ;;;
                       print (shlex_join cmd) ;;;
                       ret (recipe2, Ret 0)) st)
            end
          else
            match get_recipe_base_url recipe1 with
            | Raise e => Some ((recipe1, Raise e), st)
            | Ret base_url =>
                match wait_for_models_endpoint_and_get_first_model
                        E fuel base_url 300 2 st with
                | None => None
                | Some (Raise e, st1) => Some ((recipe1, Raise e), st1)
                | Some (Ret None, st1) =>
                    Some ((print "Error: Could not resolve model from /v1/models." ;;;
                           ret (recipe1, Ret 1)) st1)
                | Some (Ret (Some discovered_model), st1) =>
                    if nonempty discovered_model then
                      let (recipe2, built) :=
                        build_llama_benchy_command recipe1 discovered_model in
                      match built with
                      | Raise e => Some ((recipe2, Raise e), st1)
                      | Ret cmd =>
                          Some ((print (nl +++ "=== Running Benchmark ===") ;;;
                                 print ("Using model from /v1/models: " +++ discovered_model) ;;;
                                 print "Benchmark command (resolved):" ;;;
                                 print (shlex_join cmd) ;;;
                                 code <- execute cmd ;;
                                 ret (recipe2, code)) st1)
                      end
                    else
                      Some ((print "Error: Could not resolve model from /v1/models." ;;;
                             ret (recipe1, Ret 1)) st1)
                end
            end
      end
  end.

End Runner.


(** ** The conversion rules as the specification words them *)

Section Rules.
Context `{Runtime}.

(** A true boolean gives the flag alone, a false one nothing; an empty
    list gives nothing, another list the flag and one token per element;
    anything else the flag and its string form. *)
Definition arg_tokens (key : string) (value : pyvalue) : list string :=
  let flag := "--" +++ replace_char "_" "-" key in
  match value with
  | VBool true => [flag]
  | VBool false => []
  | VList [] => []
  | VList elements => flag :: map py_str elements
  | scalar => [flag; py_str scalar]
  end.

(** Whether [key] is in the exclusion set of the call. *)
Definition excluded (exclude_keys : option (list string)) (key : string) : bool :=
  match exclude_keys with
  | Some keys => existsb (String.eqb key) keys
  | None => false
  end.

(** The tokens of an item: none when its key is excluded. *)
Definition item_tokens (exclude_keys : option (list string))
           (item : string * pyvalue) : list string :=
  if excluded exclude_keys (fst item) then []
  else arg_tokens (fst item) (snd item).

End Rules.

(** ** The replies of the endpoint as the specification words them *)

Section ProberRules.
Context `{Runtime}.

(** The text a value gives as a model identifier: it is a str and
    something is left of it once trimmed. *)
Definition usable_name (v : option pyvalue) : option string :=
  match v with
  | Some (VStr s) => if nonempty (strip s) then Some (strip s) else None
  | _ => None
  end.

(** An element of [data] that names no model: it is not a mapping, or
    none of [id], [model], [name] holds a usable name. *)
Definition names_no_model (first : pyvalue) : bool :=
  match first with
  | VDict f =>
      forallb (fun key => match usable_name (dict_get f key) with
                          | None => true
                          | Some _ => false
                          end)
              ["id"; "model"; "name"]
  | _ => true
  end.

(** The error recorded for a reply that the prober retries on: a transport
    failure, a body that is not JSON, a JSON body without a usable model
    entry.  [None] for a reply that names a model. *)
Definition retry_reason (r : http_reply) : option string :=
  match r with
  | HttpFailed error => Some error
  | HttpBody body =>
      match json_loads body with
      | None => Some "non-JSON /v1/models response"
      | Some payload =>
          match first_model payload with
          | Ret (Some _) => None
          | Ret None => Some "No model entry found in /v1/models response"
          | Raise e => Some (exn_msg e)
          end
      end
  end.

End ProberRules.

(** A printed line. *)
Definition is_print (e : event) : Prop :=
  match e with Printed _ => True | _ => False end.

(** The state after the request of a turn, the lines [prints] and the
    sleep that ends the turn. *)
Definition after_retry (E : env) (models_url : string) (interval_seconds : Z)
           (prints : list event) (st : state) : state :=
  {| now := now st + Z.of_N (elapsed (endpoint E models_url (requests st)))
            + interval_seconds;
     requests := S (requests st);
     trace := trace st ++ HttpGet models_url :: prints ++ [Sleep interval_seconds] |}.

(** ** A sample runtime

    Two floats, [0.5] and [0.0], with what CPython gives for them, and
    the other primitives on the inputs the examples use: [repr] and
    [json.dumps] of a str without quotes, backslashes or control
    characters, [int] of a str of decimal digits, and a [json.loads] given
    by the table of the bodies an example serves. *)

Inductive sample_float := Half | Zero.

Definition sample_float_str (f : sample_float) : string :=
  match f with Half => "0.5" | Zero => "0.0" end.

Definition quoted (s : string) : string := dquote +++ s +++ dquote.

(** [json.dumps(v, indent=2)] at the indentation [indent]. *)
Fixpoint sample_dumps (indent : string) (v : value sample_float) : string :=
  let inner := indent +++ "  " in
  match v with
  | VNone => "null"
  | VBool b => if b then "true" else "false"
  | VInt z => string_of_Z z
  | VFloat f => sample_float_str f
  | VStr s => quoted s
  | VList [] => "[]"
  | VList l =>
      "[" +++ nl
          +++ join ("," +++ nl) (map (fun x => inner +++ sample_dumps inner x) l)
          +++ nl +++ indent +++ "]"
  | VDict [] => "{}"
  | VDict d =>
      "{" +++ nl
          +++ join ("," +++ nl)
                   (map (fun kv => inner +++ quoted (fst kv) +++ ": "
                                         +++ sample_dumps inner (snd kv)) d)
          +++ nl +++ indent +++ "}"
  end.

Definition is_digit (c : ascii) : bool :=
  let n := N_of_ascii c in ((48 <=? n) && (n <=? 57))%N.

Fixpoint digits_value (acc : Z) (s : string) : Z :=
  match s with
  | EmptyString => acc
  | String c s' => digits_value (10 * acc + (Z.of_N (N_of_ascii c) - 48)) s'
  end.

Definition sample_runtime (bodies : list (string * value sample_float)) : Runtime :=
  {| float := sample_float;
     float_str := sample_float_str;
     float_int := fun _ => Ret 0;
     float_truth := fun f => match f with Half => true | Zero => false end;
     str_repr := fun s => "'" +++ s +++ "'";
     str_int := fun s =>
       if nonempty s && all_chars is_digit s then Ret (digits_value 0 s)
       else Raise (Exn ValueError
                     ("invalid literal for int() with base 10: '" +++ s +++ "'"));
     json_loads := dict_get bodies;
     json_dumps := sample_dumps "" |}.

(** No executable on the search path; [llama-benchy] installed. *)
Definition empty_path : path_env := fun _ => None.
Definition benchy_path : path_env :=
  fun exe => if String.eqb exe "llama-benchy" then Some "/usr/local/bin/llama-benchy" else None.

(** ** The dry-run example *)

(** The command that the specification expects for the dry-run recipe. *)
Definition expected_dry_run_command : list string :=
  ["llama-benchy"; "--base-url"; "http://localhost:8080/v1";
   "--model"; "__from_v1_models__";
   "--pp"; "2048"; "--depth"; "0"; "--save-result"; "test.md";
   "--enable-prefix-caching"; "--temperature"; "0.5"].

(** The same tokens with the recipe's own argument ahead of the defaults. *)
Definition dry_run_command : list string :=
  ["llama-benchy"; "--base-url"; "http://localhost:8080/v1";
   "--model"; "__from_v1_models__";
   "--temperature"; "0.5";
   "--pp"; "2048"; "--depth"; "0"; "--save-result"; "test.md";
   "--enable-prefix-caching"].

(** [defaults.port = 8080], [benchmark.enabled = true],
    [benchmark.args = {temperature: 0.5}]. *)
Definition dry_run_recipe : list (string * value sample_float) :=
  [("defaults", VDict [("port", VInt 8080)]);
   ("benchmark", VDict [("enabled", VBool true);
                        ("args", VDict [("temperature", VFloat Half)])])].

(** The network calls of a trace. *)
Definition is_http_get (e : event) : bool :=
  match e with HttpGet _ => true | _ => false end.

Definition network_calls (tr : list event) : list event := filter is_http_get tr.

(** A server that refuses every connection at once, and a process runner
    that finds nothing to run. *)
Definition refusing_endpoint : string -> nat -> attempt :=
  fun _ _ => {| reply := HttpFailed "<urlopen error [Errno 111] Connection refused>";
                elapsed := 0 |}.

Definition no_process : list string -> result Z :=
  fun _ => Raise (Exn FileNotFoundError "[Errno 2] No such file or directory").

Definition installed_env : env :=
  {| which := benchy_path; endpoint := refusing_endpoint; run_process := no_process |}.

Definition start : state := {| now := 0; requests := 0; trace := [] |}.

(** ** The search order as the specification words it *)

Fixpoint strings_eqb (l1 l2 : list string) : bool :=
  match l1, l2 with
  | [], [] => true
  | x :: l1', y :: l2' => String.eqb x y && strings_eqb l1' l2'
  | _, _ => false
  end.

Definition path_eqb (p q : path) : bool :=
  String.eqb (root p) (root q) && strings_eqb (parts p) (parts q).

(** (a) the argument as a literal path, (b) the recipes directory joined
    with the basename, (c) that with [.yaml] appended, (d) with [.yml]
    appended, (e) the directory joined with the stem plus [.yaml]. *)
Definition search_order (recipes_dir : path) (recipe_arg : string) : list path :=
  [ Path recipe_arg;
    recipes_dir // name (Path recipe_arg);
    recipes_dir // (name (Path recipe_arg) +++ ".yaml");
    recipes_dir // (name (Path recipe_arg) +++ ".yml");
    recipes_dir // (stem (Path recipe_arg) +++ ".yaml") ].

(** A recipes directory, and a file system where both [./foo] and
    [recipes/foo.yaml] exist. *)
Definition sample_recipes_dir : path := Path "/opt/spark-vllm-docker/recipes".

Definition only_yaml : filesystem :=
  fun p => path_eqb p (sample_recipes_dir // "foo.yaml").

Definition shadowed_yaml : filesystem :=
  fun p => path_eqb p (Path "foo") || path_eqb p (sample_recipes_dir // "foo.yaml").

(** ** Sample endpoints *)

(** [{"data": [{"id": "m1"}]}] *)
Definition ready_body : string :=
  "{" +++ quoted "data" +++ ": [{" +++ quoted "id" +++ ": " +++ quoted "m1" +++ "}]}".
Definition ready_payload : value sample_float :=
  VDict [("data", VList [VDict [("id", VStr "m1")]])].

(** [{"data": [{"id": " "}]}]: the identifier is a single space. *)
Definition blank_body : string :=
  "{" +++ quoted "data" +++ ": [{" +++ quoted "id" +++ ": " +++ quoted " " +++ "}]}".
Definition blank_payload : value sample_float :=
  VDict [("data", VList [VDict [("id", VStr " ")]])].

(** [{"data": [{}, {"id": "m1"}]}]: the model is named by the second entry. *)
Definition second_body : string :=
  "{" +++ quoted "data" +++ ": [{}, {" +++ quoted "id" +++ ": " +++ quoted "m1" +++ "}]}".
Definition second_payload : value sample_float :=
  VDict [("data", VList [VDict []; VDict [("id", VStr "m1")]])].

Definition sample_bodies : list (string * value sample_float) :=
  [(ready_body, ready_payload); (blank_body, blank_payload);
   (second_body, second_payload)].

(** A server that answers every request at once with the same body. *)
Definition serving (body : string) : env :=
  {| which := benchy_path;
     endpoint := fun _ _ => {| reply := HttpBody body; elapsed := 0 |};
     run_process := no_process |}.

(** The sleeps of a trace. *)
Definition is_sleep (e : event) : bool :=
  match e with Sleep _ => true | _ => false end.

Definition sleeps (tr : list event) : list event := filter is_sleep tr.

(** A recipe without a [benchmark] block, and one that asks for a framework
    that is not supported. *)
Definition bare_recipe : list (string * value sample_float) :=
  [("model", VStr "Qwen/Qwen3-8B"); ("defaults", VDict [("port", VInt 8000)])].

Definition foreign_recipe : list (string * value sample_float) :=
  [("benchmark", VDict [("enabled", VBool true); ("framework", VStr "genai-perf")])].

Definition models_url_8000 : string := "http://localhost:8000/v1/models".

(** The class of the exception a call ended with, if it raised. *)
Definition exn_cls_of {A} (r : result A) : option exn_class :=
  match r with
  | Raise e => Some (exn_cls e)
  | Ret _ => None
  end.

(** ** The entry point *)

(** What [parse_args] hands to [main]: the positional [recipe], the value of
    [--save-result] when it is given, and [--dry-run]. *)
Record cli_args := {
  arg_recipe : string;
  arg_save_result : option string;
  arg_dry_run : bool
}.

Section Main.
Context `{Runtime}.
Variable RECIPES_DIR : path.
Variable fs : filesystem.
(** [yaml.safe_load] of the file at a path, or what opening or parsing it
    raises. *)
Variable load_yaml : path -> result pyvalue.
Variable E : env.

(** The error of [v["save_result"] = ...] on a value that is no mapping. *)
Definition no_item_assignment (v : pyvalue) : exn :=
  match v with
  | VList _ => Exn TypeError "list indices must be integers or slices, not str"
  | _ => Exn TypeError ("'" +++ type_name v +++ "' object does not support item assignment")
  end.

(** Line 239:
    [recipe.setdefault("benchmark", {}).setdefault("args", {})["save_result"] = path]. *)
Definition override_save_result (recipe : dict) (path : string) : dict * result unit :=
  let (recipe1, benchmark) := dict_setdefault recipe "benchmark" (VDict []) in
  match benchmark with
  | VDict b0 =>
      let (b1, args) := dict_setdefault b0 "args" (VDict []) in
      match args with
      | VDict a =>
          (dict_set recipe1 "benchmark"
                    (VDict (dict_set b1 "args"
                                     (VDict (dict_set a "save_result" (VStr path))))),
           Ret tt)
      | other => (dict_set recipe1 "benchmark" (VDict b1), Raise (no_item_assignment other))
      end
  | other => (recipe1, Raise (no_attribute other "setdefault"))
  end.

(** [main()], from the parsed arguments on: the exit code, or the exception
    that ends the process. *)
Definition main (fuel : nat) (args : cli_args) (st : state)
  : option (result Z * state) :=
  match resolve_recipe_path RECIPES_DIR fs (arg_recipe args) with
  | Raise e => Some (Raise e, st)
  | Ret recipe_path =>
      match load_yaml recipe_path with
      | Raise e => Some (Raise e, st)
      | Ret (VDict recipe) =>
          let (recipe1, valid) := validate_recipe_benchmark_config (which E) recipe in
          match valid with
          | Raise e => Some (Raise e, st)
          | Ret _ =>
              match benchmark_enabled recipe1 with
              | Raise e => Some (Raise e, st)
              | Ret false => Some ((print disabled_message ;;; ret (Ret 1)) st)
              | Ret true =>
                  let (recipe2, overridden) :=
                    match arg_save_result args with
                    | Some path =>
                        if nonempty path then override_save_result recipe1 path
                        else (recipe1, Ret tt)
                    | None => (recipe1, Ret tt)
                    end in
                  match overridden with
                  | Raise e => Some (Raise e, st)
                  | Ret _ =>
                      match run_recipe_benchmark E fuel recipe2 (arg_dry_run args) st with
                      | None => None
                      | Some ((_, code), st') => Some (code, st')
                      end
                  end
              end
          end
      | Ret other => Some (Raise (no_attribute other "setdefault"), st)
      end
  end.

End Main.

(** ** Measures on traces and strings *)

(** The processes started in a trace. *)
Definition is_exec (e : event) : bool :=
  match e with Exec _ => true | _ => false end.

Definition execs (tr : list event) : list event := filter is_exec tr.

(** Whether a character occurs in a string. *)
Fixpoint occurs (c : ascii) (s : string) : bool :=
  match s with
  | EmptyString => false
  | String c' s' => Ascii.eqb c' c || occurs c s'
  end.

(** The clock at the start of the [n]-th turn of the polling loop that
    begins in [st], when every turn before it is retried. *)
Fixpoint turn_start (E : env) (models_url : string) (interval_seconds : Z)
         (st : state) (n : nat) : Z :=
  match n with
  | O => now st
  | S n' =>
      turn_start E models_url interval_seconds st n'
      + Z.of_N (elapsed (endpoint E models_url (requests st + n')%nat))
      + interval_seconds
  end.

(** A run of [setdefault] calls, one per default, in order. *)
Definition setdefaults {V : Type} (d defaults : list (string * V)) : list (string * V) :=
  fold_left (fun acc kv => fst (dict_setdefault acc (fst kv) (snd kv))) defaults d.

(** The defaults of [apply_llama_benchy_defaults], in its order. *)
Definition llama_benchy_defaults `{Runtime} : dict :=
  [("pp", VList [VInt 2048]); ("depth", VList [VInt 0]);
   ("save_result", VStr "test.md"); ("enable_prefix_caching", VBool true)].

(** ** More sample inputs *)

(** Recipes: benchmark switched off, benchmark given as null, defaults
    given as null, and arguments that set [pp]. *)
Definition disabled_recipe : list (string * value sample_float) :=
  [("benchmark", VDict [("enabled", VBool false)])].

Definition null_benchmark_recipe : list (string * value sample_float) :=
  [("benchmark", VNone)].

Definition null_defaults_recipe : list (string * value sample_float) :=
  [("defaults", VNone)].

Definition short_prompt_args : list (string * value sample_float) :=
  [("pp", VList [VInt 512])].

(** [{"data": []}] and [{"data": [{"model": "m2"}]}] *)
Definition empty_body : string := "{" +++ quoted "data" +++ ": []}".
Definition empty_payload : value sample_float := VDict [("data", VList [])].

Definition model_body : string :=
  "{" +++ quoted "data" +++ ": [{" +++ quoted "model" +++ ": " +++ quoted "m2" +++ "}]}".
Definition model_payload : value sample_float :=
  VDict [("data", VList [VDict [("model", VStr "m2")]])].

Definition warming_bodies : list (string * value sample_float) :=
  [(empty_body, empty_payload); (model_body, model_payload)].

(** A server that lists no model on its first two replies and the model
    [m2] afterwards, each reply taking a second; the benchmark process ends
    with code 3. *)
Definition warming_env : env :=
  {| which := benchy_path;
     endpoint := fun _ n =>
       {| reply := HttpBody (if (n <? 2)%nat then empty_body else model_body);
          elapsed := 1 |};
     run_process := fun _ => Ret 3 |}.

(** A server that is ready at once, and a benchmark process that ends with
    code 3. *)
Definition ready_env : env :=
  {| which := benchy_path;
     endpoint := fun _ _ => {| reply := HttpBody ready_body; elapsed := 0 |};
     run_process := fun _ => Ret 3 |}.

(** File systems with every path and with none; a loader that gives the
    dry-run recipe for every file, and one that finds every file empty. *)
Definition every_file : filesystem := fun _ => true.
Definition no_file : filesystem := fun _ => false.

Definition load_dry_run_recipe : path -> result (value sample_float) :=
  fun _ => Ret (VDict dry_run_recipe).

Definition load_empty_file : path -> result (value sample_float) :=
  fun _ => Ret VNone.

Definition dry_run_args : cli_args :=
  {| arg_recipe := "foo"; arg_save_result := None; arg_dry_run := true |}.

Definition save_result_args : cli_args :=
  {| arg_recipe := "foo"; arg_save_result := Some "out.md"; arg_dry_run := true |}.

(** ** The replies that the prober retries on, as the specification words them *)

Section RetriedReplies.
Context `{Runtime}.

(** A JSON mapping without a usable model entry: its [data] is missing, is
    not a list, is an empty list, or is a list whose first element names
    no model. *)
Definition lacks_usable_entry (payload : dict) : bool :=
  match dict_get payload "data" with
  | None => true
  | Some (VList []) => true
  | Some (VList (first :: _)) => names_no_model first
  | Some _ => true
  end.

(** The error that is recorded for a reply to retry on: the text of a
    transport failure; "non-JSON" for a body that is not JSON; "No model
    entry found" for a JSON mapping without a usable model entry; and, for
    JSON that is not a mapping at all, the text of the AttributeError of
    its [get].  [None] for a reply that names a model. *)
Definition recorded_error (r : http_reply) : option string :=
  match r with
  | HttpFailed error => Some error
  | HttpBody body =>
      match json_loads body with
      | None => Some "non-JSON /v1/models response"
      | Some (VDict payload) =>
          if lacks_usable_entry payload
          then Some "No model entry found in /v1/models response"
          else None
      | Some other =>
          Some ("'" +++ type_name other +++ "' object has no attribute 'get'")
      end
  end.

(** The error in hand after [n] retried turns of the loop that begins in
    [st] with [initial]: that of the last of the [n] replies. *)
Definition last_recorded_error (E : env) (models_url : string) (st : state)
           (n : nat) (initial : string) : string :=
  match n with
  | O => initial
  | S k =>
      match recorded_error (reply (endpoint E models_url (requests st + k)%nat)) with
      | Some error => error
      | None => initial
      end
  end.

End RetriedReplies.

(** A server whose every reply is [{"data": []}] and takes a second. *)
Definition loading_env : env :=
  {| which := benchy_path;
     endpoint := fun _ _ => {| reply := HttpBody empty_body; elapsed := 1 |};
     run_process := fun _ => Ret 3 |}.

(** * Properties *)

(** ** Dictionaries *)

Section DictFacts.
Context {V : Type}.
Implicit Types (d : list (string * V)) (k : string) (v : V).

Lemma dict_get_app d1 d2 k :
  dict_get (d1 ++ d2) k =
  match dict_get d1 k with
  | Some v => Some v
  | None => dict_get d2 k
  end.
Proof.
  induction d1 as [|[k' v'] d1 IH]; simpl; [reflexivity|].
  destruct (String.eqb k' k); [reflexivity | exact IH].
Qed.

Lemma dict_get_set d k v k' :
  dict_get (dict_set d k v) k' =
  if String.eqb k k' then Some v else dict_get d k'.
Proof.
  induction d as [|[k0 v0] d IH]; simpl.
  - reflexivity.
  - destruct (String.eqb k0 k) eqn:E0; simpl.
    + apply String.eqb_eq in E0; subst k0.
      destruct (String.eqb k k'); reflexivity.
    + rewrite IH. destruct (String.eqb k0 k') eqn:E1; [|reflexivity].
      apply String.eqb_eq in E1; subst k0. rewrite String.eqb_sym, E0. reflexivity.
Qed.

Lemma dict_set_app_absent d k v v' :
  dict_get d k = None ->
  dict_set (d ++ [(k, v)]) k v' = d ++ [(k, v')].
Proof.
  induction d as [|[k0 v0] d IH]; simpl; intros Hget.
  - rewrite String.eqb_refl. reflexivity.
  - destruct (String.eqb k0 k); [discriminate|]. rewrite IH by assumption. reflexivity.
Qed.

Lemma dict_set_same d k v :
  dict_get d k = Some v -> dict_set d k v = d.
Proof.
  induction d as [|[k0 v0] d IH]; simpl; intros Hget; [discriminate|].
  destruct (String.eqb k0 k) eqn:E0.
  - apply String.eqb_eq in E0. congruence.
  - rewrite IH by assumption. reflexivity.
Qed.

Lemma setdefault_present d k v x :
  dict_get d k = Some x -> dict_setdefault d k v = (d, x).
Proof. unfold dict_setdefault. intros ->. reflexivity. Qed.

Lemma setdefault_absent d k v :
  dict_get d k = None -> dict_setdefault d k v = (d ++ [(k, v)], v).
Proof. unfold dict_setdefault. intros ->. reflexivity. Qed.

(** After [setdefault] the key is bound. *)
Lemma setdefault_binds d k v :
  exists x, dict_get (fst (dict_setdefault d k v)) k = Some x.
Proof.
  unfold dict_setdefault. destruct (dict_get d k) eqn:E; simpl.
  - eauto.
  - rewrite dict_get_app, E. simpl. rewrite String.eqb_refl. eauto.
Qed.

(** [setdefault] never rebinds a key. *)
Lemma setdefault_keeps d k v k' x :
  dict_get d k' = Some x ->
  dict_get (fst (dict_setdefault d k v)) k' = Some x.
Proof.
  unfold dict_setdefault. intros Hget. destruct (dict_get d k); simpl.
  - assumption.
  - rewrite dict_get_app, Hget. reflexivity.
Qed.

Lemma setdefault_fixed d k v x :
  dict_get d k = Some x -> fst (dict_setdefault d k v) = d.
Proof. intros Hget. rewrite (setdefault_present _ _ _ _ Hget). reflexivity. Qed.

End DictFacts.

(** ** The validator *)

Section ValidatorFacts.
Context `{Runtime}.
Variable which : path_env.

Lemma normalised_complete (b0 : dict) :
  exists e f a,
    dict_get (normalised b0) "enabled" = Some e /\
    dict_get (normalised b0) "framework" = Some f /\
    dict_get (normalised b0) "args" = Some a.
Proof.
  unfold normalised.
  destruct (setdefault_binds b0 "enabled" (VBool false)) as [e He].
  set (b1 := fst (dict_setdefault b0 "enabled" (VBool false))) in *.
  destruct (setdefault_binds b1 "framework" (VStr "llama-benchy")) as [f Hf].
  set (b2 := fst (dict_setdefault b1 "framework" (VStr "llama-benchy"))) in *.
  destruct (setdefault_binds b2 "args" (VDict [])) as [a Ha].
  exists e, f, a. repeat split.
  - apply setdefault_keeps, setdefault_keeps, He.
  - apply setdefault_keeps, Hf.
  - exact Ha.
Qed.

Lemma normalised_idem (b0 : dict) : normalised (normalised b0) = normalised b0.
Proof.
  destruct (normalised_complete b0) as (e & f & a & He & Hf & Ha).
  set (n := normalised b0) in *. unfold normalised at 1.
  rewrite (setdefault_fixed n _ _ _ He), (setdefault_fixed n _ _ _ Hf),
    (setdefault_fixed n _ _ _ Ha).
  reflexivity.
Qed.

Lemma validate_on_dict (recipe b0 : dict) :
  dict_get recipe "benchmark" = Some (VDict b0) ->
  validate_recipe_benchmark_config which recipe =
  (dict_set recipe "benchmark" (VDict (normalised b0)),
   check_benchmark which (normalised b0)).
Proof.
  intros Hb. unfold validate_recipe_benchmark_config.
  rewrite (setdefault_present _ _ _ _ Hb). reflexivity.
Qed.

Lemma validate_on_missing (recipe : dict) :
  dict_get recipe "benchmark" = None ->
  validate_recipe_benchmark_config which recipe =
  (recipe ++ [("benchmark", VDict (normalised []))],
   check_benchmark which (normalised [])).
Proof.
  intros Hb. unfold validate_recipe_benchmark_config.
  rewrite (setdefault_absent _ _ _ Hb).
  rewrite (dict_set_app_absent _ _ _ _ Hb). reflexivity.
Qed.

Lemma normalised_keeps (b0 : dict) k x :
  dict_get b0 k = Some x -> dict_get (normalised b0) k = Some x.
Proof.
  intros Hk. unfold normalised. do 3 apply setdefault_keeps. exact Hk.
Qed.

Lemma validate_on_other (recipe : dict) (v : pyvalue) :
  dict_get recipe "benchmark" = Some v ->
  (forall b0, v <> VDict b0) ->
  validate_recipe_benchmark_config which recipe =
  (recipe, Raise (no_attribute v "setdefault")).
Proof.
  intros Hb Hv. unfold validate_recipe_benchmark_config.
  rewrite (setdefault_present _ _ _ _ Hb).
  destruct v; try reflexivity. exfalso. exact (Hv d eq_refl).
Qed.

Lemma py_eq_str_false (v : pyvalue) s :
  v <> VStr s -> py_eq_str v s = false.
Proof.
  destruct v; simpl; try reflexivity.
  intros Hne. destruct (String.eqb s0 s) eqn:Es; [|reflexivity].
  apply String.eqb_eq in Es. congruence.
Qed.

(** C5: for every recipe with no [benchmark] key, validation succeeds,
    whatever is installed, and leaves the recipe with
    [benchmark = {enabled: False, framework: "llama-benchy", args: {}}]
    added after the keys it had; every other key keeps its value. *)
Theorem validate_missing_benchmark_defaults (recipe : dict) :
  dict_get recipe "benchmark" = None ->
  let benchmark : pyvalue :=
    VDict [("enabled", VBool false);
           ("framework", VStr "llama-benchy");
           ("args", VDict [])] in
  exists recipe' : dict,
    validate_recipe_benchmark_config which recipe = (recipe', Ret tt) /\
    recipe' = recipe ++ [("benchmark", benchmark)] /\
    dict_get recipe' "benchmark" = Some benchmark /\
    (forall k, k <> "benchmark" -> dict_get recipe' k = dict_get recipe k).
Proof.
  intros Hb benchmark.
  exists (recipe ++ [("benchmark", benchmark)]). split; [|split; [|split]].
  - rewrite (validate_on_missing _ Hb). reflexivity.
  - reflexivity.
  - rewrite dict_get_app, Hb. reflexivity.
  - intros k Hk. rewrite dict_get_app.
    destruct (dict_get recipe k); [reflexivity|]. cbn [dict_get].
    destruct (String.eqb "benchmark" k) eqn:Ek; [|reflexivity].
    apply String.eqb_eq in Ek. congruence.
Qed.

(** C6: for every recipe whose [benchmark.framework] is present, is a
    value that can be looked up in the supported set (a str or any other
    hashable value) and is not ["llama-benchy"], validation raises the
    ValueError "Unsupported benchmark framework", whatever
    [benchmark.enabled] holds and whatever is installed. *)
Theorem validate_unsupported_framework (recipe b : dict) (fw : pyvalue) :
  dict_get recipe "benchmark" = Some (VDict b) ->
  dict_get b "framework" = Some fw ->
  hashable fw = true ->
  fw <> VStr "llama-benchy" ->
  snd (validate_recipe_benchmark_config which recipe) =
  Raise (Exn ValueError
           ("Unsupported benchmark framework in recipe: " +++ py_str fw +++ nl
              +++ "Supported frameworks: llama-benchy")).
Proof.
  intros Hb Hfw Hhash Hne.
  rewrite (validate_on_dict _ _ Hb). simpl snd.
  unfold check_benchmark. rewrite (normalised_keeps _ _ _ Hfw).
  unfold py_in_str_set. rewrite Hhash. simpl.
  rewrite (py_eq_str_false _ _ Hne). reflexivity.
Qed.

(** C7: validation is idempotent: when it succeeds on a recipe, running
    it again on the recipe it left succeeds and leaves that recipe as it
    is. *)
Theorem validate_idempotent (recipe recipe' : dict) :
  validate_recipe_benchmark_config which recipe = (recipe', Ret tt) ->
  validate_recipe_benchmark_config which recipe' = (recipe', Ret tt).
Proof.
  intros Hrun.
  assert (Hshape : exists b0,
             dict_get recipe' "benchmark" = Some (VDict (normalised b0)) /\
             check_benchmark which (normalised b0) = Ret tt).
  { destruct (dict_get recipe "benchmark") as [v|] eqn:Hb.
    - destruct v as [| | | | | |b0];
        try (rewrite (validate_on_other _ _ Hb) in Hrun by discriminate;
             discriminate).
      rewrite (validate_on_dict _ _ Hb) in Hrun.
      injection Hrun as <- Hcheck. exists b0. split; [|exact Hcheck].
      rewrite dict_get_set, String.eqb_refl. reflexivity.
    - rewrite (validate_on_missing _ Hb) in Hrun.
      injection Hrun as <-. exists []. split; [|reflexivity].
      rewrite dict_get_app, Hb. reflexivity. }
  destruct Hshape as (b0 & Hget & Hcheck).
  rewrite (validate_on_dict _ _ Hget), normalised_idem, Hcheck.
  rewrite (dict_set_same _ _ _ Hget). reflexivity.
Qed.

End ValidatorFacts.

(** ** The command builder *)

Lemma replace_char_get (a b : ascii) (s : string) (i : nat) :
  String.get i (replace_char a b s) =
  option_map (fun c => if Ascii.eqb c a then b else c) (String.get i s).
Proof.
  revert i. induction s as [|c s IH]; intros i; simpl.
  - reflexivity.
  - destruct i; simpl; [reflexivity | apply IH].
Qed.

Lemma replace_char_length (a b : ascii) (s : string) :
  String.length (replace_char a b s) = String.length s.
Proof. induction s; simpl; congruence. Qed.

Section BuilderFacts.
Context `{Runtime}.

Lemma append_cli_arg_tokens (exclude_keys : option (list string))
      (cmd : list string) (item : string * pyvalue) :
  append_cli_arg (match exclude_keys with Some (k :: ks) => k :: ks | _ => [] end)
                 cmd item
  = cmd ++ item_tokens exclude_keys item.
Proof.
  destruct item as [key value]. unfold append_cli_arg, item_tokens, excluded.
  cbn [fst snd].
  assert (Hex : existsb (String.eqb key)
                  (match exclude_keys with Some (k :: ks) => k :: ks | _ => [] end)
                = match exclude_keys with
                  | Some keys => existsb (String.eqb key) keys
                  | None => false
                  end).
  { destruct exclude_keys as [[|k ks]|]; reflexivity. }
  rewrite Hex. clear Hex.
  destruct (match exclude_keys with
            | Some keys => existsb (String.eqb key) keys
            | None => false
            end).
  - rewrite app_nil_r. reflexivity.
  - unfold arg_tokens, flag_of_key.
    destruct value as [| [|] | | | | [|x l] |]; cbn [app];
      rewrite ?app_nil_r, <- ?app_assoc; reflexivity.
Qed.

Lemma append_cli_args_tokens (exclude_keys : option (list string))
      (args : dict) (cmd : list string) :
  append_cli_args_from_dict cmd args exclude_keys
  = cmd ++ flat_map (item_tokens exclude_keys) args.
Proof.
  unfold append_cli_args_from_dict. revert cmd.
  induction args as [|item args IH]; intros cmd; cbn [fold_left flat_map].
  - rewrite app_nil_r. reflexivity.
  - rewrite append_cli_arg_tokens, IH, <- app_assoc. reflexivity.
Qed.

(** C2, as amended: an entry whose key is not in the exclusion set of
    the call is converted by the rules (true gives the flag alone, false
    and the empty list nothing, another list the flag and one token per
    element, anything else the flag and its string form), the flag being
    the key with every underscore turned into a hyphen after [--]; an
    entry whose key is excluded gives no token; the entries are converted
    one after the other, in the order of the mapping. *)
Theorem append_cli_args_rules (exclude_keys : option (list string))
        (cmd : list string) (key : string) :
  excluded exclude_keys key = false ->
  let flag := "--" +++ replace_char "_" "-" key in
  let emitted (value : pyvalue) :=
    append_cli_args_from_dict cmd [(key, value)] exclude_keys in
  emitted (VBool true) = cmd ++ [flag] /\
  emitted (VBool false) = cmd /\
  emitted (VList []) = cmd /\
  (forall x l, emitted (VList (x :: l)) = cmd ++ flag :: map py_str (x :: l)) /\
  (forall v, (forall b, v <> VBool b) -> (forall l, v <> VList l) ->
             emitted v = cmd ++ [flag; py_str v]) /\
  append_cli_args_from_dict [] [("foo_bar", VList [VInt 1; VInt 2])] None
  = ["--foo-bar"; "1"; "2"] /\
  String.length (replace_char "_" "-" key) = String.length key /\
  (forall i, String.get i (replace_char "_" "-" key) =
             option_map (fun c => if Ascii.eqb c "_" then "-"%char else c)
                        (String.get i key)) /\
  (forall args : dict,
      append_cli_args_from_dict cmd args exclude_keys
      = cmd ++ flat_map (item_tokens exclude_keys) args) /\
  (forall (k : string) (value : pyvalue),
      excluded exclude_keys k = true ->
      append_cli_args_from_dict cmd [(k, value)] exclude_keys = cmd).
Proof.
  intros Hkey flag emitted.
  assert (Hone : forall value, emitted value = cmd ++ arg_tokens key value).
  { intros value. unfold emitted. rewrite append_cli_args_tokens.
    cbn [flat_map]. unfold item_tokens. cbn [fst snd]. rewrite Hkey, app_nil_r.
    reflexivity. }
  repeat split.
  - rewrite Hone. reflexivity.
  - rewrite Hone. cbn [arg_tokens]. apply app_nil_r.
  - rewrite Hone. cbn [arg_tokens]. apply app_nil_r.
  - intros x l. rewrite Hone. reflexivity.
  - intros v Hb Hl. rewrite Hone.
    destruct v; try reflexivity.
    + exfalso. exact (Hb b eq_refl).
    + exfalso. exact (Hl l eq_refl).
  - apply replace_char_length.
  - intros i. apply replace_char_get.
  - intros args. apply append_cli_args_tokens.
  - intros k value Hk. rewrite append_cli_args_tokens.
    cbn [flat_map]. unfold item_tokens. cbn [fst snd]. rewrite Hk. cbn [app].
    apply app_nil_r.
Qed.

Lemma base_url_frame (recipe : dict) (v : pyvalue) :
  get_recipe_base_url (dict_set recipe "benchmark" v) = get_recipe_base_url recipe.
Proof.
  unfold get_recipe_base_url. rewrite dict_get_set. reflexivity.
Qed.

Lemma build_on_dict (recipe b a : dict) (model : string) :
  dict_get recipe "benchmark" = Some (VDict b) ->
  dict_get b "args" = Some (VDict a) ->
  build_llama_benchy_command recipe model =
  (dict_set recipe "benchmark"
            (VDict (dict_set b "args" (VDict (apply_llama_benchy_defaults a)))),
   rbind (get_recipe_base_url recipe) (fun base_url =>
   Ret (append_cli_args_from_dict
          ["llama-benchy"; "--base-url"; base_url; "--model"; model]
          (apply_llama_benchy_defaults a) (Some ["base_url"; "model"])))).
Proof.
  intros Hb Ha. unfold build_llama_benchy_command.
  rewrite Hb, (setdefault_present _ _ _ _ Ha), base_url_frame. reflexivity.
Qed.

End BuilderFacts.

(** ** The dry run *)

Section DryRun.
Context `{Runtime}.

Lemma normalised_framework (b : dict) :
  dict_get b "framework" = None \/ dict_get b "framework" = Some (VStr "llama-benchy") ->
  dict_get (normalised b) "framework" = Some (VStr "llama-benchy").
Proof.
  intros [Hf|Hf]; [|apply normalised_keeps, Hf].
  unfold normalised. apply setdefault_keeps.
  set (b1 := fst (dict_setdefault b "enabled" (VBool false))).
  assert (H1 : dict_get b1 "framework" = None).
  { unfold b1, dict_setdefault. destruct (dict_get b "enabled"); cbn [fst].
    - exact Hf.
    - rewrite dict_get_app, Hf. reflexivity. }
  rewrite (setdefault_absent _ _ _ H1). cbn [fst].
  rewrite dict_get_app, H1. reflexivity.
Qed.

Lemma check_enabled_llama_benchy (which : path_env) (nb : dict) (e : pyvalue) :
  dict_get nb "framework" = Some (VStr "llama-benchy") ->
  dict_get nb "enabled" = Some e ->
  py_truth e = true ->
  check_benchmark which nb =
  match which "llama-benchy" with
  | None => Raise missing_llama_benchy
  | Some _ => Ret tt
  end.
Proof.
  intros Hf He Ht. unfold check_benchmark. rewrite Hf, He. cbn. rewrite Ht.
  destruct (which "llama-benchy"); reflexivity.
Qed.

Lemma network_calls_app (tr1 tr2 : list event) :
  network_calls (tr1 ++ tr2) = network_calls tr1 ++ network_calls tr2.
Proof. apply filter_app. Qed.

(** C1, as amended: for a recipe with [benchmark.enabled = true],
    [defaults.port = 8080] and [benchmark.args = {temperature: 0.5}], the
    dry-run command is [llama-benchy --base-url http://localhost:8080/v1
    --model __from_v1_models__ --temperature 0.5 --pp 2048 --depth 0
    --save-result test.md --enable-prefix-caching]: the recipe's own
    argument comes first and the defaults follow it.  The dry run makes
    no network call; with [llama-benchy] installed it prints that command
    and returns 0. *)
Theorem dry_run_builds_command (recipe d b : dict) (half : float) :
  float_str half = "0.5" ->
  dict_get recipe "defaults" = Some (VDict d) ->
  dict_get d "port" = Some (VInt 8080) ->
  dict_get recipe "benchmark" = Some (VDict b) ->
  dict_get b "enabled" = Some (VBool true) ->
  dict_get b "framework" = None \/ dict_get b "framework" = Some (VStr "llama-benchy") ->
  dict_get b "args" = Some (VDict [("temperature", VFloat half)]) ->
  snd (build_llama_benchy_command recipe default_model) = Ret dry_run_command /\
  forall (E : env) (fuel : nat) (st : state),
    (exists out st',
        run_recipe_benchmark E fuel recipe true st = Some (out, st') /\
        network_calls (trace st') = network_calls (trace st) /\
        requests st' = requests st) /\
    (which E "llama-benchy" <> None ->
     exists recipe' : dict,
       run_recipe_benchmark E fuel recipe true st =
       Some ((recipe', Ret 0),
             {| now := now st;
                requests := requests st;
                trace := trace st ++
                  [Printed (nl +++ "=== Running Benchmark ===");
                   Printed ("llama-benchy --base-url http://localhost:8080/v1 "
                            +++ "--model __from_v1_models__ --temperature 0.5 "
                            +++ "--pp 2048 --depth 0 --save-result test.md "
                            +++ "--enable-prefix-caching")] |})).
Proof.
  intros Hhalf Hd Hport Hb Hen Hfw Hargs.
  assert (Hurl : forall r : dict,
             dict_get r "defaults" = Some (VDict d) ->
             get_recipe_base_url r = Ret "http://localhost:8080/v1").
  { intros r Hr. unfold get_recipe_base_url. rewrite Hr. cbv beta iota.
    rewrite Hport. reflexivity. }
  assert (Hbuild : forall (r b' : dict),
             dict_get r "defaults" = Some (VDict d) ->
             dict_get r "benchmark" = Some (VDict b') ->
             dict_get b' "args" = Some (VDict [("temperature", VFloat half)]) ->
             snd (build_llama_benchy_command r default_model) = Ret dry_run_command).
  { intros r b' Hr Hb' Ha'. rewrite (build_on_dict _ _ _ _ Hb' Ha'). cbn [snd].
    rewrite (Hurl _ Hr). cbn. rewrite Hhalf. reflexivity. }
  split; [exact (Hbuild _ _ Hd Hb Hargs)|].
  intros E fuel st.
  unfold run_recipe_benchmark.
  rewrite (validate_on_dict _ _ _ Hb).
  rewrite (check_enabled_llama_benchy (which E) (normalised b) (VBool true)
             (normalised_framework _ Hfw) (normalised_keeps _ _ _ Hen) eq_refl).
  set (recipe1 := dict_set recipe "benchmark" (VDict (normalised b))).
  assert (Hb1 : dict_get recipe1 "benchmark" = Some (VDict (normalised b))).
  { unfold recipe1. rewrite dict_get_set. reflexivity. }
  assert (Hd1 : dict_get recipe1 "defaults" = Some (VDict d)).
  { unfold recipe1. rewrite dict_get_set. exact Hd. }
  destruct (which E "llama-benchy") as [exe|] eqn:Hwhich.
  - unfold benchmark_enabled. rewrite Hb1, (normalised_keeps _ _ _ Hen). cbn [py_truth].
    pose proof (Hbuild _ _ Hd1 Hb1 (normalised_keeps _ _ _ Hargs)) as Hcmd.
    destruct (build_llama_benchy_command recipe1 default_model) as [recipe2 built].
    cbn [snd] in Hcmd. subst built.
    split.
    + eexists. eexists. split; [reflexivity|]. cbn.
      rewrite <- app_assoc, network_calls_app. cbn. rewrite app_nil_r. auto.
    + intros _. exists recipe2. cbn. rewrite <- app_assoc. reflexivity.
  - split.
    + eexists. eexists. split; [reflexivity|]. auto.
    + intros Hne. congruence.
Qed.

End DryRun.

(** ** Recipe paths *)

Section ResolverFacts.
Variable RECIPES_DIR : path.
Variable fs : filesystem.

Lemma find_first_existing (pre post : list path) (c : path) :
  forallb (fun q => negb (fs q)) pre = true ->
  fs c = true ->
  find fs (pre ++ c :: post) = Some c.
Proof.
  induction pre as [|q pre IH]; cbn [app find forallb]; intros Hpre Hc.
  - rewrite Hc. reflexivity.
  - apply andb_prop in Hpre. destruct Hpre as [Hq Hpre].
    apply negb_true_iff in Hq. rewrite Hq. exact (IH Hpre Hc).
Qed.

Lemma find_none_existing (l : list path) :
  forallb (fun q => negb (fs q)) l = true -> find fs l = None.
Proof.
  induction l as [|q l IH]; cbn [find forallb]; intros Hl; [reflexivity|].
  apply andb_prop in Hl. destruct Hl as [Hq Hl].
  apply negb_true_iff in Hq. rewrite Hq. exact (IH Hl).
Qed.

(** The resolver returns the first path of the search order that exists. *)
Lemma resolve_as_find (recipe_arg : string) :
  resolve_recipe_path RECIPES_DIR fs recipe_arg =
  match find fs (search_order RECIPES_DIR recipe_arg) with
  | Some c => Ret c
  | None => Raise (recipe_not_found recipe_arg)
  end.
Proof.
  unfold resolve_recipe_path, search_order. cbn [find].
  destruct (fs (Path recipe_arg)); reflexivity.
Qed.

(** C8, as amended: the resolver tries the literal path, then the recipes
    directory joined with the basename, with the basename plus [.yaml],
    with the basename plus [.yml], and with the stem plus [.yaml]; it
    returns the first of them that exists and raises "Recipe not found"
    when none does.  A bare name [foo] resolves to [<recipes_dir>/foo.yaml]
    when that file exists and neither the literal path [foo] nor
    [<recipes_dir>/foo] does. *)
Theorem resolve_recipe_path_order (recipe_arg : string) :
  (forall pre c post,
      search_order RECIPES_DIR recipe_arg = pre ++ c :: post ->
      forallb (fun q => negb (fs q)) pre = true ->
      fs c = true ->
      resolve_recipe_path RECIPES_DIR fs recipe_arg = Ret c) /\
  (forallb (fun q => negb (fs q)) (search_order RECIPES_DIR recipe_arg) = true ->
   resolve_recipe_path RECIPES_DIR fs recipe_arg =
   Raise (Exn FileNotFoundError ("Recipe not found: " +++ recipe_arg))) /\
  (fs (Path "foo") = false ->
   fs (RECIPES_DIR // "foo") = false ->
   fs (RECIPES_DIR // "foo.yaml") = true ->
   resolve_recipe_path RECIPES_DIR fs "foo" = Ret (RECIPES_DIR // "foo.yaml")).
Proof.
  split; [|split].
  - intros pre c post Hsplit Hpre Hc.
    rewrite resolve_as_find, Hsplit, (find_first_existing _ _ _ Hpre Hc).
    reflexivity.
  - intros Hnone. rewrite resolve_as_find, (find_none_existing _ Hnone).
    reflexivity.
  - intros Hlit Hdir Hyaml. rewrite resolve_as_find.
    change (search_order RECIPES_DIR "foo")
      with ([Path "foo"; RECIPES_DIR // "foo"]
              ++ (RECIPES_DIR // "foo.yaml")
              :: [RECIPES_DIR // "foo.yml"; RECIPES_DIR // "foo.yaml"]).
    rewrite find_first_existing; [reflexivity| |exact Hyaml].
    cbn [forallb]. rewrite Hlit, Hdir. reflexivity.
Qed.

End ResolverFacts.


(** ** The readiness prober *)

Section ProberFacts.
Context `{Runtime}.
Variable E : env.

Lemma model_under_keys_first (f : dict) (pre post : list string) (key m : string) :
  (forall k, In k pre -> usable_name (dict_get f k) = None) ->
  usable_name (dict_get f key) = Some m ->
  model_under_keys f (pre ++ key :: post) = Some m.
Proof.
  intros Hpre Hkey. induction pre as [|k pre IH]; cbn [app model_under_keys].
  - unfold usable_name in Hkey.
    destruct (dict_get f key) as [[]|]; try discriminate.
    destruct (nonempty (strip s)); [exact Hkey | discriminate].
  - assert (Hk : usable_name (dict_get f k) = None) by (apply Hpre; left; reflexivity).
    assert (IH' : model_under_keys f (pre ++ key :: post) = Some m).
    { apply IH. intros k' Hin. apply Hpre. right. exact Hin. }
    unfold usable_name in Hk.
    destruct (dict_get f k) as [[]|]; try exact IH'.
    destruct (nonempty (strip s)); [discriminate | exact IH'].
Qed.

Lemma model_under_keys_none (f : dict) (keys : list string) :
  forallb (fun key => match usable_name (dict_get f key) with
                      | None => true
                      | Some _ => false
                      end) keys = true ->
  model_under_keys f keys = None.
Proof.
  induction keys as [|k keys IH]; cbn [forallb model_under_keys]; intros Hall.
  - reflexivity.
  - apply andb_prop in Hall. destruct Hall as [Hk Hall].
    specialize (IH Hall). unfold usable_name in Hk.
    destruct (dict_get f k) as [[]|]; try exact IH.
    destruct (nonempty (strip s)); [discriminate | exact IH].
Qed.

Lemma first_model_none (p : dict) (first : pyvalue) (rest : list pyvalue) :
  dict_get p "data" = Some (VList (first :: rest)) ->
  names_no_model first = true ->
  first_model (VDict p) = Ret None.
Proof.
  intros Hdata Hfirst. unfold first_model. rewrite Hdata.
  destruct first; try reflexivity.
  unfold names_no_model in Hfirst. rewrite (model_under_keys_none _ _ Hfirst).
  reflexivity.
Qed.

Lemma sleep_ok (interval_seconds : Z) (st : state) :
  0 <= interval_seconds ->
  time_sleep interval_seconds st =
  (Ret tt, {| now := now st + interval_seconds;
              requests := requests st;
              trace := trace st ++ [Sleep interval_seconds] |}).
Proof.
  intros Hi. unfold time_sleep.
  destruct (interval_seconds <? 0) eqn:Hlt; [|reflexivity].
  apply Z.ltb_lt in Hlt. lia.
Qed.

Lemma probe_once_retry (models_url : string) (interval_seconds : Z) (st : state)
      (error : string) :
  0 <= interval_seconds ->
  retry_reason (reply (endpoint E models_url (requests st))) = Some error ->
  exists prints,
    Forall is_print prints /\
    probe_once E models_url interval_seconds st =
    (Retry error, after_retry E models_url interval_seconds prints st).
Proof.
  intros Hi Hreason. unfold probe_once, bind, http_get, after_retry.
  unfold retry_reason in Hreason.
  destruct (reply (endpoint E models_url (requests st))) as [err|body].
  - injection Hreason as ->. exists [].
    split; [constructor|].
    unfold sleep_then_retry, bind. rewrite (sleep_ok _ _ Hi).
    cbn [now requests trace ret]. rewrite <- !app_assoc. reflexivity.
  - unfold print, emit. cbn [now requests trace].
    destruct (json_loads body) as [payload|].
    + destruct (first_model payload) as [[model|]|e].
      * discriminate.
      * injection Hreason as <-.
        exists [Printed (endpoint_banner models_url); Printed (json_dumps payload);
                Printed "Endpoint reachable but model list is empty/invalid, retrying..."].
        split; [repeat constructor|].
        unfold sleep_then_retry, bind. rewrite (sleep_ok _ _ Hi).
        cbn [now requests trace ret]. rewrite <- !app_assoc. reflexivity.
      * injection Hreason as <-.
        exists [Printed (endpoint_banner models_url); Printed (json_dumps payload)].
        split; [repeat constructor|].
        unfold sleep_then_retry, bind. rewrite (sleep_ok _ _ Hi).
        cbn [now requests trace ret]. rewrite <- !app_assoc. reflexivity.
    + injection Hreason as <-.
      exists [Printed (endpoint_banner models_url); Printed body].
      split; [repeat constructor|].
      rewrite (sleep_ok _ _ Hi).
      cbn [now requests trace ret]. rewrite <- !app_assoc. reflexivity.
Qed.

Lemma probe_once_resolved (models_url : string) (interval_seconds : Z) (st : state)
      (body : string) (payload : pyvalue) (model : string) :
  reply (endpoint E models_url (requests st)) = HttpBody body ->
  json_loads body = Some payload ->
  first_model payload = Ret (Some model) ->
  probe_once E models_url interval_seconds st =
  (Resolved model,
   {| now := now st + Z.of_N (elapsed (endpoint E models_url (requests st)));
      requests := S (requests st);
      trace := trace st ++
        [HttpGet models_url;
         Printed (endpoint_banner models_url);
         Printed (json_dumps payload);
         Printed ("Resolved first model from /v1/models: " +++ model)] |}).
Proof.
  intros Hreply Hloads Hfirst. unfold probe_once, bind, http_get.
  rewrite Hreply. unfold print, emit. cbn [now requests trace].
  rewrite Hloads, Hfirst. cbn [now requests trace ret].
  rewrite <- !app_assoc. reflexivity.
Qed.

(** A turn either resolves a model or is retried after the sleep; it never
    lets an exception out when the interval is not negative. *)
Lemma probe_once_cases (models_url : string) (interval_seconds : Z) (st : state) :
  0 <= interval_seconds ->
  (exists model st',
      probe_once E models_url interval_seconds st = (Resolved model, st') /\
      retry_reason (reply (endpoint E models_url (requests st))) = None) \/
  (exists error prints,
      probe_once E models_url interval_seconds st =
      (Retry error, after_retry E models_url interval_seconds prints st) /\
      retry_reason (reply (endpoint E models_url (requests st))) = Some error).
Proof.
  intros Hi.
  destruct (retry_reason (reply (endpoint E models_url (requests st))))
    as [error|] eqn:Hreason.
  - right. destruct (probe_once_retry _ _ _ _ Hi Hreason) as (prints & _ & Hrun).
    exists error, prints. split; [exact Hrun | reflexivity].
  - left. unfold retry_reason in Hreason.
    destruct (reply (endpoint E models_url (requests st))) as [err|body] eqn:Hreply;
      [discriminate|].
    destruct (json_loads body) as [payload|] eqn:Hloads; [|discriminate].
    destruct (first_model payload) as [[model|]|e] eqn:Hfirst; try discriminate.
    exists model. eexists. split; [|reflexivity].
    apply (probe_once_resolved _ _ _ _ _ _ Hreply Hloads Hfirst).
Qed.

Lemma poll_past_deadline (fuel : nat) (models_url : string)
      (deadline interval_seconds : Z) (last_error : string) (st : state) :
  deadline <= now st ->
  poll E (S fuel) models_url deadline interval_seconds last_error st =
  Some (Ret None,
        {| now := now st;
           requests := requests st;
           trace := trace st ++
             [Printed ("Timed out waiting for endpoint/model: " +++ models_url);
              Printed ("Last probe error: " +++ last_error)] |}).
Proof.
  intros Hd. cbn [poll]. unfold time_time.
  destruct (now st <? deadline) eqn:Hlt.
  - apply Z.ltb_lt in Hlt. lia.
  - unfold bind, print, emit, ret. cbn [now requests trace].
    rewrite <- app_assoc. reflexivity.
Qed.

Lemma poll_before_deadline (fuel : nat) (models_url : string)
      (deadline interval_seconds : Z) (last_error : string) (st : state) :
  now st < deadline ->
  poll E (S fuel) models_url deadline interval_seconds last_error st =
  match probe_once E models_url interval_seconds st with
  | (Resolved model, st') => Some (Ret (Some model), st')
  | (Retry error, st') => poll E fuel models_url deadline interval_seconds error st'
  | (Escaped e, st') => Some (Raise e, st')
  end.
Proof.
  intros Hd. cbn [poll]. unfold time_time.
  apply Z.ltb_lt in Hd. rewrite Hd. reflexivity.
Qed.

(** With an interval that is not negative and a clock that moves on every
    turn, the loop ends, and it ends by returning. *)
Lemma poll_returns (models_url : string) (deadline interval_seconds : Z) :
  0 <= interval_seconds ->
  (forall n, 0 < interval_seconds + Z.of_N (elapsed (endpoint E models_url n))) ->
  forall (fuel : nat) (last_error : string) (st : state),
    (Z.to_nat (deadline - now st) < fuel)%nat ->
    exists o st',
      poll E fuel models_url deadline interval_seconds last_error st = Some (Ret o, st') /\
      ((forall n, retry_reason (reply (endpoint E models_url n)) <> None) -> o = None).
Proof.
  intros Hi Hprogress fuel.
  induction fuel as [|fuel IH]; intros last_error st Hfuel; [lia|].
  destruct (Z_lt_le_dec (now st) deadline) as [Hlt|Hge].
  - rewrite (poll_before_deadline _ _ _ _ _ _ Hlt).
    destruct (probe_once_cases models_url interval_seconds st Hi)
      as [(model & st' & Hrun & Hreason)|(error & prints & Hrun & Hreason)];
      rewrite Hrun.
    + exists (Some model), st'. split; [reflexivity|].
      intros Hall. exfalso. exact (Hall _ Hreason).
    + apply IH. unfold after_retry. cbn [now].
      specialize (Hprogress (requests st)). lia.
  - rewrite (poll_past_deadline _ _ _ _ _ _ Hge).
    eexists. eexists. split; reflexivity.
Qed.

(** C3, as amended: when the reply is a JSON body whose [data] is a list
    that starts with a mapping, and [key] is the first of [id], [model],
    [name] under which that mapping holds a str that is not empty once
    trimmed, the prober returns that str trimmed and stops at once: the
    turn prints the reply and the resolved model and does not sleep. *)
Theorem poll_resolves_first_model
        (models_url : string) (deadline interval_seconds : Z) (last_error : string)
        (fuel : nat) (st : state) (body : string) (p f : dict) (rest : list pyvalue)
        (pre post : list string) (key val : string) :
  reply (endpoint E models_url (requests st)) = HttpBody body ->
  json_loads body = Some (VDict p) ->
  dict_get p "data" = Some (VList (VDict f :: rest)) ->
  ["id"; "model"; "name"] = pre ++ key :: post ->
  (forall k, In k pre -> usable_name (dict_get f k) = None) ->
  dict_get f key = Some (VStr val) ->
  strip val <> "" ->
  now st < deadline ->
  poll E (S fuel) models_url deadline interval_seconds last_error st =
  Some (Ret (Some (strip val)),
        {| now := now st + Z.of_N (elapsed (endpoint E models_url (requests st)));
           requests := S (requests st);
           trace := trace st ++
             [HttpGet models_url;
              Printed (endpoint_banner models_url);
              Printed (json_dumps (VDict p));
              Printed ("Resolved first model from /v1/models: " +++ strip val)] |}).
Proof.
  intros Hreply Hloads Hdata Hkeys Hpre Hkey Hval Hlt.
  rewrite (poll_before_deadline _ _ _ _ _ _ Hlt).
  assert (Hfirst : first_model (VDict p) = Ret (Some (strip val))).
  { unfold first_model. rewrite Hdata, Hkeys.
    rewrite (model_under_keys_first f pre post key (strip val) Hpre); [reflexivity|].
    unfold usable_name. rewrite Hkey.
    destruct (strip val); [congruence | reflexivity]. }
  rewrite (probe_once_resolved _ _ _ _ _ _ Hreply Hloads Hfirst). reflexivity.
Qed.

(** C9: only the first element of [data] is read: when it is not a mapping,
    or holds no usable str under [id], [model] or [name], the turn records
    "No model entry found", sleeps and the loop goes on, whatever the rest
    of the list holds. *)
Theorem prober_reads_first_entry_only
        (models_url : string) (interval_seconds : Z) (st : state)
        (body : string) (p : dict) (first : pyvalue) (rest : list pyvalue) :
  0 <= interval_seconds ->
  reply (endpoint E models_url (requests st)) = HttpBody body ->
  json_loads body = Some (VDict p) ->
  dict_get p "data" = Some (VList (first :: rest)) ->
  names_no_model first = true ->
  let st' :=
    after_retry E models_url interval_seconds
      [Printed (endpoint_banner models_url);
       Printed (json_dumps (VDict p));
       Printed "Endpoint reachable but model list is empty/invalid, retrying..."] st in
  probe_once E models_url interval_seconds st =
  (Retry "No model entry found in /v1/models response", st') /\
  forall fuel deadline last_error,
    now st < deadline ->
    poll E (S fuel) models_url deadline interval_seconds last_error st =
    poll E fuel models_url deadline interval_seconds
         "No model entry found in /v1/models response" st'.
Proof.
  intros Hi Hreply Hloads Hdata Hfirst st'.
  assert (Hrun : probe_once E models_url interval_seconds st =
                 (Retry "No model entry found in /v1/models response", st')).
  { unfold probe_once, bind, http_get. rewrite Hreply.
    unfold print, emit. cbn [now requests trace].
    rewrite Hloads, (first_model_none _ _ _ Hdata Hfirst).
    unfold sleep_then_retry, bind. rewrite (sleep_ok _ _ Hi).
    unfold st', after_retry. cbn [now requests trace ret].
    rewrite <- !app_assoc. reflexivity. }
  split; [exact Hrun|].
  intros fuel deadline last_error Hlt.
  rewrite (poll_before_deadline _ _ _ _ _ _ Hlt), Hrun. reflexivity.
Qed.

(** C10: with a timeout of zero or less the prober prints its banner, finds
    the deadline already reached at the first test of the loop, and returns
    absence: no request is sent and nothing is slept. *)
Theorem prober_nonpositive_timeout
        (fuel : nat) (base_url : string) (timeout_seconds interval_seconds : Z)
        (st : state) :
  timeout_seconds <= 0 ->
  let models_url := rstrip_slash base_url +++ "/models" in
  wait_for_models_endpoint_and_get_first_model
    E (S fuel) base_url timeout_seconds interval_seconds st =
  Some (Ret None,
        {| now := now st;
           requests := requests st;
           trace := trace st ++
             [Printed (waiting_banner models_url timeout_seconds);
              Printed ("Timed out waiting for endpoint/model: " +++ models_url);
              Printed ("Last probe error: unknown error")] |}).
Proof.
  intros Ht models_url.
  unfold wait_for_models_endpoint_and_get_first_model, time_time, print, emit.
  fold models_url.
  rewrite poll_past_deadline by (cbn [now]; lia).
  cbn [now requests trace]. rewrite <- app_assoc. reflexivity.
Qed.

End ProberFacts.


(** ** The theorems at sample inputs *)

(** C1: the command built for the dry-run recipe has [--temperature 0.5]
    ahead of the defaults, so it is not the sequence that ends with it. *)
Lemma dry_run_command_order :
  snd (@build_llama_benchy_command (sample_runtime []) dry_run_recipe default_model)
  = Ret dry_run_command /\
  snd (@build_llama_benchy_command (sample_runtime []) dry_run_recipe default_model)
  <> Ret expected_dry_run_command.
Proof.
  split.
  - vm_compute. reflexivity.
  - vm_compute. discriminate.
Qed.

Lemma dry_run_builds_command_witness :
  snd (@build_llama_benchy_command (sample_runtime []) dry_run_recipe default_model)
  = Ret dry_run_command /\
  option_map (fun r => (snd (fst r), network_calls (trace (snd r))))
             (@run_recipe_benchmark (sample_runtime []) installed_env 0
                                    dry_run_recipe true start)
  = Some (Ret 0, []).
Proof.
  pose proof (@dry_run_builds_command (sample_runtime []) dry_run_recipe
                [("port", VInt 8080)]
                [("enabled", VBool true);
                 ("args", VDict [("temperature", VFloat Half)])]
                Half eq_refl eq_refl eq_refl eq_refl eq_refl
                (or_introl eq_refl) eq_refl) as [Hbuild Hrun].
  split; [exact Hbuild|].
  destruct (Hrun installed_env 0%nat start) as [_ Hinstalled].
  destruct Hinstalled as [recipe' ->]; [discriminate|].
  reflexivity.
Defined.

(** C2: an entry under the excluded key [base_url] gives no token, where
    the rules would give the flag and the value. *)
Lemma excluded_key_not_converted :
  @append_cli_args_from_dict (sample_runtime []) []
    [("base_url", VStr "http://10.0.0.7:8000/v1")] (Some ["base_url"; "model"]) = [] /\
  @arg_tokens (sample_runtime []) "base_url" (VStr "http://10.0.0.7:8000/v1")
  = ["--base-url"; "http://10.0.0.7:8000/v1"] /\
  snd (@build_llama_benchy_command (sample_runtime [])
         [("benchmark",
           VDict [("args", VDict [("base_url", VStr "http://10.0.0.7:8000/v1")])])]
         default_model)
  = Ret ["llama-benchy"; "--base-url"; "http://localhost:8000/v1";
         "--model"; "__from_v1_models__";
         "--pp"; "2048"; "--depth"; "0"; "--save-result"; "test.md";
         "--enable-prefix-caching"].
Proof. repeat split; vm_compute; reflexivity. Qed.

Lemma append_cli_args_rules_witness :
  @excluded (Some ["base_url"; "model"]) "save_result" = false /\
  @append_cli_args_from_dict (sample_runtime []) ["llama-benchy"]
    [("save_result", VBool true)] (Some ["base_url"; "model"])
  = ["llama-benchy"; "--save-result"].
Proof.
  split; [reflexivity|].
  exact (proj1 (@append_cli_args_rules (sample_runtime [])
                  (Some ["base_url"; "model"]) ["llama-benchy"] "save_result"
                  eq_refl)).
Defined.

(** C3: an [id] that is a single space is a non-empty str, yet the prober
    does not return it trimmed: it retries, sleeping, until the deadline. *)
Lemma blank_identifier_is_retried :
  dict_get [("id", @VStr sample_float " ")] "id" = Some (VStr " ") /\
  nonempty " " = true /\
  option_map (fun r => (fst r, sleeps (trace (snd r))))
             (@wait_for_models_endpoint_and_get_first_model
                (sample_runtime sample_bodies) (serving blank_body) 10
                "http://localhost:8000/v1" 4 2 start)
  = Some (Ret None, [Sleep 2; Sleep 2]).
Proof. repeat split; vm_compute; reflexivity. Qed.

Lemma poll_resolves_first_model_witness :
  option_map (fun r => (fst r, sleeps (trace (snd r))))
             (@poll (sample_runtime sample_bodies) (serving ready_body) 1
                    models_url_8000 300 2 "unknown error" start)
  = Some (Ret (Some "m1"), []).
Proof.
  rewrite (@poll_resolves_first_model (sample_runtime sample_bodies)
             (serving ready_body) models_url_8000 300 2 "unknown error" 0 start
             ready_body [("data", VList [VDict [("id", VStr "m1")]])]
             [("id", VStr "m1")] [] [] ["model"; "name"] "id" "m1"
             eq_refl eq_refl eq_refl eq_refl
             (fun k (Hin : In k []) => match Hin with end)
             eq_refl).
  - reflexivity.
  - vm_compute. discriminate.
  - reflexivity.
Defined.

Lemma validate_missing_benchmark_defaults_witness :
  dict_get bare_recipe "benchmark" = None /\
  @validate_recipe_benchmark_config (sample_runtime []) empty_path bare_recipe
  = (bare_recipe ++
       [("benchmark", VDict [("enabled", VBool false);
                             ("framework", VStr "llama-benchy");
                             ("args", VDict [])])],
     Ret tt).
Proof.
  split; [reflexivity|].
  destruct (@validate_missing_benchmark_defaults (sample_runtime []) empty_path
              bare_recipe eq_refl) as (recipe' & Hrun & -> & _).
  exact Hrun.
Defined.

Lemma validate_unsupported_framework_witness :
  dict_get foreign_recipe "benchmark"
  = Some (VDict [("enabled", VBool true); ("framework", VStr "genai-perf")]) /\
  exn_cls_of (snd (@validate_recipe_benchmark_config (sample_runtime []) benchy_path
                     foreign_recipe)) = Some ValueError.
Proof.
  split; [reflexivity|].
  rewrite (@validate_unsupported_framework (sample_runtime []) benchy_path
             foreign_recipe
             [("enabled", VBool true); ("framework", VStr "genai-perf")]
             (VStr "genai-perf") eq_refl eq_refl eq_refl).
  - reflexivity.
  - discriminate.
Defined.

Lemma validate_idempotent_witness :
  let once := fst (@validate_recipe_benchmark_config (sample_runtime []) benchy_path
                     dry_run_recipe) in
  @validate_recipe_benchmark_config (sample_runtime []) benchy_path dry_run_recipe
  = (once, Ret tt) /\
  @validate_recipe_benchmark_config (sample_runtime []) benchy_path once
  = (once, Ret tt).
Proof.
  intros once.
  assert (Hfirst : @validate_recipe_benchmark_config (sample_runtime []) benchy_path
                     dry_run_recipe = (once, Ret tt)) by reflexivity.
  split; [exact Hfirst|].
  exact (@validate_idempotent (sample_runtime []) benchy_path dry_run_recipe once Hfirst).
Defined.

(** C8: with a file [foo] in the working directory, the bare name [foo]
    resolves to it, though [<recipes_dir>/foo.yaml] exists and
    [<recipes_dir>/foo] does not. *)
Lemma bare_name_shadowed_by_literal :
  shadowed_yaml (sample_recipes_dir // "foo.yaml") = true /\
  shadowed_yaml (sample_recipes_dir // "foo") = false /\
  resolve_recipe_path sample_recipes_dir shadowed_yaml "foo" = Ret (Path "foo") /\
  resolve_recipe_path sample_recipes_dir shadowed_yaml "foo"
  <> Ret (sample_recipes_dir // "foo.yaml").
Proof.
  repeat split; try (vm_compute; reflexivity).
  vm_compute. discriminate.
Qed.

Lemma resolve_recipe_path_order_witness :
  only_yaml (Path "foo") = false /\
  only_yaml (sample_recipes_dir // "foo") = false /\
  only_yaml (sample_recipes_dir // "foo.yaml") = true /\
  resolve_recipe_path sample_recipes_dir only_yaml "foo"
  = Ret (sample_recipes_dir // "foo.yaml").
Proof.
  split; [reflexivity|]. split; [reflexivity|]. split; [reflexivity|].
  exact (proj2 (proj2 (resolve_recipe_path_order sample_recipes_dir only_yaml "foo"))
               eq_refl eq_refl eq_refl).
Defined.

Lemma prober_reads_first_entry_only_witness :
  @names_no_model (sample_runtime sample_bodies) (VDict []) = true /\
  dict_get [("id", @VStr sample_float "m1")] "id" = Some (VStr "m1") /\
  fst (@probe_once (sample_runtime sample_bodies) (serving second_body)
                   models_url_8000 2 start)
  = Retry "No model entry found in /v1/models response".
Proof.
  assert (Hi : 0 <= 2) by lia.
  split; [reflexivity|]. split; [reflexivity|].
  destruct (@prober_reads_first_entry_only (sample_runtime sample_bodies)
              (serving second_body) models_url_8000 2 start second_body
              [("data", VList [VDict []; VDict [("id", VStr "m1")]])]
              (VDict []) [VDict [("id", VStr "m1")]]
              Hi eq_refl eq_refl eq_refl eq_refl) as [-> _].
  reflexivity.
Defined.

Lemma prober_nonpositive_timeout_witness :
  0 <= 0 /\
  option_map (fun r => (fst r, network_calls (trace (snd r)), sleeps (trace (snd r))))
             (@wait_for_models_endpoint_and_get_first_model
                (sample_runtime sample_bodies) (serving ready_body) 1
                "http://localhost:8000/v1" 0 2 start)
  = Some (Ret None, [], []).
Proof.
  assert (Ht : 0 <= 0) by lia.
  split; [exact Ht|].
  rewrite (@prober_nonpositive_timeout (sample_runtime sample_bodies)
             (serving ready_body) 0 "http://localhost:8000/v1" 0 2 start Ht).
  reflexivity.
Defined.


(** * Further properties *)

(** ** Runs of [setdefault] *)

Section SetdefaultsFacts.
Context {V : Type}.
Implicit Types (d l : list (string * V)) (k : string).

Lemma dict_get_app_none d1 d2 k :
  dict_get (d1 ++ d2) k = None -> dict_get d1 k = None.
Proof.
  rewrite dict_get_app. destruct (dict_get d1 k); [discriminate | reflexivity].
Qed.

Lemma setdefaults_cons d k v l :
  setdefaults d ((k, v) :: l) = setdefaults (fst (dict_setdefault d k v)) l.
Proof. reflexivity. Qed.

Lemma setdefaults_extends l : forall d,
  exists added,
    setdefaults d l = d ++ added /\
    forall k x, In (k, x) added -> In (k, x) l /\ dict_get d k = None.
Proof.
  induction l as [|[k0 v0] l IH]; intros d.
  - exists []. split; [symmetry; apply app_nil_r | intros k x []].
  - rewrite setdefaults_cons.
    destruct (dict_get d k0) as [v|] eqn:Hk0.
    + rewrite (setdefault_present _ _ _ _ Hk0). cbn [fst].
      destruct (IH d) as (added & Heq & Hin). exists added. split; [exact Heq|].
      intros k x Hkx. destruct (Hin k x Hkx) as [Hl Hnone].
      split; [right; exact Hl | exact Hnone].
    + rewrite (setdefault_absent _ _ _ Hk0). cbn [fst].
      destruct (IH (d ++ [(k0, v0)])) as (added & Heq & Hin).
      exists ((k0, v0) :: added). split.
      * rewrite Heq, <- app_assoc. reflexivity.
      * intros k x [Hhead|Hkx].
        -- injection Hhead as <- <-. split; [left; reflexivity | exact Hk0].
        -- destruct (Hin k x Hkx) as [Hl Hnone].
           split; [right; exact Hl | exact (dict_get_app_none _ _ _ Hnone)].
Qed.

Lemma setdefaults_keeps l : forall d k x,
  dict_get d k = Some x -> dict_get (setdefaults d l) k = Some x.
Proof.
  induction l as [|[k0 v0] l IH]; intros d k x Hget.
  - exact Hget.
  - rewrite setdefaults_cons. apply IH. apply setdefault_keeps, Hget.
Qed.

Lemma setdefaults_binds l : forall d k x,
  In (k, x) l -> exists y, dict_get (setdefaults d l) k = Some y.
Proof.
  induction l as [|[k0 v0] l IH]; intros d k x Hin; [destruct Hin|].
  rewrite setdefaults_cons. destruct Hin as [Hhead|Hin].
  - injection Hhead as -> ->.
    destruct (setdefault_binds d k x) as [y Hy].
    exists y. apply setdefaults_keeps, Hy.
  - exact (IH _ k x Hin).
Qed.

Lemma setdefaults_fixed l : forall d,
  (forall k x, In (k, x) l -> exists y, dict_get d k = Some y) ->
  setdefaults d l = d.
Proof.
  induction l as [|[k0 v0] l IH]; intros d Hall; [reflexivity|].
  rewrite setdefaults_cons.
  destruct (Hall k0 v0 (or_introl eq_refl)) as [y Hy].
  rewrite (setdefault_fixed _ _ _ _ Hy).
  apply IH. intros k x Hin. apply (Hall k x). right. exact Hin.
Qed.

Lemma setdefaults_idem l d : setdefaults (setdefaults d l) l = setdefaults d l.
Proof.
  apply setdefaults_fixed. intros k x Hin. exact (setdefaults_binds l d k x Hin).
Qed.

End SetdefaultsFacts.

(** ** More on the validator *)

Section ValidatorMore.
Context `{Runtime}.
Variable which : path_env.

Lemma normalised_as_setdefaults (b : dict) :
  normalised b =
  setdefaults b [("enabled", VBool false);
                 ("framework", VStr "llama-benchy");
                 ("args", VDict [])].
Proof. reflexivity. Qed.

Lemma validate_frame (recipe : dict) (k : string) :
  k <> "benchmark" ->
  dict_get (fst (validate_recipe_benchmark_config which recipe)) k = dict_get recipe k.
Proof.
  intros Hk.
  assert (Hne : String.eqb "benchmark" k = false).
  { apply String.eqb_neq. congruence. }
  destruct (dict_get recipe "benchmark") as [v|] eqn:Hb.
  - destruct v as [| | | | | |b0];
      try (rewrite (validate_on_other _ _ _ Hb) by discriminate; reflexivity).
    rewrite (validate_on_dict _ _ _ Hb). cbn [fst].
    rewrite dict_get_set, Hne. reflexivity.
  - rewrite (validate_on_missing _ _ Hb). cbn [fst].
    rewrite dict_get_app. destruct (dict_get recipe k); [reflexivity|].
    cbn [dict_get]. rewrite Hne. reflexivity.
Qed.

(** Validation leaves every other key of the recipe as it was, whether it
    succeeds or raises, and it only appends to the [benchmark] mapping: the
    entries the recipe gives keep their place and value, and an entry is
    added only for a key among [enabled], [framework], [args] that the
    recipe does not give. *)
Theorem validate_only_fills_gaps (recipe : dict) :
  (forall k, k <> "benchmark" ->
     dict_get (fst (validate_recipe_benchmark_config which recipe)) k
     = dict_get recipe k) /\
  (forall b, dict_get recipe "benchmark" = Some (VDict b) ->
     exists added : dict,
       dict_get (fst (validate_recipe_benchmark_config which recipe)) "benchmark"
       = Some (VDict (b ++ added)) /\
       (forall k x, dict_get b k = Some x -> dict_get (b ++ added) k = Some x) /\
       (forall k x, In (k, x) added ->
          dict_get b k = None /\
          In (k, x) [("enabled", VBool false);
                     ("framework", VStr "llama-benchy");
                     ("args", VDict [])])).
Proof.
  split.
  - intros k Hk. apply validate_frame, Hk.
  - intros b Hb. rewrite (validate_on_dict _ _ _ Hb). cbn [fst].
    rewrite dict_get_set, String.eqb_refl, normalised_as_setdefaults.
    destruct (setdefaults_extends
                [("enabled", VBool false); ("framework", VStr "llama-benchy");
                 ("args", VDict [])] b) as (added & Heq & Hin).
    exists added. rewrite Heq. split; [reflexivity|]. split.
    + intros k x Hget. rewrite dict_get_app, Hget. reflexivity.
    + intros k x Hkx. destruct (Hin k x Hkx) as [Hl Hnone]. split; assumption.
Qed.

(** With [benchmark.enabled] true and the framework [llama-benchy] (given
    or defaulted), validation succeeds exactly when [llama-benchy] is on
    the search path, and otherwise raises the ValueError that asks to
    install it. *)
Theorem validate_requires_llama_benchy (recipe b : dict) (e : pyvalue) :
  dict_get recipe "benchmark" = Some (VDict b) ->
  dict_get b "enabled" = Some e ->
  py_truth e = true ->
  dict_get b "framework" = None \/ dict_get b "framework" = Some (VStr "llama-benchy") ->
  snd (validate_recipe_benchmark_config which recipe) =
  match which "llama-benchy" with
  | Some _ => Ret tt
  | None =>
      Raise (Exn ValueError
               ("benchmark.enabled=true requires 'llama-benchy' in PATH." +++ nl
                  +++ "Install with: uv pip install -U llama-benchy"))
  end.
Proof.
  intros Hb He Ht Hfw. rewrite (validate_on_dict _ _ _ Hb). cbn [snd].
  rewrite (check_enabled_llama_benchy which (normalised b) e
             (normalised_framework _ Hfw) (normalised_keeps _ _ _ He) Ht).
  destruct (which "llama-benchy"); reflexivity.
Qed.

Lemma normalised_enabled_default (b : dict) :
  dict_get b "enabled" = None ->
  dict_get (normalised b) "enabled" = Some (VBool false).
Proof.
  intros He. unfold normalised. do 2 apply setdefault_keeps.
  rewrite (setdefault_absent _ _ _ He). cbn [fst].
  rewrite dict_get_app, He. cbn [dict_get]. reflexivity.
Qed.

(** With [benchmark.enabled] absent or false-like and the framework
    [llama-benchy] (given or defaulted), validation succeeds whether or not
    [llama-benchy] is installed. *)
Theorem validate_disabled_needs_no_tool (recipe b : dict) :
  dict_get recipe "benchmark" = Some (VDict b) ->
  dict_get b "enabled" = None \/
  (exists e, dict_get b "enabled" = Some e /\ py_truth e = false) ->
  dict_get b "framework" = None \/ dict_get b "framework" = Some (VStr "llama-benchy") ->
  snd (validate_recipe_benchmark_config which recipe) = Ret tt.
Proof.
  intros Hb Hen Hfw. rewrite (validate_on_dict _ _ _ Hb). cbn [snd].
  unfold check_benchmark. rewrite (normalised_framework _ Hfw). cbn.
  destruct Hen as [Hnone|(e & He & Ht)].
  - rewrite (normalised_enabled_default _ Hnone). reflexivity.
  - rewrite (normalised_keeps _ _ _ He), Ht. reflexivity.
Qed.

(** When [benchmark] is given and is not a mapping (a null, a scalar, a
    list), validation raises the AttributeError of [setdefault] and leaves
    the recipe as it was. *)
Theorem validate_rejects_non_mapping (recipe : dict) (v : pyvalue) :
  dict_get recipe "benchmark" = Some v ->
  (forall b, v <> VDict b) ->
  validate_recipe_benchmark_config which recipe =
  (recipe,
   Raise (Exn AttributeError
            ("'" +++ type_name v +++ "' object has no attribute 'setdefault'"))).
Proof.
  intros Hb Hv. rewrite (validate_on_other _ _ _ Hb Hv). reflexivity.
Qed.

End ValidatorMore.

(** ** More on the command builder *)

Lemma occurs_replace_char (a b : ascii) (s : string) :
  a <> b -> occurs a (replace_char a b s) = false.
Proof.
  intros Hab. induction s as [|c s IH]; cbn [replace_char occurs]; [reflexivity|].
  rewrite IH, orb_false_r.
  destruct (Ascii.eqb c a) eqn:Hc.
  - apply Ascii.eqb_neq. congruence.
  - exact Hc.
Qed.

(** A flag is two hyphens and as many characters as the key has, and no
    underscore is left in it. *)
Theorem flag_has_no_underscore (key : string) :
  occurs "_" (flag_of_key key) = false /\
  String.length (flag_of_key key) = (2 + String.length key)%nat /\
  substring 0 2 (flag_of_key key) = "--".
Proof.
  unfold flag_of_key. cbn [String.append occurs String.length substring].
  rewrite occurs_replace_char by discriminate.
  rewrite replace_char_length.
  split; [reflexivity|]. split; [reflexivity|].
  destruct (replace_char "_" "-" key); reflexivity.
Qed.

Section BuilderMore.
Context `{Runtime}.

Lemma apply_defaults_as_setdefaults (a : dict) :
  apply_llama_benchy_defaults a = setdefaults a llama_benchy_defaults.
Proof. reflexivity. Qed.

Lemma apply_defaults_idem (a : dict) :
  apply_llama_benchy_defaults (apply_llama_benchy_defaults a)
  = apply_llama_benchy_defaults a.
Proof. rewrite !apply_defaults_as_setdefaults. apply setdefaults_idem. Qed.

(** The defaults only fill gaps: the arguments of the recipe keep their
    place and value, an entry is appended only for a key among [pp],
    [depth], [save_result], [enable_prefix_caching] that the recipe does
    not give, the four keys are bound afterwards, and a second call changes
    nothing. *)
Theorem apply_defaults_only_fills_gaps (a : dict) :
  (exists added : dict,
      apply_llama_benchy_defaults a = a ++ added /\
      forall k x, In (k, x) added ->
                  dict_get a k = None /\
                  In (k, x) [("pp", VList [VInt 2048]); ("depth", VList [VInt 0]);
                             ("save_result", VStr "test.md");
                             ("enable_prefix_caching", VBool true)]) /\
  (forall k x, dict_get a k = Some x ->
               dict_get (apply_llama_benchy_defaults a) k = Some x) /\
  (forall k, In k ["pp"; "depth"; "save_result"; "enable_prefix_caching"] ->
             dict_get (apply_llama_benchy_defaults a) k <> None) /\
  apply_llama_benchy_defaults (apply_llama_benchy_defaults a)
  = apply_llama_benchy_defaults a.
Proof.
  split; [|split; [|split]].
  - rewrite apply_defaults_as_setdefaults.
    destruct (setdefaults_extends llama_benchy_defaults a) as (added & Heq & Hin).
    exists added. split; [exact Heq|].
    intros k x Hkx. destruct (Hin k x Hkx) as [Hl Hnone]. split; assumption.
  - intros k x Hget. rewrite apply_defaults_as_setdefaults.
    apply setdefaults_keeps, Hget.
  - intros k Hk. rewrite apply_defaults_as_setdefaults.
    assert (Hin : exists x, In (k, x) llama_benchy_defaults).
    { cbn [In] in Hk. unfold llama_benchy_defaults.
      destruct Hk as [<-|[<-|[<-|[<-|[]]]]]; eexists; cbn [In]; eauto 6. }
    destruct Hin as [x Hin].
    destruct (setdefaults_binds llama_benchy_defaults a k x Hin) as [y Hy].
    rewrite Hy. discriminate.
  - apply apply_defaults_idem.
Qed.

(** The command is the five tokens [llama-benchy --base-url <url> --model
    <model>] followed by the tokens of the arguments with the defaults
    filled in, in the order of the mapping, the keys [base_url] and [model]
    left out; without a [benchmark] key the recipe is left as it is and the
    arguments are the four defaults. *)
Theorem build_command_shape (recipe : dict) (model url : string) :
  get_recipe_base_url recipe = Ret url ->
  (forall b a,
      dict_get recipe "benchmark" = Some (VDict b) ->
      dict_get b "args" = Some (VDict a) ->
      snd (build_llama_benchy_command recipe model) =
      Ret (["llama-benchy"; "--base-url"; url; "--model"; model]
             ++ flat_map (item_tokens (Some ["base_url"; "model"]))
                         (apply_llama_benchy_defaults a))) /\
  (dict_get recipe "benchmark" = None ->
   build_llama_benchy_command recipe model =
   (recipe,
    Ret ["llama-benchy"; "--base-url"; url; "--model"; model;
         "--pp"; "2048"; "--depth"; "0"; "--save-result"; "test.md";
         "--enable-prefix-caching"])).
Proof.
  intros Hurl. split.
  - intros b a Hb Ha. rewrite (build_on_dict _ _ _ _ Hb Ha). cbn [snd].
    rewrite Hurl. cbn [rbind]. rewrite append_cli_args_tokens. reflexivity.
  - intros Hb. unfold build_llama_benchy_command. rewrite Hb.
    cbn -[get_recipe_base_url append_cli_args_from_dict].
    rewrite Hurl. reflexivity.
Qed.

Lemma build_on_fixed (recipe b a : dict) (model : string) :
  dict_get recipe "benchmark" = Some (VDict b) ->
  dict_get b "args" = Some (VDict a) ->
  apply_llama_benchy_defaults a = a ->
  build_llama_benchy_command recipe model =
  (recipe,
   rbind (get_recipe_base_url recipe) (fun base_url =>
   Ret (append_cli_args_from_dict
          ["llama-benchy"; "--base-url"; base_url; "--model"; model]
          a (Some ["base_url"; "model"])))).
Proof.
  intros Hb Ha Hfix. rewrite (build_on_dict _ _ _ _ Hb Ha), Hfix.
  rewrite (dict_set_same _ _ _ Ha), (dict_set_same _ _ _ Hb). reflexivity.
Qed.

(** Building is stable: on the recipe that a call leaves, the same call
    gives the same command (or raises the same error) and changes nothing
    more. *)
Theorem build_is_stable (recipe recipe1 : dict) (model : string)
        (built : result (list string)) :
  build_llama_benchy_command recipe model = (recipe1, built) ->
  build_llama_benchy_command recipe1 model = (recipe1, built).
Proof.
  intros Hrun.
  destruct (dict_get recipe "benchmark") as [v|] eqn:Hb.
  - destruct v as [| | | | | |b];
      try (unfold build_llama_benchy_command in Hrun; rewrite Hb in Hrun;
           injection Hrun as <- <-;
           unfold build_llama_benchy_command; rewrite Hb; reflexivity).
    destruct (dict_get b "args") as [w|] eqn:Ha.
    + destruct w as [| | | | | |a];
        try (unfold build_llama_benchy_command in Hrun; rewrite Hb in Hrun;
             rewrite (setdefault_present _ _ _ _ Ha) in Hrun;
             rewrite (dict_set_same _ _ _ Hb) in Hrun;
             injection Hrun as <- <-;
             unfold build_llama_benchy_command; rewrite Hb;
             rewrite (setdefault_present _ _ _ _ Ha);
             rewrite (dict_set_same _ _ _ Hb); reflexivity).
      rewrite (build_on_dict _ _ _ _ Hb Ha) in Hrun. injection Hrun as <- <-.
      rewrite (build_on_fixed _ (dict_set b "args" (VDict (apply_llama_benchy_defaults a)))
                 (apply_llama_benchy_defaults a)).
      * rewrite base_url_frame. reflexivity.
      * rewrite dict_get_set, String.eqb_refl. reflexivity.
      * rewrite dict_get_set, String.eqb_refl. reflexivity.
      * apply apply_defaults_idem.
    + unfold build_llama_benchy_command in Hrun. rewrite Hb in Hrun.
      rewrite (setdefault_absent _ _ _ Ha) in Hrun.
      rewrite (dict_set_app_absent _ _ _ _ Ha) in Hrun.
      rewrite base_url_frame in Hrun. injection Hrun as <- <-.
      rewrite (build_on_fixed _ (b ++ [("args", VDict (apply_llama_benchy_defaults []))])
                 (apply_llama_benchy_defaults [])).
      * rewrite base_url_frame. reflexivity.
      * rewrite dict_get_set, String.eqb_refl. reflexivity.
      * rewrite dict_get_app, Ha. reflexivity.
      * apply apply_defaults_idem.
  - unfold build_llama_benchy_command in Hrun. rewrite Hb in Hrun.
    injection Hrun as <- <-.
    unfold build_llama_benchy_command. rewrite Hb. reflexivity.
Qed.

(** Appending goes entry by entry: the arguments of two mappings in a row
    give what the first and then the second give; what is in [cmd] before
    the call stays in front; and an empty exclusion set excludes nothing. *)
Theorem append_cli_args_compose (exclude_keys : option (list string))
        (cmd : list string) (args1 args2 : dict) :
  append_cli_args_from_dict cmd (args1 ++ args2) exclude_keys
  = append_cli_args_from_dict (append_cli_args_from_dict cmd args1 exclude_keys)
                              args2 exclude_keys /\
  firstn (List.length cmd) (append_cli_args_from_dict cmd args1 exclude_keys) = cmd /\
  append_cli_args_from_dict cmd args1 (Some []) = append_cli_args_from_dict cmd args1 None.
Proof.
  split; [|split].
  - unfold append_cli_args_from_dict. apply fold_left_app.
  - rewrite append_cli_args_tokens, firstn_app, Nat.sub_diag, firstn_all.
    cbn [firstn]. apply app_nil_r.
  - reflexivity.
Qed.

Lemma base_url_depends_on_defaults (r r' : dict) :
  dict_get r "defaults" = dict_get r' "defaults" ->
  get_recipe_base_url r = get_recipe_base_url r'.
Proof. unfold get_recipe_base_url. intros ->. reflexivity. Qed.

(** Without [defaults], or without [defaults.port], the base URL is
    [http://localhost:8000/v1]; with an integer port it is
    [http://localhost:<port>/v1] with the port in decimal. *)
Theorem base_url_of_port (recipe : dict) :
  (dict_get recipe "defaults" = None ->
   get_recipe_base_url recipe = Ret "http://localhost:8000/v1") /\
  (forall d, dict_get recipe "defaults" = Some (VDict d) ->
             dict_get d "port" = None ->
             get_recipe_base_url recipe = Ret "http://localhost:8000/v1") /\
  (forall d p, dict_get recipe "defaults" = Some (VDict d) ->
               dict_get d "port" = Some (VInt p) ->
               get_recipe_base_url recipe =
               Ret ("http://localhost:" +++ string_of_Z p +++ "/v1")).
Proof.
  unfold get_recipe_base_url. split; [|split].
  - intros ->. reflexivity.
  - intros d -> Hp. cbv beta iota. rewrite Hp. reflexivity.
  - intros d p -> Hp. cbv beta iota. rewrite Hp. reflexivity.
Qed.

(** The base URL has no default for a bad value: [defaults] that is not a
    mapping raises the AttributeError of [get], and a port that is given as
    null, a list or a mapping raises the TypeError of [int]. *)
Theorem base_url_errors (recipe : dict) :
  (forall v, dict_get recipe "defaults" = Some v ->
             (forall d, v <> VDict d) ->
             get_recipe_base_url recipe =
             Raise (Exn AttributeError
                      ("'" +++ type_name v +++ "' object has no attribute 'get'"))) /\
  (forall d v, dict_get recipe "defaults" = Some (VDict d) ->
               dict_get d "port" = Some v ->
               type_name v = "NoneType" \/ type_name v = "list" \/ type_name v = "dict" ->
               get_recipe_base_url recipe =
               Raise (Exn TypeError
                        ("int() argument must be a string, a bytes-like object or a real number, not '"
                           +++ type_name v +++ "'"))).
Proof.
  unfold get_recipe_base_url. split.
  - intros v -> Hv. destruct v; try reflexivity. exfalso. exact (Hv d eq_refl).
  - intros d v -> Hp Hty. cbv beta iota. rewrite Hp.
    destruct v; cbn in Hty; try reflexivity;
      destruct Hty as [Hty|[Hty|Hty]]; discriminate.
Qed.

End BuilderMore.

Section UrlFrame.
Context `{Runtime}.
Variable which : path_env.

(** Neither validation nor command building changes the base URL of the
    recipe. *)
Theorem base_url_unchanged (recipe : dict) (model : string) :
  get_recipe_base_url (fst (validate_recipe_benchmark_config which recipe))
  = get_recipe_base_url recipe /\
  get_recipe_base_url (fst (build_llama_benchy_command recipe model))
  = get_recipe_base_url recipe.
Proof.
  split.
  - apply base_url_depends_on_defaults, validate_frame. discriminate.
  - unfold build_llama_benchy_command.
    destruct (dict_get recipe "benchmark") as [v|] eqn:Hb.
    + destruct v as [| | | | | |b]; try reflexivity.
      destruct (dict_setdefault b "args" (VDict [])) as [b1 benchmark_args].
      destruct benchmark_args; cbn [fst]; apply base_url_frame.
    + cbn. destruct (get_recipe_base_url recipe); reflexivity.
Qed.

End UrlFrame.

(** ** More on recipe paths *)

Lemma occurs_app (c : ascii) (s t : string) :
  occurs c (s +++ t) = occurs c s || occurs c t.
Proof.
  induction s as [|c' s IH]; cbn [String.append occurs]; [reflexivity|].
  rewrite IH, orb_assoc. reflexivity.
Qed.

Lemma split_slash_bare (s : string) :
  occurs "/" s = false -> split_slash s = [s].
Proof.
  induction s as [|c s IH]; cbn [occurs split_slash]; intros Hs; [reflexivity|].
  apply orb_false_elim in Hs. destruct Hs as [Hc Hs].
  rewrite Hc, (IH Hs). reflexivity.
Qed.

Lemma leading_slashes_bare (s : string) :
  occurs "/" s = false -> leading_slashes s = O.
Proof.
  unfold leading_slashes. destruct s as [|c s]; cbn [occurs lstrip_by]; intros Hs.
  - reflexivity.
  - apply orb_false_elim in Hs. destruct Hs as [Hc _].
    rewrite Ascii.eqb_sym, Hc. apply Nat.sub_diag.
Qed.

(** A name without a slash, other than the empty name and the single dot,
    is a relative path of one component. *)
Lemma Path_bare (s : string) :
  occurs "/" s = false -> s <> "" -> s <> "." ->
  Path s = {| root := ""; parts := [s] |}.
Proof.
  intros Hs Hempty Hdot. unfold Path.
  rewrite (leading_slashes_bare _ Hs), (split_slash_bare _ Hs).
  cbn [filter]. unfold is_component.
  apply String.eqb_neq in Hempty. apply String.eqb_neq in Hdot.
  rewrite Hempty, Hdot. reflexivity.
Qed.

Lemma joinpath_bare (p : path) (s : string) :
  occurs "/" s = false -> s <> "" -> s <> "." ->
  p // s = {| root := root p; parts := parts p ++ [s] |}.
Proof.
  intros Hs Hempty Hdot. unfold joinpath.
  rewrite (Path_bare _ Hs Hempty Hdot). reflexivity.
Qed.

Lemma with_suffix_bare (s ext : string) :
  occurs "/" s = false -> occurs "/" ext = false ->
  (2 <= String.length ext)%nat ->
  occurs "/" (s +++ ext) = false /\ s +++ ext <> "" /\ s +++ ext <> ".".
Proof.
  intros Hs Hext Hlen.
  assert (Hl : (2 <= String.length (s +++ ext))%nat).
  { clear Hs Hext. induction s as [|c s IH]; cbn [String.append String.length]; lia. }
  split; [|split].
  - rewrite occurs_app, Hs, Hext. reflexivity.
  - intros Heq. rewrite Heq in Hl. cbn in Hl. lia.
  - intros Heq. rewrite Heq in Hl. cbn in Hl. lia.
Qed.

Lemma name_bare (s : string) :
  occurs "/" s = false -> s <> "" -> s <> "." -> name (Path s) = s.
Proof.
  intros Hs Hempty Hdot. rewrite (Path_bare _ Hs Hempty Hdot). reflexivity.
Qed.

Lemma rfind_dot_none (s : string) :
  occurs "." s = false -> rfind_dot s = None.
Proof.
  induction s as [|c s IH]; cbn [occurs rfind_dot]; intros Hs; [reflexivity|].
  apply orb_false_elim in Hs. destruct Hs as [Hc Hs].
  rewrite (IH Hs), Hc. reflexivity.
Qed.

Lemma rfind_dot_last (base ext : string) :
  occurs "." ext = false ->
  rfind_dot (base +++ String "." ext) = Some (String.length base).
Proof.
  intros Hext. induction base as [|c base IH]; cbn [String.append rfind_dot String.length].
  - rewrite (rfind_dot_none _ Hext). reflexivity.
  - rewrite IH. reflexivity.
Qed.

Lemma substring_prefix (base rest : string) :
  substring 0 (String.length base) (base +++ rest) = base.
Proof.
  induction base as [|c base IH]; cbn [String.append String.length substring].
  - destruct rest; reflexivity.
  - rewrite IH. reflexivity.
Qed.

Lemma length_app (s t : string) :
  String.length (s +++ t) = (String.length s + String.length t)%nat.
Proof. induction s as [|c s IH]; cbn [String.append String.length]; lia. Qed.

(** The stem drops the last extension of a bare file name. *)
Lemma stem_bare (base ext : string) :
  occurs "/" base = false -> occurs "/" ext = false ->
  occurs "." ext = false -> base <> "" -> ext <> "" ->
  stem (Path (base +++ String "." ext)) = base.
Proof.
  intros Hb He Hdot Hbase Hext.
  assert (Hs : occurs "/" (base +++ String "." ext) = false).
  { rewrite occurs_app, Hb. cbn [occurs]. rewrite He. reflexivity. }
  assert (Hlen : (2 <= String.length (base +++ String "." ext))%nat).
  { rewrite length_app. cbn [String.length].
    destruct base; [congruence | cbn [String.length]; lia]. }
  unfold stem. rewrite name_bare; [|exact Hs| |].
  - rewrite (rfind_dot_last _ _ Hdot), length_app. cbn [String.length].
    assert (H0 : (0 <? String.length base)%nat = true).
    { apply Nat.ltb_lt. destruct base; [congruence | cbn [String.length]; lia]. }
    assert (H1 : (String.length base <? String.length base + S (String.length ext) - 1)%nat
                 = true).
    { apply Nat.ltb_lt. destruct ext; [congruence | cbn [String.length]; lia]. }
    rewrite H0, H1. cbn [andb]. apply substring_prefix.
  - intros Heq. rewrite Heq in Hlen. cbn in Hlen. lia.
  - intros Heq. rewrite Heq in Hlen. cbn in Hlen. lia.
Qed.

Section ResolverMore.
Variable RECIPES_DIR : path.
Variable fs : filesystem.

(** The resolver never makes a path up: a path it returns exists and is one
    of the five of the search order, with nothing before it that exists;
    and it raises only "Recipe not found", when none of the five exists. *)
Theorem resolve_returns_existing (recipe_arg : string) :
  (forall p, resolve_recipe_path RECIPES_DIR fs recipe_arg = Ret p ->
             fs p = true /\
             exists pre post,
               search_order RECIPES_DIR recipe_arg = pre ++ p :: post /\
               forall q, In q pre -> fs q = false) /\
  (forall e, resolve_recipe_path RECIPES_DIR fs recipe_arg = Raise e ->
             e = Exn FileNotFoundError ("Recipe not found: " +++ recipe_arg) /\
             forall q, In q (search_order RECIPES_DIR recipe_arg) -> fs q = false).
Proof.
  rewrite resolve_as_find.
  assert (Hfind : forall (l : list path) p,
             find fs l = Some p ->
             fs p = true /\
             exists pre post, l = pre ++ p :: post /\ forall q, In q pre -> fs q = false).
  { induction l as [|q l IH]; cbn [find]; intros p Hp; [discriminate|].
    destruct (fs q) eqn:Hq.
    - injection Hp as <-. split; [exact Hq|].
      exists [], l. split; [reflexivity | intros q' []].
    - destruct (IH p Hp) as (Hfs & pre & post & Heq & Hpre).
      split; [exact Hfs|]. exists (q :: pre), post. split.
      + rewrite Heq. reflexivity.
      + intros q' [<-|Hin]; [exact Hq | exact (Hpre q' Hin)]. }
  split.
  - intros p Hp.
    destruct (find fs (search_order RECIPES_DIR recipe_arg)) as [c|] eqn:Hc;
      [|discriminate].
    injection Hp as <-. exact (Hfind _ _ Hc).
  - intros e He.
    destruct (find fs (search_order RECIPES_DIR recipe_arg)) as [c|] eqn:Hc;
      [discriminate|].
    injection He as <-. split; [reflexivity|].
    intros q Hq. exact (find_none _ _ Hc q Hq).
Qed.

(** For every bare name (no slash, not empty, not the single dot) that is
    no file at the literal path and no file of the recipes directory, the
    resolver returns [<recipes_dir>/<name>.yaml] when it exists, and
    [<recipes_dir>/<name>.yml] when that exists and the [.yaml] does not. *)
Theorem resolve_bare_name (n : string) :
  occurs "/" n = false -> n <> "" -> n <> "." ->
  let in_dir (file : string) : path :=
    {| root := root RECIPES_DIR; parts := parts RECIPES_DIR ++ [file] |} in
  fs {| root := ""; parts := [n] |} = false ->
  fs (in_dir n) = false ->
  (fs (in_dir (n +++ ".yaml")) = true ->
   resolve_recipe_path RECIPES_DIR fs n = Ret (in_dir (n +++ ".yaml"))) /\
  (fs (in_dir (n +++ ".yaml")) = false ->
   fs (in_dir (n +++ ".yml")) = true ->
   resolve_recipe_path RECIPES_DIR fs n = Ret (in_dir (n +++ ".yml"))).
Proof.
  intros Hs Hempty Hdot in_dir Hlit Hdir.
  destruct (with_suffix_bare n ".yaml" Hs eq_refl) as (Hy1 & Hy2 & Hy3);
    [cbn; lia|].
  destruct (with_suffix_bare n ".yml" Hs eq_refl) as (Hm1 & Hm2 & Hm3);
    [cbn; lia|].
  unfold resolve_recipe_path.
  rewrite (name_bare _ Hs Hempty Hdot).
  rewrite (Path_bare _ Hs Hempty Hdot), Hlit.
  rewrite (joinpath_bare _ _ Hs Hempty Hdot).
  rewrite (joinpath_bare _ _ Hy1 Hy2 Hy3), (joinpath_bare _ _ Hm1 Hm2 Hm3).
  fold (in_dir n) (in_dir (n +++ ".yaml")) (in_dir (n +++ ".yml")).
  cbn [find]. rewrite Hdir. split.
  - intros Hyaml. rewrite Hyaml. reflexivity.
  - intros Hyaml Hyml. rewrite Hyaml, Hyml. reflexivity.
Qed.

(** A bare file name with an extension falls back to the [.yaml] of its
    stem: when nothing exists at the literal path nor under the recipes
    directory for the name, the name plus [.yaml] and the name plus [.yml],
    the resolver returns [<recipes_dir>/<base>.yaml] if it exists. *)
Theorem resolve_swaps_extension (base ext : string) :
  occurs "/" base = false -> occurs "/" ext = false ->
  occurs "." ext = false -> base <> "" -> ext <> "" ->
  let n := base +++ String "." ext in
  let in_dir (file : string) : path :=
    {| root := root RECIPES_DIR; parts := parts RECIPES_DIR ++ [file] |} in
  fs {| root := ""; parts := [n] |} = false ->
  fs (in_dir n) = false ->
  fs (in_dir (n +++ ".yaml")) = false ->
  fs (in_dir (n +++ ".yml")) = false ->
  fs (in_dir (base +++ ".yaml")) = true ->
  resolve_recipe_path RECIPES_DIR fs n = Ret (in_dir (base +++ ".yaml")).
Proof.
  intros Hb He Hd Hbase Hext n in_dir Hlit Hdir Hyaml Hyml Hstem.
  assert (Hs : occurs "/" n = false).
  { unfold n. rewrite occurs_app, Hb. cbn [occurs]. rewrite He. reflexivity. }
  assert (Hlen : (2 <= String.length n)%nat).
  { unfold n. rewrite length_app. cbn [String.length].
    destruct base; [congruence | cbn [String.length]; lia]. }
  assert (Hempty : n <> "") by (intros Heq; rewrite Heq in Hlen; cbn in Hlen; lia).
  assert (Hdot : n <> ".") by (intros Heq; rewrite Heq in Hlen; cbn in Hlen; lia).
  destruct (with_suffix_bare n ".yaml" Hs eq_refl) as (Hy1 & Hy2 & Hy3);
    [cbn; lia|].
  destruct (with_suffix_bare n ".yml" Hs eq_refl) as (Hm1 & Hm2 & Hm3);
    [cbn; lia|].
  destruct (with_suffix_bare base ".yaml" Hb eq_refl) as (Hs1 & Hs2 & Hs3);
    [cbn; lia|].
  unfold resolve_recipe_path.
  rewrite (name_bare _ Hs Hempty Hdot).
  replace (stem (Path n)) with base by (symmetry; apply stem_bare; assumption).
  rewrite (Path_bare _ Hs Hempty Hdot), Hlit.
  rewrite (joinpath_bare _ _ Hs Hempty Hdot).
  rewrite (joinpath_bare _ _ Hy1 Hy2 Hy3), (joinpath_bare _ _ Hm1 Hm2 Hm3).
  rewrite (joinpath_bare _ _ Hs1 Hs2 Hs3).
  fold (in_dir n) (in_dir (n +++ ".yaml")) (in_dir (n +++ ".yml"))
       (in_dir (base +++ ".yaml")).
  cbn [find]. rewrite Hdir, Hyaml, Hyml, Hstem. reflexivity.
Qed.

End ResolverMore.

(** ** More on the readiness prober *)

Lemma rstrip_by_idem (p : ascii -> bool) (s : string) :
  rstrip_by p (rstrip_by p s) = rstrip_by p s.
Proof.
  induction s as [|c s IH]; cbn [rstrip_by]; [reflexivity|].
  destruct (rstrip_by p s) as [|c2 r] eqn:Hr.
  - destruct (p c) eqn:Hc; cbn [rstrip_by]; [reflexivity|]. rewrite Hc. reflexivity.
  - cbn [rstrip_by]. cbn [rstrip_by] in IH. rewrite IH. reflexivity.
Qed.

Lemma lstrip_by_head (p : ascii -> bool) (s : string) :
  lstrip_by p s = "" \/ exists c t, lstrip_by p s = String c t /\ p c = false.
Proof.
  induction s as [|c s IH]; cbn [lstrip_by]; [left; reflexivity|].
  destruct (p c) eqn:Hc; [exact IH|]. right. exists c, s. split; [reflexivity | exact Hc].
Qed.

Lemma strip_idem (s : string) : strip (strip s) = strip s.
Proof.
  unfold strip.
  destruct (lstrip_by_head is_space s) as [->|(c & t & -> & Hc)]; [reflexivity|].
  assert (Hhead : exists r, rstrip_by is_space (String c t) = String c r).
  { cbn [rstrip_by]. destruct (rstrip_by is_space t); [|eauto].
    rewrite Hc. eauto. }
  destruct Hhead as [r Hr].
  rewrite Hr. cbn [lstrip_by]. rewrite Hc, <- Hr. apply rstrip_by_idem.
Qed.

Lemma filter_prints (f : event -> bool) (prints : list event) :
  (forall text, f (Printed text) = false) ->
  Forall is_print prints -> filter f prints = [].
Proof.
  intros Hf Hall. induction Hall as [|e prints He _ IH]; [reflexivity|].
  destruct e; try destruct He. cbn [filter]. rewrite Hf. exact IH.
Qed.

Section ProberMore.
Context `{Runtime}.
Variable E : env.

Lemma model_under_keys_trimmed (f : dict) (keys : list string) (m : string) :
  model_under_keys f keys = Some m -> nonempty m = true /\ strip m = m.
Proof.
  induction keys as [|key keys IH]; cbn [model_under_keys]; [discriminate|].
  destruct (dict_get f key) as [[| | | |val| |]|]; try exact IH.
  destruct (nonempty (strip val)) eqn:Hval; [|exact IH].
  intros Hm. injection Hm as <-. split; [exact Hval | apply strip_idem].
Qed.

Lemma first_model_trimmed (payload : pyvalue) (m : string) :
  first_model payload = Ret (Some m) -> nonempty m = true /\ strip m = m.
Proof.
  unfold first_model.
  destruct payload as [| | | | | |p]; try discriminate.
  destruct (dict_get p "data") as [[| | | | |[|first rest]|]|]; try discriminate.
  destruct first as [| | | | | |f]; try discriminate.
  intros Hm.
  assert (Hk : model_under_keys f ["id"; "model"; "name"] = Some m) by congruence.
  exact (model_under_keys_trimmed _ _ _ Hk).
Qed.

(** What a turn does to the state, however it ends: one request to the
    models URL, then lines and at most one sleep, and no process. *)
Lemma probe_once_trace (models_url : string) (interval_seconds : Z)
      (st st' : state) (t : turn) :
  probe_once E models_url interval_seconds st = (t, st') ->
  requests st' = S (requests st) /\
  (forall model, t = Resolved model -> nonempty model = true /\ strip model = model) /\
  exists rest,
    trace st' = trace st ++ HttpGet models_url :: rest /\
    network_calls rest = [] /\ execs rest = [] /\
    (interval_seconds < 0 -> sleeps rest = []).
Proof.
  unfold probe_once, bind, http_get, sleep_then_retry, bind, print, emit, time_sleep, ret.
  cbn [now requests trace].
  destruct (reply (endpoint E models_url (requests st))) as [error|body].
  - destruct (interval_seconds <? 0) eqn:Hi; intros Heq; injection Heq as <- <-;
      cbn [requests trace]; (split; [reflexivity|]);
      (split; [intros model Hm; discriminate|]);
      rewrite <- ?app_assoc; eexists; (split; [reflexivity|]);
      repeat split; try reflexivity;
      intros Hneg; apply Z.ltb_ge in Hi; lia.
  - destruct (json_loads body) as [payload|].
    + destruct (first_model payload) as [[model|]|e] eqn:Hfirst.
      * intros Heq; injection Heq as <- <-. cbn [requests trace].
        split; [reflexivity|]. split.
        -- intros model' Hm. injection Hm as <-. exact (first_model_trimmed _ _ Hfirst).
        -- rewrite <- ?app_assoc. eexists. split; [reflexivity|].
           repeat split; reflexivity.
      * destruct (interval_seconds <? 0) eqn:Hi; intros Heq; injection Heq as <- <-;
          cbn [requests trace]; (split; [reflexivity|]);
          (split; [intros model Hm; discriminate|]);
          rewrite <- ?app_assoc; eexists; (split; [reflexivity|]);
          repeat split; try reflexivity;
          intros Hneg; apply Z.ltb_ge in Hi; lia.
      * destruct (interval_seconds <? 0) eqn:Hi; intros Heq; injection Heq as <- <-;
          cbn [requests trace]; (split; [reflexivity|]);
          (split; [intros model Hm; discriminate|]);
          rewrite <- ?app_assoc; eexists; (split; [reflexivity|]);
          repeat split; try reflexivity;
          intros Hneg; apply Z.ltb_ge in Hi; lia.
    + destruct (interval_seconds <? 0) eqn:Hi; cbn [now requests trace];
        rewrite ?Hi; intros Heq; injection Heq as <- <-;
        cbn [requests trace]; (split; [reflexivity|]);
        (split; [intros model Hm; discriminate|]);
        rewrite <- ?app_assoc; eexists; (split; [reflexivity|]);
        repeat split; try reflexivity;
        intros Hneg; apply Z.ltb_ge in Hi; lia.
Qed.

Lemma poll_trace (models_url : string) (deadline interval_seconds : Z) :
  forall (fuel : nat) (last_error : string) (st st' : state)
         (r : result (option string)),
    poll E fuel models_url deadline interval_seconds last_error st = Some (r, st') ->
    (requests st <= requests st')%nat /\
    network_calls (trace st') =
      network_calls (trace st)
        ++ repeat (HttpGet models_url) (requests st' - requests st) /\
    execs (trace st') = execs (trace st) /\
    (forall model, r = Ret (Some model) -> nonempty model = true /\ strip model = model).
Proof.
  induction fuel as [|fuel IH]; intros last_error st st' r; cbn [poll]; [discriminate|].
  unfold time_time. destruct (now st <? deadline).
  - destruct (probe_once E models_url interval_seconds st) as [t st1] eqn:Hp.
    destruct (probe_once_trace _ _ _ _ _ Hp)
      as (Hreq & Htrim & rest & Htr & Hnet & Hexec & _).
    assert (Hnet1 : network_calls (trace st1)
                    = network_calls (trace st) ++ [HttpGet models_url]).
    { rewrite Htr. unfold network_calls. rewrite filter_app. cbn [filter is_http_get].
      unfold network_calls in Hnet. rewrite Hnet. reflexivity. }
    assert (Hexec1 : execs (trace st1) = execs (trace st)).
    { rewrite Htr. unfold execs. rewrite filter_app. cbn [filter is_exec].
      unfold execs in Hexec. rewrite Hexec. apply app_nil_r. }
    destruct t as [model|error|e].
    + intros Heq. injection Heq as <- <-. rewrite Hreq.
      replace (S (requests st) - requests st)%nat with 1%nat by lia.
      split; [lia|]. split; [exact Hnet1|]. split; [exact Hexec1|].
      intros model' Hm. injection Hm as <-. apply Htrim. reflexivity.
    + intros Hrun. destruct (IH _ _ _ _ Hrun) as (Hle & Hn & He & Hm).
      split; [lia|]. split; [|split; [congruence | exact Hm]].
      rewrite Hn, Hnet1, <- app_assoc. cbn [app].
      replace (requests st' - requests st)%nat
        with (S (requests st' - requests st1))%nat by lia.
      reflexivity.
    + intros Heq. injection Heq as <- <-. rewrite Hreq.
      replace (S (requests st) - requests st)%nat with 1%nat by lia.
      split; [lia|]. split; [exact Hnet1|]. split; [exact Hexec1|].
      intros model' Hm. discriminate.
  - unfold bind, print, emit, ret. cbn [now requests trace].
    intros Heq. injection Heq as <- <-. cbn [requests trace].
    rewrite Nat.sub_diag. cbn [repeat]. rewrite app_nil_r.
    split; [lia|]. unfold network_calls, execs. rewrite !filter_app. cbn.
    rewrite !app_nil_r. split; [reflexivity|]. split; [reflexivity|].
    intros model Hm. discriminate.
Qed.

Lemma wait_as_poll (fuel : nat) (base_url : string)
      (timeout_seconds interval_seconds : Z) (st : state) :
  wait_for_models_endpoint_and_get_first_model
    E fuel base_url timeout_seconds interval_seconds st =
  poll E fuel (rstrip_slash base_url +++ "/models") (now st + timeout_seconds)
       interval_seconds "unknown error"
       {| now := now st;
          requests := requests st;
          trace := trace st ++ [Printed (waiting_banner
                                           (rstrip_slash base_url +++ "/models")
                                           timeout_seconds)] |}.
Proof. reflexivity. Qed.

(** A model that the prober returns is never empty and carries no
    whitespace at either end. *)
Theorem prober_result_is_trimmed
        (fuel : nat) (base_url : string) (timeout_seconds interval_seconds : Z)
        (st st' : state) (model : string) :
  wait_for_models_endpoint_and_get_first_model
    E fuel base_url timeout_seconds interval_seconds st = Some (Ret (Some model), st') ->
  model <> "" /\ strip model = model.
Proof.
  rewrite wait_as_poll. intros Hrun.
  destruct (poll_trace _ _ _ _ _ _ _ _ Hrun) as (_ & _ & _ & Htrim).
  destruct (Htrim model eq_refl) as [Hne Hstrip].
  split; [|exact Hstrip]. intros ->. discriminate.
Qed.

(** However the prober ends, every request it made went to
    [<base_url>/models], the trace shows one for each request counted, and
    no process was started. *)
Theorem prober_only_queries_models_url
        (fuel : nat) (base_url : string) (timeout_seconds interval_seconds : Z)
        (st st' : state) (r : result (option string)) :
  wait_for_models_endpoint_and_get_first_model
    E fuel base_url timeout_seconds interval_seconds st = Some (r, st') ->
  network_calls (trace st') =
    network_calls (trace st)
      ++ repeat (HttpGet (rstrip_slash base_url +++ "/models"))
                (requests st' - requests st) /\
  execs (trace st') = execs (trace st).
Proof.
  rewrite wait_as_poll. intros Hrun.
  destruct (poll_trace _ _ _ _ _ _ _ _ Hrun) as (_ & Hnet & Hexec & _).
  cbn [requests trace] in Hnet, Hexec.
  unfold network_calls, execs in *. rewrite filter_app in Hnet, Hexec.
  cbn in Hnet, Hexec. rewrite app_nil_r in Hnet, Hexec.
  split; assumption.
Qed.

Lemma poll_requests_bound (models_url : string) (deadline interval_seconds : Z) :
  0 <= interval_seconds ->
  forall (fuel : nat) (last_error : string) (st st' : state)
         (r : result (option string)),
    poll E fuel models_url deadline interval_seconds last_error st = Some (r, st') ->
    (requests st <= requests st')%nat /\
    (requests st' = requests st \/
     now st + (Z.of_nat (requests st' - requests st) - 1) * interval_seconds < deadline).
Proof.
  intros Hi. induction fuel as [|fuel IH]; intros last_error st st' r; [discriminate|].
  destruct (Z_lt_le_dec (now st) deadline) as [Hlt|Hge].
  - rewrite (poll_before_deadline _ _ _ _ _ _ _ Hlt).
    destruct (probe_once E models_url interval_seconds st) as [t st1] eqn:Hp.
    destruct (probe_once_trace _ _ _ _ _ Hp) as (Hreq & _).
    destruct t as [model|error|e].
    + intros Heq. injection Heq as <- <-. rewrite Hreq. split; [lia|]. right.
      replace (S (requests st) - requests st)%nat with 1%nat by lia. lia.
    + intros Hrun. destruct (IH _ _ _ _ Hrun) as (Hle & Hbound).
      assert (Hnow : now st + interval_seconds <= now st1).
      { destruct (probe_once_cases E models_url interval_seconds st Hi)
          as [(m & s & Hrun' & _)|(err & prints & Hrun' & _)];
          rewrite Hp in Hrun'; [discriminate|].
        injection Hrun' as _ ->. unfold after_retry. cbn [now]. lia. }
      split; [lia|]. right. destruct Hbound as [Heq|Hb].
      * rewrite Heq, Hreq.
        replace (S (requests st) - requests st)%nat with 1%nat by lia. lia.
      * replace (Z.of_nat (requests st' - requests st) - 1)
          with ((Z.of_nat (requests st' - requests st1) - 1) + 1) by lia.
        rewrite Z.mul_add_distr_r. lia.
    + intros Heq. injection Heq as <- <-. rewrite Hreq. split; [lia|]. right.
      replace (S (requests st) - requests st)%nat with 1%nat by lia. lia.
  - rewrite (poll_past_deadline _ _ _ _ _ _ _ Hge).
    intros Heq. injection Heq as <- <-. cbn [requests]. split; [lia | left; reflexivity].
Qed.

(** With a positive interval the prober sends a bounded number of requests:
    none when the timeout is not positive, and otherwise the requests but
    the last one, each followed by a sleep of the interval, fit in the
    timeout. *)
Theorem prober_request_bound
        (fuel : nat) (base_url : string) (timeout_seconds interval_seconds : Z)
        (st st' : state) (r : result (option string)) :
  0 < interval_seconds ->
  wait_for_models_endpoint_and_get_first_model
    E fuel base_url timeout_seconds interval_seconds st = Some (r, st') ->
  (timeout_seconds <= 0 -> requests st' = requests st) /\
  (Z.of_nat (requests st' - requests st) - 1) * interval_seconds < Z.max 0 timeout_seconds.
Proof.
  intros Hi. rewrite wait_as_poll. intros Hrun.
  destruct (poll_requests_bound _ _ _ (Z.lt_le_incl _ _ Hi) _ _ _ _ _ Hrun)
    as (Hle & Hbound).
  cbn [now requests] in Hle, Hbound.
  destruct Hbound as [Heq|Hb].
  - split; [intros _; exact Heq|]. rewrite Heq, Nat.sub_diag.
    change (Z.of_nat 0) with 0. lia.
  - assert (Hn : (requests st' - requests st = 0)%nat \/
                 (1 <= requests st' - requests st)%nat) by lia.
    destruct Hn as [Hz|Hpos].
    + split; [intros _; lia|]. rewrite Hz. change (Z.of_nat 0) with 0. lia.
    + assert (Hprod : 0 <= (Z.of_nat (requests st' - requests st) - 1) * interval_seconds).
      { apply Z.mul_nonneg_nonneg; lia. }
      split; [intros Ht; lia | lia].
Qed.

Lemma turn_start_shift (models_url : string) (interval_seconds : Z)
      (prints : list event) (st : state) (k : nat) :
  turn_start E models_url interval_seconds
             (after_retry E models_url interval_seconds prints st) k
  = turn_start E models_url interval_seconds st (S k).
Proof.
  induction k as [|k IH].
  - cbn [turn_start after_retry now]. rewrite Nat.add_0_r. reflexivity.
  - cbn [turn_start] in *. rewrite IH. cbn [after_retry requests].
    replace (S (requests st) + k)%nat with (requests st + S k)%nat by lia.
    reflexivity.
Qed.

Lemma turn_start_mono (models_url : string) (interval_seconds : Z) (st : state) (n : nat) :
  0 <= interval_seconds ->
  now st <= turn_start E models_url interval_seconds st n.
Proof.
  intros Hi. induction n as [|n IH]; cbn [turn_start]; lia.
Qed.

(** The prober returns the model of the first reply that names one, after
    one sleep for each reply before it, provided the clock is still before
    the deadline when that turn starts. *)
Theorem prober_resolves_after_retries
        (models_url : string) (deadline interval_seconds : Z)
        (body : string) (payload : pyvalue) (model : string) :
  0 <= interval_seconds ->
  json_loads body = Some payload ->
  first_model payload = Ret (Some model) ->
  forall (n fuel : nat) (last_error : string) (st : state),
    (forall i, (i < n)%nat ->
               retry_reason (reply (endpoint E models_url (requests st + i)%nat))
               <> None) ->
    reply (endpoint E models_url (requests st + n)%nat) = HttpBody body ->
    turn_start E models_url interval_seconds st n < deadline ->
    (n < fuel)%nat ->
    exists st',
      poll E fuel models_url deadline interval_seconds last_error st
      = Some (Ret (Some model), st') /\
      requests st' = (requests st + n + 1)%nat /\
      sleeps (trace st') = sleeps (trace st) ++ repeat (Sleep interval_seconds) n /\
      now st' = turn_start E models_url interval_seconds st n
                + Z.of_N (elapsed (endpoint E models_url (requests st + n)%nat)).
Proof.
  intros Hi Hloads Hfirst.
  induction n as [|n IH]; intros fuel last_error st Hfail Hreply Hstart Hfuel.
  - destruct fuel as [|fuel]; [lia|].
    rewrite Nat.add_0_r in Hreply. cbn [turn_start] in Hstart.
    rewrite (poll_before_deadline _ _ _ _ _ _ _ Hstart).
    rewrite (probe_once_resolved _ _ _ _ _ _ _ Hreply Hloads Hfirst).
    eexists. split; [reflexivity|]. cbn [requests trace now turn_start repeat].
    rewrite !Nat.add_0_r. split; [lia|]. split; [|reflexivity].
    unfold sleeps. rewrite filter_app. cbn. reflexivity.
  - destruct fuel as [|fuel]; [lia|].
    assert (Hlt : now st < deadline).
    { pose proof (turn_start_mono models_url interval_seconds st n Hi).
      cbn [turn_start] in Hstart. lia. }
    rewrite (poll_before_deadline _ _ _ _ _ _ _ Hlt).
    destruct (retry_reason (reply (endpoint E models_url (requests st))))
      as [error|] eqn:Hreason.
    2: { exfalso. apply (Hfail O); [lia|]. rewrite Nat.add_0_r. exact Hreason. }
    destruct (probe_once_retry E _ _ _ _ Hi Hreason) as (prints & Hprints & Hrun).
    rewrite Hrun.
    set (st1 := after_retry E models_url interval_seconds prints st).
    destruct (IH fuel error st1) as (st' & Hpoll & Hreq & Hsleeps & Hnow).
    + intros i Hlt'. unfold st1. cbn [after_retry requests].
      replace (S (requests st) + i)%nat with (requests st + S i)%nat by lia.
      apply Hfail. lia.
    + unfold st1. cbn [after_retry requests].
      replace (S (requests st) + n)%nat with (requests st + S n)%nat by lia.
      exact Hreply.
    + unfold st1. rewrite turn_start_shift. exact Hstart.
    + lia.
    + exists st'. split; [exact Hpoll|].
      unfold st1 in Hreq, Hsleeps, Hnow.
      rewrite turn_start_shift in Hnow.
      cbn [after_retry requests trace] in Hreq, Hsleeps, Hnow.
      replace (S (requests st) + n)%nat with (requests st + S n)%nat in Hnow by lia.
      split; [lia|]. split; [|exact Hnow].
      rewrite Hsleeps. unfold sleeps.
      rewrite filter_app. cbn [filter is_sleep]. rewrite filter_app.
      rewrite (filter_prints is_sleep prints (fun _ => eq_refl) Hprints).
      cbn [filter is_sleep app repeat]. rewrite <- app_assoc. reflexivity.
Qed.

(** A negative interval is not caught: when the first reply within the
    deadline is one the prober retries on, the sleep raises the ValueError
    of [time.sleep] and the prober lets it out, after one request and no
    sleep. *)
Theorem prober_negative_interval_raises
        (fuel : nat) (base_url : string) (timeout_seconds interval_seconds : Z)
        (st : state) :
  interval_seconds < 0 ->
  0 < timeout_seconds ->
  retry_reason (reply (endpoint E (rstrip_slash base_url +++ "/models") (requests st)))
  <> None ->
  exists st',
    wait_for_models_endpoint_and_get_first_model
      E (S fuel) base_url timeout_seconds interval_seconds st
    = Some (Raise (Exn ValueError "sleep length must be non-negative"), st') /\
    requests st' = S (requests st) /\
    sleeps (trace st') = sleeps (trace st).
Proof.
  intros Hneg Htimeout Hreason. rewrite wait_as_poll.
  set (models_url := rstrip_slash base_url +++ "/models") in *.
  rewrite poll_before_deadline by (cbn [now]; lia).
  assert (Hlt : (interval_seconds <? 0) = true) by (apply Z.ltb_lt; exact Hneg).
  unfold probe_once, bind, http_get, sleep_then_retry, bind, print, emit, time_sleep, ret.
  cbn [now requests trace].
  unfold retry_reason in Hreason.
  destruct (reply (endpoint E models_url (requests st))) as [error|body].
  - rewrite Hlt. eexists. split; [reflexivity|]. cbn [requests trace].
    split; [reflexivity|]. unfold sleeps. rewrite !filter_app. cbn.
    rewrite !app_nil_r. reflexivity.
  - destruct (json_loads body) as [payload|].
    + destruct (first_model payload) as [[model|]|e].
      * congruence.
      * rewrite Hlt. eexists. split; [reflexivity|]. cbn [requests trace].
        split; [reflexivity|]. unfold sleeps. rewrite !filter_app. cbn.
        rewrite !app_nil_r. reflexivity.
      * rewrite Hlt. eexists. split; [reflexivity|]. cbn [requests trace].
        split; [reflexivity|]. unfold sleeps. rewrite !filter_app. cbn.
        rewrite !app_nil_r. reflexivity.
    + rewrite Hlt. cbn [now requests trace]. rewrite ?Hlt.
      eexists. split; [reflexivity|]. cbn [requests trace].
      split; [reflexivity|]. unfold sleeps. rewrite !filter_app. cbn.
      rewrite !app_nil_r. reflexivity.
Qed.

End ProberMore.

(** ** The runner *)

Section RunnerMore.
Context `{Runtime}.
Variable E : env.

Lemma check_when_disabled (which : path_env) (b : dict) :
  dict_get b "enabled" = None \/
  (exists e, dict_get b "enabled" = Some e /\ py_truth e = false) ->
  dict_get b "framework" = None \/ dict_get b "framework" = Some (VStr "llama-benchy") ->
  check_benchmark which (normalised b) = Ret tt /\
  exists e, dict_get (normalised b) "enabled" = Some e /\ py_truth e = false.
Proof.
  intros Hen Hfw. unfold check_benchmark. rewrite (normalised_framework _ Hfw). cbn.
  destruct Hen as [Hnone|(e & He & Ht)].
  - rewrite (normalised_enabled_default _ Hnone). split; [reflexivity|].
    exists (VBool false). split; reflexivity.
  - rewrite (normalised_keeps _ _ _ He), Ht. split; [reflexivity|].
    exists e. split; [reflexivity | exact Ht].
Qed.

Lemma validate_again (which : path_env) (recipe recipe' : dict) :
  validate_recipe_benchmark_config which recipe = (recipe', Ret tt) ->
  validate_recipe_benchmark_config which recipe' = (recipe', Ret tt).
Proof.
  intros Hrun.
  assert (Hshape : exists b0,
             dict_get recipe' "benchmark" = Some (VDict (normalised b0)) /\
             check_benchmark which (normalised b0) = Ret tt).
  { destruct (dict_get recipe "benchmark") as [v|] eqn:Hb.
    - destruct v as [| | | | | |b0];
        try (rewrite (validate_on_other _ _ _ Hb) in Hrun by discriminate;
             discriminate).
      rewrite (validate_on_dict _ _ _ Hb) in Hrun.
      injection Hrun as <- Hcheck. exists b0. split; [|exact Hcheck].
      rewrite dict_get_set, String.eqb_refl. reflexivity.
    - rewrite (validate_on_missing _ _ Hb) in Hrun.
      injection Hrun as <-. exists []. split; [|reflexivity].
      rewrite dict_get_app, Hb. reflexivity. }
  destruct Hshape as (b0 & Hget & Hcheck).
  rewrite (validate_on_dict _ _ _ Hget), normalised_idem, Hcheck.
  rewrite (dict_set_same _ _ _ Hget). reflexivity.
Qed.

(** A dry run always ends, whatever the recipe and with no fuel at all, and
    it only prints: no request, no sleep, no process, and the clock stands
    still. *)
Theorem dry_run_only_prints (fuel : nat) (recipe : dict) (st : state) :
  exists out st',
    run_recipe_benchmark E fuel recipe true st = Some (out, st') /\
    network_calls (trace st') = network_calls (trace st) /\
    sleeps (trace st') = sleeps (trace st) /\
    execs (trace st') = execs (trace st) /\
    requests st' = requests st /\
    now st' = now st.
Proof.
  unfold run_recipe_benchmark.
  destruct (validate_recipe_benchmark_config (which E) recipe) as [recipe1 [[]|e]].
  - destruct (benchmark_enabled recipe1) as [[|]|e].
    + destruct (build_llama_benchy_command recipe1 default_model) as [recipe2 [cmd|e]].
      * eexists. eexists. split; [reflexivity|]. cbn.
        unfold network_calls, sleeps, execs. rewrite !filter_app. cbn.
        rewrite !app_nil_r. repeat split.
      * eexists. eexists. split; [reflexivity|]. repeat split.
    + eexists. eexists. split; [reflexivity|]. cbn.
      unfold network_calls, sleeps, execs. rewrite !filter_app. cbn.
      rewrite !app_nil_r. repeat split.
    + eexists. eexists. split; [reflexivity|]. repeat split.
  - eexists. eexists. split; [reflexivity|]. repeat split.
Qed.

(** A recipe without a [benchmark] block, or whose [benchmark.enabled] is
    absent or false-like (the framework being [llama-benchy] or left out),
    makes the runner print the "benchmark.enabled is false" error and
    return 1, dry run or not, installed tool or not. *)
Theorem run_disabled_exits_1 (fuel : nat) (recipe : dict) (dry_run : bool) (st : state) :
  dict_get recipe "benchmark" = None \/
  (exists b,
      dict_get recipe "benchmark" = Some (VDict b) /\
      (dict_get b "enabled" = None \/
       exists e, dict_get b "enabled" = Some e /\ py_truth e = false) /\
      (dict_get b "framework" = None \/
       dict_get b "framework" = Some (VStr "llama-benchy"))) ->
  exists recipe' : dict,
    run_recipe_benchmark E fuel recipe dry_run st =
    Some ((recipe', Ret 1),
          {| now := now st;
             requests := requests st;
             trace := trace st ++
               [Printed "Error: benchmark.enabled is false (or benchmark block is missing) in recipe"] |}).
Proof.
  intros [Hnone|(b & Hb & Hen & Hfw)]; unfold run_recipe_benchmark.
  - rewrite (validate_on_missing _ _ Hnone).
    unfold benchmark_enabled. rewrite dict_get_app, Hnone. cbn.
    eexists. reflexivity.
  - rewrite (validate_on_dict _ _ _ Hb).
    destruct (check_when_disabled (which E) b Hen Hfw) as (-> & e & He & Ht).
    unfold benchmark_enabled. rewrite dict_get_set, String.eqb_refl. cbv beta iota.
    rewrite He, Ht. eexists. reflexivity.
Qed.

Lemma flat_map_binding (f : string * pyvalue -> list string) (d : dict)
      (k : string) (v : pyvalue) :
  dict_get d k = Some v ->
  exists pre post, flat_map f d = pre ++ f (k, v) ++ post.
Proof.
  induction d as [|[k0 v0] d IH]; cbn [dict_get flat_map]; [discriminate|].
  destruct (String.eqb k0 k) eqn:Hk.
  - apply String.eqb_eq in Hk. subst k0. intros Hv. injection Hv as ->.
    exists [], (flat_map f d). reflexivity.
  - intros Hget. destruct (IH Hget) as (pre & post & Heq).
    exists (f (k0, v0) ++ pre), post. rewrite Heq, <- app_assoc. reflexivity.
Qed.

(** The real run, end to end: for a valid and enabled recipe, with
    [llama-benchy] installed and a first reply that names a model, the
    runner sends one request, starts one process, whose command is the
    prefix with the resolved model followed by the tokens of the arguments,
    and returns the return code of that process; when the process cannot
    be found it returns 1, and any other exception of the launch gets out. *)
Theorem run_executes_resolved_command
        (fuel : nat) (recipe b a : dict) (e : pyvalue) (exe url body model : string)
        (payload : pyvalue) (st : state) :
  dict_get recipe "benchmark" = Some (VDict b) ->
  dict_get b "enabled" = Some e -> py_truth e = true ->
  dict_get b "framework" = None \/ dict_get b "framework" = Some (VStr "llama-benchy") ->
  dict_get b "args" = Some (VDict a) ->
  which E "llama-benchy" = Some exe ->
  get_recipe_base_url recipe = Ret url ->
  reply (endpoint E (rstrip_slash url +++ "/models") (requests st)) = HttpBody body ->
  json_loads body = Some payload ->
  first_model payload = Ret (Some model) ->
  let cmd := ["llama-benchy"; "--base-url"; url; "--model"; model]
               ++ flat_map (item_tokens (Some ["base_url"; "model"]))
                           (apply_llama_benchy_defaults a) in
  exists (recipe' : dict) (st' : state),
    run_recipe_benchmark E (S fuel) recipe false st =
    Some ((recipe',
           match run_process E cmd with
           | Ret code => Ret code
           | Raise err =>
               match exn_cls err with
               | FileNotFoundError => Ret 1
               | _ => Raise err
               end
           end), st') /\
    execs (trace st') = execs (trace st) ++ [Exec cmd] /\
    network_calls (trace st') =
      network_calls (trace st) ++ [HttpGet (rstrip_slash url +++ "/models")] /\
    sleeps (trace st') = sleeps (trace st).
Proof.
  intros Hb He Ht Hfw Ha Hwhich Hurl Hreply Hloads Hfirst cmd.
  unfold run_recipe_benchmark.
  rewrite (validate_on_dict _ _ _ Hb).
  rewrite (check_enabled_llama_benchy (which E) (normalised b) e
             (normalised_framework _ Hfw) (normalised_keeps _ _ _ He) Ht), Hwhich.
  set (recipe1 := dict_set recipe "benchmark" (VDict (normalised b))).
  assert (Hb1 : dict_get recipe1 "benchmark" = Some (VDict (normalised b))).
  { unfold recipe1. rewrite dict_get_set. reflexivity. }
  assert (Hurl1 : get_recipe_base_url recipe1 = Ret url).
  { unfold recipe1. rewrite base_url_frame. exact Hurl. }
  unfold benchmark_enabled. rewrite Hb1. cbv beta iota.
  rewrite (normalised_keeps _ _ _ He), Ht, Hurl1.
  rewrite wait_as_poll.
  match goal with |- context [poll _ _ _ _ _ _ ?s] => set (st1 := s) end.
  rewrite (poll_before_deadline E fuel _ _ _ _ st1) by (cbn [st1 now]; lia).
  rewrite (probe_once_resolved E _ 2 st1 body payload model Hreply Hloads Hfirst).
  unfold st1. cbn [now requests trace].
  destruct (first_model_trimmed _ _ Hfirst) as [Hne _]. rewrite Hne.
  rewrite (build_on_dict _ _ _ _ Hb1 (normalised_keeps _ _ _ Ha)), Hurl1.
  cbn [rbind]. rewrite append_cli_args_tokens. fold cmd.
  unfold execute, bind, print, emit, ret. cbn [now requests trace].
  destruct (run_process E cmd) as [code|err].
  - eexists. eexists. split; [reflexivity|]. cbn [trace].
    unfold network_calls, sleeps, execs. rewrite !filter_app. cbn.
    rewrite !app_nil_r. repeat split.
  - destruct (exn_cls err); eexists; eexists; (split; [reflexivity|]); cbn [trace];
      unfold network_calls, sleeps, execs; rewrite !filter_app; cbn;
      rewrite !app_nil_r; repeat split.
Qed.

(** When no reply ever names a model, the real run on a valid and enabled
    recipe gives up after the 300 seconds of the prober: it returns 1 and
    starts no process. *)
Theorem run_without_model_exits_1
        (recipe b : dict) (e : pyvalue) (exe url : string) (st : state) :
  dict_get recipe "benchmark" = Some (VDict b) ->
  dict_get b "enabled" = Some e -> py_truth e = true ->
  dict_get b "framework" = None \/ dict_get b "framework" = Some (VStr "llama-benchy") ->
  which E "llama-benchy" = Some exe ->
  get_recipe_base_url recipe = Ret url ->
  (forall n, retry_reason (reply (endpoint E (rstrip_slash url +++ "/models") n))
             <> None) ->
  exists enough : nat,
  forall fuel : nat,
    (enough <= fuel)%nat ->
    exists (recipe' : dict) (st' : state),
      run_recipe_benchmark E fuel recipe false st = Some ((recipe', Ret 1), st') /\
      execs (trace st') = execs (trace st).
Proof.
  intros Hb He Ht Hfw Hwhich Hurl Hfail.
  exists 301%nat. intros fuel Hfuel.
  unfold run_recipe_benchmark.
  rewrite (validate_on_dict _ _ _ Hb).
  rewrite (check_enabled_llama_benchy (which E) (normalised b) e
             (normalised_framework _ Hfw) (normalised_keeps _ _ _ He) Ht), Hwhich.
  set (recipe1 := dict_set recipe "benchmark" (VDict (normalised b))).
  assert (Hurl1 : get_recipe_base_url recipe1 = Ret url).
  { unfold recipe1. rewrite base_url_frame. exact Hurl. }
  unfold benchmark_enabled at 1. unfold recipe1 at 1.
  rewrite dict_get_set, String.eqb_refl. cbv beta iota.
  rewrite (normalised_keeps _ _ _ He), Ht, Hurl1.
  assert (Hi : 0 <= 2) by lia.
  destruct (poll_returns E (rstrip_slash url +++ "/models") (now st + 300) 2 Hi
              (fun n => ltac:(lia)) fuel "unknown error"
              {| now := now st;
                 requests := requests st;
                 trace := trace st ++ [Printed (waiting_banner
                                                  (rstrip_slash url +++ "/models") 300)] |})
    as (o & st1 & Hpoll & Hnone).
  { cbn [now]. replace (now st + 300 - now st) with 300 by lia.
    change (Z.to_nat 300) with 300%nat. lia. }
  rewrite wait_as_poll, Hpoll, (Hnone Hfail).
  destruct (poll_trace E _ _ _ _ _ _ _ _ Hpoll) as (_ & _ & Hexec & _).
  eexists. eexists. split; [reflexivity|]. cbn [trace].
  unfold execs in *. rewrite filter_app. cbn [filter is_exec]. rewrite app_nil_r.
  rewrite Hexec. cbn [trace]. rewrite filter_app. cbn. apply app_nil_r.
Qed.

End RunnerMore.

(** ** The entry point *)

Section DryRunMore.
Context `{Runtime}.
Variable E : env.

Lemma run_dry_on_valid (fuel : nat) (recipe b a : dict) (e : pyvalue)
      (exe url : string) (st : state) :
  dict_get recipe "benchmark" = Some (VDict b) ->
  dict_get b "enabled" = Some e -> py_truth e = true ->
  dict_get b "framework" = None \/ dict_get b "framework" = Some (VStr "llama-benchy") ->
  dict_get b "args" = Some (VDict a) ->
  which E "llama-benchy" = Some exe ->
  get_recipe_base_url recipe = Ret url ->
  exists recipe' : dict,
    run_recipe_benchmark E fuel recipe true st =
    Some ((recipe', Ret 0),
          {| now := now st;
             requests := requests st;
             trace := trace st ++
               [Printed (nl +++ "=== Running Benchmark ===");
                Printed (shlex_join
                           (["llama-benchy"; "--base-url"; url;
                             "--model"; "__from_v1_models__"]
                              ++ flat_map (item_tokens (Some ["base_url"; "model"]))
                                          (apply_llama_benchy_defaults a)))] |}).
Proof.
  intros Hb He Ht Hfw Ha Hwhich Hurl.
  unfold run_recipe_benchmark.
  rewrite (validate_on_dict _ _ _ Hb).
  rewrite (check_enabled_llama_benchy (which E) (normalised b) e
             (normalised_framework _ Hfw) (normalised_keeps _ _ _ He) Ht), Hwhich.
  set (recipe1 := dict_set recipe "benchmark" (VDict (normalised b))).
  assert (Hb1 : dict_get recipe1 "benchmark" = Some (VDict (normalised b))).
  { unfold recipe1. rewrite dict_get_set. reflexivity. }
  assert (Hurl1 : get_recipe_base_url recipe1 = Ret url).
  { unfold recipe1. rewrite base_url_frame. exact Hurl. }
  unfold benchmark_enabled. rewrite Hb1. cbv beta iota.
  rewrite (normalised_keeps _ _ _ He), Ht.
  rewrite (build_on_dict _ _ _ _ Hb1 (normalised_keeps _ _ _ Ha)), Hurl1.
  cbn [rbind]. rewrite append_cli_args_tokens.
  eexists. unfold bind, print, emit, ret. cbn [now requests trace].
  rewrite <- app_assoc. reflexivity.
Qed.

(** The dry run of any valid and enabled recipe, with [llama-benchy]
    installed, prints the banner and the shell-quoted command built with
    the placeholder model, and returns 0. *)
Theorem dry_run_prints_command (fuel : nat) (recipe b a : dict) (e : pyvalue)
        (exe url : string) (st : state) :
  dict_get recipe "benchmark" = Some (VDict b) ->
  dict_get b "enabled" = Some e -> py_truth e = true ->
  dict_get b "framework" = None \/ dict_get b "framework" = Some (VStr "llama-benchy") ->
  dict_get b "args" = Some (VDict a) ->
  which E "llama-benchy" = Some exe ->
  get_recipe_base_url recipe = Ret url ->
  exists (recipe' : dict) (cmd : list string),
    snd (build_llama_benchy_command recipe default_model) = Ret cmd /\
    run_recipe_benchmark E fuel recipe true st =
    Some ((recipe', Ret 0),
          {| now := now st;
             requests := requests st;
             trace := trace st ++
               [Printed (nl +++ "=== Running Benchmark ===");
                Printed (shlex_join cmd)] |}).
Proof.
  intros Hb He Ht Hfw Ha Hwhich Hurl.
  destruct (run_dry_on_valid fuel recipe b a e exe url st Hb He Ht Hfw Ha Hwhich Hurl)
    as [recipe' Hrun].
  exists recipe'. eexists. split; [|exact Hrun].
  rewrite (build_on_dict _ _ _ _ Hb Ha). cbn [snd]. rewrite Hurl. cbn [rbind].
  rewrite append_cli_args_tokens. reflexivity.
Qed.

End DryRunMore.

Section MainFacts.
Context `{Runtime}.
Variable RECIPES_DIR : path.
Variable fs : filesystem.
Variable load_yaml : path -> result pyvalue.
Variable E : env.

(** The entry point fails before anything is printed or requested when no
    recipe is found (FileNotFoundError "Recipe not found") and when the
    file does not hold a mapping (the AttributeError of [setdefault], as
    for an empty file, which loads as [None]). *)
Theorem main_fails_before_running (fuel : nat) (args : cli_args) (st : state) :
  (forallb (fun q => negb (fs q)) (search_order RECIPES_DIR (arg_recipe args)) = true ->
   main RECIPES_DIR fs load_yaml E fuel args st =
   Some (Raise (Exn FileNotFoundError ("Recipe not found: " +++ arg_recipe args)), st)) /\
  (forall p v,
      resolve_recipe_path RECIPES_DIR fs (arg_recipe args) = Ret p ->
      load_yaml p = Ret v ->
      (forall d, v <> VDict d) ->
      main RECIPES_DIR fs load_yaml E fuel args st =
      Some (Raise (Exn AttributeError
                     ("'" +++ type_name v +++ "' object has no attribute 'setdefault'")),
            st)).
Proof.
  split.
  - intros Hnone. unfold main.
    rewrite resolve_as_find, (find_none_existing _ _ Hnone). reflexivity.
  - intros p v Hp Hload Hv. unfold main. rewrite Hp, Hload.
    destruct v; try reflexivity. exfalso. exact (Hv d eq_refl).
Qed.

(** Without [--save-result] (or with an empty one) the entry point is the
    runner on the loaded recipe: validating in [main] and again in the
    runner changes nothing. *)
Theorem main_without_override_is_run
        (fuel : nat) (args : cli_args) (st : state) (p : path) (recipe : dict) :
  arg_save_result args = None \/ arg_save_result args = Some "" ->
  resolve_recipe_path RECIPES_DIR fs (arg_recipe args) = Ret p ->
  load_yaml p = Ret (VDict recipe) ->
  main RECIPES_DIR fs load_yaml E fuel args st =
  match run_recipe_benchmark E fuel recipe (arg_dry_run args) st with
  | None => None
  | Some ((_, code), st') => Some (code, st')
  end.
Proof.
  intros Hsave Hp Hload. unfold main. rewrite Hp, Hload.
  destruct (validate_recipe_benchmark_config (which E) recipe)
    as [recipe1 [[]|e]] eqn:Hv.
  - destruct (benchmark_enabled recipe1) as [[|]|e] eqn:Hen.
    + assert (Hsame : match arg_save_result args with
                      | Some path =>
                          if nonempty path then override_save_result recipe1 path
                          else (recipe1, Ret tt)
                      | None => (recipe1, Ret tt)
                      end = (recipe1, Ret tt)).
      { destruct Hsave as [->| ->]; reflexivity. }
      rewrite Hsame.
      unfold run_recipe_benchmark at 2. rewrite Hv, Hen.
      unfold run_recipe_benchmark at 1. rewrite (validate_again _ _ _ Hv), Hen.
      reflexivity.
    + unfold run_recipe_benchmark. rewrite Hv, Hen. reflexivity.
    + unfold run_recipe_benchmark. rewrite Hv, Hen. reflexivity.
  - unfold run_recipe_benchmark. rewrite Hv. reflexivity.
Qed.

(** With [--save-result OUT] the dry run of a valid and enabled recipe
    prints a command whose arguments are those of the recipe with
    [save_result] set to [OUT], so that [--save-result OUT] is among its
    tokens, whatever the recipe says about [save_result]. *)
Theorem main_save_result_override
        (fuel : nat) (args : cli_args) (st : state) (p : path)
        (recipe b a : dict) (e : pyvalue) (exe url out : string) :
  resolve_recipe_path RECIPES_DIR fs (arg_recipe args) = Ret p ->
  load_yaml p = Ret (VDict recipe) ->
  dict_get recipe "benchmark" = Some (VDict b) ->
  dict_get b "enabled" = Some e -> py_truth e = true ->
  dict_get b "framework" = None \/ dict_get b "framework" = Some (VStr "llama-benchy") ->
  dict_get b "args" = Some (VDict a) ->
  which E "llama-benchy" = Some exe ->
  get_recipe_base_url recipe = Ret url ->
  arg_save_result args = Some out -> out <> "" ->
  arg_dry_run args = true ->
  let cmd := ["llama-benchy"; "--base-url"; url; "--model"; "__from_v1_models__"]
               ++ flat_map (item_tokens (Some ["base_url"; "model"]))
                           (apply_llama_benchy_defaults
                              (dict_set a "save_result" (VStr out))) in
  main RECIPES_DIR fs load_yaml E fuel args st =
  Some (Ret 0,
        {| now := now st;
           requests := requests st;
           trace := trace st ++
             [Printed (nl +++ "=== Running Benchmark ===");
              Printed (shlex_join cmd)] |}) /\
  exists pre post, cmd = pre ++ ["--save-result"; out] ++ post.
Proof.
  intros Hp Hload Hb He Ht Hfw Ha Hwhich Hurl Hsave Hout Hdry cmd.
  split.
  - unfold main. rewrite Hp, Hload, Hsave, Hdry.
    rewrite (validate_on_dict _ _ _ Hb).
    rewrite (check_enabled_llama_benchy (which E) (normalised b) e
               (normalised_framework _ Hfw) (normalised_keeps _ _ _ He) Ht), Hwhich.
    set (recipe1 := dict_set recipe "benchmark" (VDict (normalised b))).
    assert (Hb1 : dict_get recipe1 "benchmark" = Some (VDict (normalised b))).
    { unfold recipe1. rewrite dict_get_set. reflexivity. }
    unfold benchmark_enabled. rewrite Hb1. cbv beta iota.
    rewrite (normalised_keeps _ _ _ He), Ht.
    assert (Hne : nonempty out = true) by (destruct out; [congruence | reflexivity]).
    rewrite Hne. unfold override_save_result.
    rewrite (setdefault_present _ _ _ _ Hb1).
    rewrite (setdefault_present _ _ _ _ (normalised_keeps _ _ _ Ha)).
    set (b2 := dict_set (normalised b) "args"
                        (VDict (dict_set a "save_result" (VStr out)))).
    set (recipe2 := dict_set recipe1 "benchmark" (VDict b2)).
    destruct (run_dry_on_valid E fuel recipe2 b2
                (dict_set a "save_result" (VStr out)) e exe url st)
      as [recipe' Hrun].
    + unfold recipe2. rewrite dict_get_set. reflexivity.
    + unfold b2. rewrite dict_get_set. cbn [String.eqb Ascii.eqb Bool.eqb].
      apply normalised_keeps, He.
    + exact Ht.
    + right. unfold b2. rewrite dict_get_set. cbn [String.eqb Ascii.eqb Bool.eqb].
      apply normalised_framework, Hfw.
    + unfold b2. rewrite dict_get_set. reflexivity.
    + exact Hwhich.
    + unfold recipe2, recipe1. rewrite !base_url_frame. exact Hurl.
    + rewrite Hrun. reflexivity.
  - assert (Hget : dict_get (apply_llama_benchy_defaults
                               (dict_set a "save_result" (VStr out)))
                            "save_result" = Some (VStr out)).
    { rewrite apply_defaults_as_setdefaults. apply setdefaults_keeps.
      rewrite dict_get_set, String.eqb_refl. reflexivity. }
    destruct (flat_map_binding (item_tokens (Some ["base_url"; "model"])) _ _ _ Hget)
      as (pre & post & Heq).
    exists (["llama-benchy"; "--base-url"; url; "--model"; "__from_v1_models__"] ++ pre),
      post.
    unfold cmd. rewrite Heq, <- app_assoc. reflexivity.
Qed.

End MainFacts.

(** ** The further properties at sample inputs *)

Lemma validate_only_fills_gaps_witness :
  dict_get (fst (@validate_recipe_benchmark_config (sample_runtime []) empty_path
                   dry_run_recipe)) "defaults"
  = dict_get dry_run_recipe "defaults".
Proof.
  apply (proj1 (@validate_only_fills_gaps (sample_runtime []) empty_path dry_run_recipe)).
  discriminate.
Defined.

Lemma validate_requires_llama_benchy_witness :
  exn_cls_of (snd (@validate_recipe_benchmark_config (sample_runtime []) empty_path
                     dry_run_recipe)) = Some ValueError /\
  snd (@validate_recipe_benchmark_config (sample_runtime []) benchy_path dry_run_recipe)
  = Ret tt.
Proof.
  split.
  - rewrite (@validate_requires_llama_benchy (sample_runtime []) empty_path
               dry_run_recipe
               [("enabled", VBool true); ("args", VDict [("temperature", VFloat Half)])]
               (VBool true) eq_refl eq_refl eq_refl (or_introl eq_refl)).
    reflexivity.
  - rewrite (@validate_requires_llama_benchy (sample_runtime []) benchy_path
               dry_run_recipe
               [("enabled", VBool true); ("args", VDict [("temperature", VFloat Half)])]
               (VBool true) eq_refl eq_refl eq_refl (or_introl eq_refl)).
    reflexivity.
Defined.

Lemma validate_disabled_needs_no_tool_witness :
  snd (@validate_recipe_benchmark_config (sample_runtime []) empty_path disabled_recipe)
  = Ret tt.
Proof.
  apply (@validate_disabled_needs_no_tool (sample_runtime []) empty_path disabled_recipe
           [("enabled", VBool false)] eq_refl).
  - right. exists (VBool false). split; reflexivity.
  - left. reflexivity.
Defined.

Lemma validate_rejects_non_mapping_witness :
  exn_cls_of (snd (@validate_recipe_benchmark_config (sample_runtime []) benchy_path
                     null_benchmark_recipe)) = Some AttributeError.
Proof.
  rewrite (@validate_rejects_non_mapping (sample_runtime []) benchy_path
             null_benchmark_recipe VNone eq_refl).
  - reflexivity.
  - discriminate.
Defined.

Lemma apply_defaults_only_fills_gaps_witness :
  dict_get (@apply_llama_benchy_defaults (sample_runtime []) short_prompt_args) "pp"
  = Some (VList [VInt 512]).
Proof.
  apply (proj1 (proj2 (@apply_defaults_only_fills_gaps (sample_runtime [])
                         short_prompt_args))).
  reflexivity.
Defined.

Lemma build_command_shape_witness :
  snd (@build_llama_benchy_command (sample_runtime []) dry_run_recipe "m1")
  = Ret ["llama-benchy"; "--base-url"; "http://localhost:8080/v1"; "--model"; "m1";
         "--temperature"; "0.5"; "--pp"; "2048"; "--depth"; "0";
         "--save-result"; "test.md"; "--enable-prefix-caching"].
Proof.
  rewrite (proj1 (@build_command_shape (sample_runtime []) dry_run_recipe "m1"
                    "http://localhost:8080/v1" eq_refl)
                 [("enabled", VBool true); ("args", VDict [("temperature", VFloat Half)])]
                 [("temperature", VFloat Half)] eq_refl eq_refl).
  reflexivity.
Defined.

Lemma build_is_stable_witness :
  let once := @build_llama_benchy_command (sample_runtime []) dry_run_recipe "m1" in
  @build_llama_benchy_command (sample_runtime []) (fst once) "m1" = once.
Proof.
  intros once.
  exact (@build_is_stable (sample_runtime []) dry_run_recipe (fst once) "m1" (snd once)
           eq_refl).
Defined.

Lemma base_url_of_port_witness :
  @get_recipe_base_url (sample_runtime []) dry_run_recipe = Ret "http://localhost:8080/v1" /\
  @get_recipe_base_url (sample_runtime []) disabled_recipe = Ret "http://localhost:8000/v1".
Proof.
  split.
  - rewrite (proj2 (proj2 (@base_url_of_port (sample_runtime []) dry_run_recipe))
                   [("port", VInt 8080)] 8080 eq_refl eq_refl).
    reflexivity.
  - exact (proj1 (@base_url_of_port (sample_runtime []) disabled_recipe) eq_refl).
Defined.

Lemma base_url_errors_witness :
  exn_cls_of (@get_recipe_base_url (sample_runtime []) null_defaults_recipe)
  = Some AttributeError.
Proof.
  rewrite (proj1 (@base_url_errors (sample_runtime []) null_defaults_recipe)
                 VNone eq_refl).
  - reflexivity.
  - discriminate.
Defined.

Lemma resolve_returns_existing_witness :
  only_yaml (sample_recipes_dir // "foo.yaml") = true.
Proof.
  apply (proj1 (resolve_returns_existing sample_recipes_dir only_yaml "foo")
               (sample_recipes_dir // "foo.yaml")).
  reflexivity.
Defined.

Lemma resolve_bare_name_witness :
  resolve_recipe_path sample_recipes_dir only_yaml "foo"
  = Ret {| root := "/"; parts := ["opt"; "spark-vllm-docker"; "recipes"; "foo.yaml"] |}.
Proof.
  exact (proj1 (resolve_bare_name sample_recipes_dir only_yaml "foo"
                  eq_refl ltac:(discriminate) ltac:(discriminate) eq_refl eq_refl)
               eq_refl).
Defined.

Lemma resolve_swaps_extension_witness :
  resolve_recipe_path sample_recipes_dir only_yaml "foo.yml"
  = Ret {| root := "/"; parts := ["opt"; "spark-vllm-docker"; "recipes"; "foo.yaml"] |}.
Proof.
  exact (resolve_swaps_extension sample_recipes_dir only_yaml "foo" "yml"
           eq_refl eq_refl eq_refl ltac:(discriminate) ltac:(discriminate)
           eq_refl eq_refl eq_refl eq_refl eq_refl).
Defined.

Lemma prober_result_is_trimmed_witness :
  "m1" <> "" /\ strip "m1" = "m1".
Proof.
  eapply (@prober_result_is_trimmed (sample_runtime sample_bodies) (serving ready_body)
            3 "http://localhost:8000/v1" 300 2 start).
  reflexivity.
Defined.

Lemma prober_only_queries_models_url_witness :
  option_map (fun r => (network_calls (trace (snd r)), execs (trace (snd r))))
             (@wait_for_models_endpoint_and_get_first_model
                (sample_runtime warming_bodies) warming_env 5
                "http://localhost:8000/v1/" 300 2 start)
  = Some (repeat (HttpGet models_url_8000) 3, []).
Proof.
  destruct (@wait_for_models_endpoint_and_get_first_model
              (sample_runtime warming_bodies) warming_env 5
              "http://localhost:8000/v1/" 300 2 start) as [[r st']|] eqn:Hrun.
  - destruct (@prober_only_queries_models_url (sample_runtime warming_bodies)
                warming_env 5 "http://localhost:8000/v1/" 300 2 start st' r Hrun)
      as [Hnet Hexec].
    cbn [option_map snd]. rewrite Hnet, Hexec.
    vm_compute in Hrun. injection Hrun as _ <-. reflexivity.
  - vm_compute in Hrun. discriminate.
Defined.

Lemma prober_request_bound_witness :
  0 < 2 /\
  forall st' r,
    @wait_for_models_endpoint_and_get_first_model
      (sample_runtime []) installed_env 400 "http://localhost:8000/v1" 300 2 start
    = Some (r, st') ->
    (Z.of_nat (requests st') - 1) * 2 < 300.
Proof.
  assert (Hi : 0 < 2) by lia.
  split; [exact Hi|]. intros st' r Hrun.
  destruct (@prober_request_bound (sample_runtime []) installed_env 400
              "http://localhost:8000/v1" 300 2 start st' r Hi Hrun) as [_ Hbound].
  cbn [requests start] in Hbound. rewrite Nat.sub_0_r in Hbound. exact Hbound.
Defined.

Lemma prober_resolves_after_retries_witness :
  0 <= 2 /\
  exists st',
    @poll (sample_runtime warming_bodies) warming_env 3 models_url_8000 300 2
          "unknown error" start
    = Some (Ret (Some "m2"), st') /\
    requests st' = 3%nat /\
    sleeps (trace st') = [Sleep 2; Sleep 2] /\
    now st' = 7.
Proof.
  assert (Hi : 0 <= 2) by lia.
  split; [exact Hi|].
  destruct (@prober_resolves_after_retries (sample_runtime warming_bodies) warming_env
              models_url_8000 300 2 model_body model_payload "m2" Hi eq_refl eq_refl
              2%nat 3%nat "unknown error" start) as (st' & Hpoll & Hreq & Hsleeps & Hnow).
  - intros i Hlt. destruct i as [|[|i]]; [discriminate | discriminate | lia].
  - reflexivity.
  - reflexivity.
  - lia.
  - exists st'. split; [exact Hpoll|]. split; [exact Hreq|]. split; [exact Hsleeps|].
    exact Hnow.
Defined.

Lemma prober_negative_interval_raises_witness :
  -1 < 0 /\
  option_map fst (@wait_for_models_endpoint_and_get_first_model
                    (sample_runtime []) installed_env 1 "http://localhost:8000/v1"
                    300 (-1) start)
  = Some (Raise (Exn ValueError "sleep length must be non-negative")).
Proof.
  assert (Hneg : -1 < 0) by lia.
  assert (Ht : 0 < 300) by lia.
  split; [exact Hneg|].
  destruct (@prober_negative_interval_raises (sample_runtime []) installed_env 0
              "http://localhost:8000/v1" 300 (-1) start Hneg Ht) as (st' & Hrun & _).
  - discriminate.
  - rewrite Hrun. reflexivity.
Defined.

Lemma run_disabled_exits_1_witness :
  dict_get bare_recipe "benchmark" = None /\
  option_map (fun r => snd (fst r))
             (@run_recipe_benchmark (sample_runtime []) installed_env 0 bare_recipe
                                    false start)
  = Some (Ret 1).
Proof.
  split; [reflexivity|].
  destruct (@run_disabled_exits_1 (sample_runtime []) installed_env 0 bare_recipe false
              start (or_introl eq_refl)) as [recipe' Hrun].
  rewrite Hrun. reflexivity.
Defined.

Lemma run_executes_resolved_command_witness :
  exists recipe' st',
    @run_recipe_benchmark (sample_runtime sample_bodies) ready_env 1 dry_run_recipe
                          false start
    = Some ((recipe', Ret 3), st') /\
    execs (trace st')
    = [Exec ["llama-benchy"; "--base-url"; "http://localhost:8080/v1"; "--model"; "m1";
             "--temperature"; "0.5"; "--pp"; "2048"; "--depth"; "0";
             "--save-result"; "test.md"; "--enable-prefix-caching"]].
Proof.
  destruct (@run_executes_resolved_command (sample_runtime sample_bodies) ready_env 0
              dry_run_recipe
              [("enabled", VBool true); ("args", VDict [("temperature", VFloat Half)])]
              [("temperature", VFloat Half)] (VBool true)
              "/usr/local/bin/llama-benchy" "http://localhost:8080/v1" ready_body "m1"
              ready_payload start
              eq_refl eq_refl eq_refl (or_introl eq_refl) eq_refl eq_refl eq_refl
              eq_refl eq_refl eq_refl)
    as (recipe' & st' & Hrun & Hexec & _).
  exists recipe', st'. split; [exact Hrun | exact Hexec].
Defined.

Lemma run_without_model_exits_1_witness :
  exists enough : nat,
  forall fuel : nat,
    (enough <= fuel)%nat ->
    exists recipe' st',
      @run_recipe_benchmark (sample_runtime []) installed_env fuel dry_run_recipe
                            false start
      = Some ((recipe', Ret 1), st') /\
      execs (trace st') = [].
Proof.
  destruct (@run_without_model_exits_1 (sample_runtime []) installed_env dry_run_recipe
              [("enabled", VBool true); ("args", VDict [("temperature", VFloat Half)])]
              (VBool true) "/usr/local/bin/llama-benchy" "http://localhost:8080/v1" start
              eq_refl eq_refl eq_refl (or_introl eq_refl) eq_refl eq_refl)
    as [enough Hrun].
  - intros n. discriminate.
  - exists enough. exact Hrun.
Defined.

Lemma dry_run_prints_command_witness :
  exists recipe' cmd,
    snd (@build_llama_benchy_command (sample_runtime []) dry_run_recipe default_model)
    = Ret cmd /\
    @run_recipe_benchmark (sample_runtime []) installed_env 0 dry_run_recipe true start
    = Some ((recipe', Ret 0),
            {| now := 0; requests := 0;
               trace := [Printed (nl +++ "=== Running Benchmark ===");
                         Printed (shlex_join cmd)] |}).
Proof.
  exact (@dry_run_prints_command (sample_runtime []) installed_env 0 dry_run_recipe
           [("enabled", VBool true); ("args", VDict [("temperature", VFloat Half)])]
           [("temperature", VFloat Half)] (VBool true)
           "/usr/local/bin/llama-benchy" "http://localhost:8080/v1" start
           eq_refl eq_refl eq_refl (or_introl eq_refl) eq_refl eq_refl eq_refl).
Defined.

Lemma main_fails_before_running_witness :
  @main (sample_runtime []) sample_recipes_dir no_file load_dry_run_recipe installed_env
        0 dry_run_args start
  = Some (Raise (Exn FileNotFoundError "Recipe not found: foo"), start) /\
  option_map (fun r => exn_cls_of (fst r))
             (@main (sample_runtime []) sample_recipes_dir every_file load_empty_file
                    installed_env 0 dry_run_args start)
  = Some (Some AttributeError).
Proof.
  split.
  - exact (proj1 (@main_fails_before_running (sample_runtime []) sample_recipes_dir
                    no_file load_dry_run_recipe installed_env 0 dry_run_args start)
                 eq_refl).
  - rewrite (proj2 (@main_fails_before_running (sample_runtime []) sample_recipes_dir
                      every_file load_empty_file installed_env 0 dry_run_args start)
                   (Path "foo") VNone eq_refl eq_refl).
    + reflexivity.
    + discriminate.
Defined.

Lemma main_without_override_is_run_witness :
  option_map fst (@main (sample_runtime []) sample_recipes_dir every_file
                        load_dry_run_recipe installed_env 0 dry_run_args start)
  = Some (Ret 0).
Proof.
  rewrite (@main_without_override_is_run (sample_runtime []) sample_recipes_dir
             every_file load_dry_run_recipe installed_env 0 dry_run_args start
             (Path "foo") dry_run_recipe (or_introl eq_refl) eq_refl eq_refl).
  reflexivity.
Defined.

Lemma main_save_result_override_witness :
  @main (sample_runtime []) sample_recipes_dir every_file load_dry_run_recipe
        installed_env 0 save_result_args start
  = Some (Ret 0,
          {| now := 0; requests := 0;
             trace :=
               [Printed (nl +++ "=== Running Benchmark ===");
                Printed ("llama-benchy --base-url http://localhost:8080/v1 "
                           +++ "--model __from_v1_models__ --temperature 0.5 "
                           +++ "--save-result out.md --pp 2048 --depth 0 "
                           +++ "--enable-prefix-caching")] |}).
Proof.
  destruct (@main_save_result_override (sample_runtime []) sample_recipes_dir every_file
              load_dry_run_recipe installed_env 0 save_result_args start (Path "foo")
              dry_run_recipe
              [("enabled", VBool true); ("args", VDict [("temperature", VFloat Half)])]
              [("temperature", VFloat Half)] (VBool true)
              "/usr/local/bin/llama-benchy" "http://localhost:8080/v1" "out.md"
              eq_refl eq_refl eq_refl eq_refl eq_refl (or_introl eq_refl) eq_refl
              eq_refl eq_refl eq_refl ltac:(discriminate) eq_refl) as [Hrun _].
  rewrite Hrun. reflexivity.
Defined.


(** * The prober up to the deadline *)

Section ProberDeadline.
Context `{Runtime}.
Variable E : env.

Lemma model_under_keys_some (f : dict) (keys : list string) :
  forallb (fun key => match usable_name (dict_get f key) with
                      | None => true
                      | Some _ => false
                      end) keys = false ->
  exists m, model_under_keys f keys = Some m.
Proof.
  induction keys as [|k keys IH]; cbn [forallb model_under_keys]; [discriminate|].
  unfold usable_name at 1.
  destruct (dict_get f k) as [[| | | |val| |]|]; cbn [andb]; try exact IH.
  destruct (nonempty (strip val)); cbn [andb]; [|exact IH].
  intros _. eexists. reflexivity.
Qed.

(** What the code records for a reply is what the specification says. *)
Lemma retry_reason_as_recorded (r : http_reply) :
  retry_reason r = recorded_error r.
Proof.
  destruct r as [error|body]; cbn [retry_reason recorded_error]; [reflexivity|].
  destruct (json_loads body) as [payload|]; [|reflexivity].
  destruct payload as [| | | | | |p]; try reflexivity.
  unfold first_model, lacks_usable_entry.
  destruct (dict_get p "data") as [[| | | | |[|first rest]|]|]; try reflexivity.
  destruct first as [| | | | | |f]; try reflexivity.
  unfold names_no_model.
  destruct (forallb (fun key => match usable_name (dict_get f key) with
                                | None => true
                                | Some _ => false
                                end) ["id"; "model"; "name"]) eqn:Hall.
  - rewrite (model_under_keys_none _ _ Hall). reflexivity.
  - destruct (model_under_keys_some _ _ Hall) as [m ->]. reflexivity.
Qed.

Lemma last_recorded_error_shift (models_url : string) (interval_seconds : Z)
      (prints : list event) (st : state) (n : nat) (initial error : string) :
  recorded_error (reply (endpoint E models_url (requests st))) = Some error ->
  (forall k, (k < S n)%nat ->
             recorded_error (reply (endpoint E models_url (requests st + k)%nat)) <> None) ->
  last_recorded_error E models_url
                      (after_retry E models_url interval_seconds prints st) n error
  = last_recorded_error E models_url st (S n) initial.
Proof.
  intros Hrec Hfail. destruct n as [|k]; cbn [last_recorded_error after_retry requests].
  - rewrite Nat.add_0_r, Hrec. reflexivity.
  - replace (S (requests st) + k)%nat with (requests st + S k)%nat by lia.
    destruct (recorded_error (reply (endpoint E models_url (requests st + S k)%nat)))
      as [e|] eqn:He; [reflexivity|].
    exfalso. apply (Hfail (S k)); [lia | exact He].
Qed.

(** The loop when every turn that starts before the deadline is retried:
    it makes exactly those turns, each a request and a sleep, and then
    reports absence with the error of the last of them. *)
Lemma poll_times_out (models_url : string) (deadline interval_seconds : Z) :
  0 <= interval_seconds ->
  forall (n fuel : nat) (last_error : string) (st : state),
    (forall k, (k < n)%nat ->
               recorded_error (reply (endpoint E models_url (requests st + k)%nat))
               <> None) ->
    (forall k, (k < n)%nat ->
               turn_start E models_url interval_seconds st k < deadline) ->
    deadline <= turn_start E models_url interval_seconds st n ->
    (n < fuel)%nat ->
    exists st' turns,
      poll E fuel models_url deadline interval_seconds last_error st
      = Some (Ret None, st') /\
      requests st' = (requests st + n)%nat /\
      now st' = turn_start E models_url interval_seconds st n /\
      trace st' =
        trace st ++ turns
          ++ [Printed ("Timed out waiting for endpoint/model: " +++ models_url);
              Printed ("Last probe error: "
                         +++ last_recorded_error E models_url st n last_error)] /\
      network_calls turns = repeat (HttpGet models_url) n /\
      sleeps turns = repeat (Sleep interval_seconds) n /\
      execs turns = [].
Proof.
  intros Hi. induction n as [|n IH]; intros fuel last_error st Hfail Hbefore Hafter Hfuel.
  - destruct fuel as [|fuel]; [lia|]. cbn [turn_start] in Hafter.
    rewrite (poll_past_deadline E _ _ _ _ _ _ Hafter).
    eexists. exists []. split; [reflexivity|]. cbn [requests now trace turn_start].
    rewrite Nat.add_0_r. repeat split; reflexivity.
  - destruct fuel as [|fuel]; [lia|].
    assert (Hlt : now st < deadline) by (apply (Hbefore O); lia).
    rewrite (poll_before_deadline E _ _ _ _ _ _ Hlt).
    destruct (recorded_error (reply (endpoint E models_url (requests st))))
      as [error|] eqn:Hrec.
    2: { exfalso. apply (Hfail O); [lia|]. rewrite Nat.add_0_r. exact Hrec. }
    assert (Hreason : retry_reason (reply (endpoint E models_url (requests st)))
                      = Some error).
    { rewrite retry_reason_as_recorded. exact Hrec. }
    destruct (probe_once_retry E _ _ _ _ Hi Hreason) as (prints & Hprints & Hrun).
    rewrite Hrun.
    set (st1 := after_retry E models_url interval_seconds prints st).
    destruct (IH fuel error st1)
      as (st' & turns & Hpoll & Hreq & Hnow & Htr & Hnet & Hsl & Hex).
    + intros k Hk. unfold st1. cbn [after_retry requests].
      replace (S (requests st) + k)%nat with (requests st + S k)%nat by lia.
      apply Hfail. lia.
    + intros k Hk. unfold st1. rewrite turn_start_shift. apply Hbefore. lia.
    + unfold st1. rewrite turn_start_shift. exact Hafter.
    + lia.
    + exists st', (HttpGet models_url :: prints ++ [Sleep interval_seconds] ++ turns).
      split; [exact Hpoll|].
      unfold st1 in Hreq, Hnow, Htr.
      rewrite turn_start_shift in Hnow.
      rewrite (last_recorded_error_shift _ _ _ _ _ last_error _ Hrec Hfail) in Htr.
      cbn [after_retry requests trace] in Hreq, Htr.
      split; [lia|]. split; [exact Hnow|]. split; [|split; [|split]].
      * rewrite Htr. rewrite <- !app_assoc. cbn [app]. rewrite <- !app_assoc.
        reflexivity.
      * unfold network_calls in *. cbn [filter is_http_get].
        rewrite !filter_app, Hnet.
        rewrite (filter_prints is_http_get prints (fun _ => eq_refl) Hprints).
        reflexivity.
      * unfold sleeps in *. cbn [filter is_sleep].
        rewrite !filter_app, Hsl.
        rewrite (filter_prints is_sleep prints (fun _ => eq_refl) Hprints).
        reflexivity.
      * unfold execs in *. cbn [filter is_exec].
        rewrite !filter_app, Hex.
        rewrite (filter_prints is_exec prints (fun _ => eq_refl) Hprints).
        reflexivity.
Qed.

(** When the clock moves on every turn, some turn starts at or after the
    deadline, and it is one of the first [deadline - now] turns. *)
Lemma deadline_turn_exists (models_url : string) (deadline interval_seconds : Z)
      (st : state) :
  (forall m, 0 < interval_seconds + Z.of_N (elapsed (endpoint E models_url m))) ->
  exists n,
    (n <= Z.to_nat (deadline - now st))%nat /\
    (forall k, (k < n)%nat ->
               turn_start E models_url interval_seconds st k < deadline) /\
    deadline <= turn_start E models_url interval_seconds st n.
Proof.
  intros Hprogress.
  assert (Hgrow : forall k,
             now st + Z.of_nat k <= turn_start E models_url interval_seconds st k).
  { induction k as [|k IHk]; cbn [turn_start]; [lia|].
    specialize (Hprogress (requests st + k)%nat). lia. }
  assert (Hsearch : forall m,
             (exists n, (n <= m)%nat /\
                        (forall k, (k < n)%nat ->
                                   turn_start E models_url interval_seconds st k < deadline) /\
                        deadline <= turn_start E models_url interval_seconds st n) \/
             (forall k, (k <= m)%nat ->
                        turn_start E models_url interval_seconds st k < deadline)).
  { induction m as [|m IHm].
    - destruct (Z_lt_le_dec (turn_start E models_url interval_seconds st O) deadline)
        as [Hlt|Hge].
      + right. intros k Hk. replace k with O by lia. exact Hlt.
      + left. exists O. split; [lia|]. split; [intros k Hk; lia | exact Hge].
    - destruct IHm as [(n & Hn & Hbefore & Hafter)|Hall].
      + left. exists n. split; [lia|]. split; assumption.
      + destruct (Z_lt_le_dec (turn_start E models_url interval_seconds st (S m)) deadline)
          as [Hlt|Hge].
        * right. intros k Hk.
          destruct (Nat.eq_dec k (S m)) as [->|Hne]; [exact Hlt | apply Hall; lia].
        * left. exists (S m). split; [lia|]. split; [|exact Hge].
          intros k Hk. apply Hall. lia. }
  destruct (Hsearch (Z.to_nat (deadline - now st))) as [Hfound|Hall]; [exact Hfound|].
  exfalso.
  specialize (Hall (Z.to_nat (deadline - now st)) (Nat.le_refl _)).
  specialize (Hgrow (Z.to_nat (deadline - now st))). lia.
Qed.

(** C4: with an interval that is not negative, the prober retries on every
    transport failure, on every body that is not JSON and on every JSON
    body without a usable model entry ([data] missing, not a list, empty,
    or with a first element that names no model; JSON that is no mapping):
    the turn records the error, sleeps once for the interval and the loop
    goes on.  When every turn that starts before [start + timeout] is such
    a turn, the prober makes exactly those turns, a request and a sleep
    each, stops at the first test of the loop at or after
    [start + timeout], prints the last error recorded and returns absence;
    it does not raise.  When the clock moves on every turn, that test comes
    within [timeout] turns, and the prober returns whatever the server
    does. *)
Theorem prober_retries_until_deadline
        (base_url : string) (timeout_seconds interval_seconds : Z) :
  0 <= interval_seconds ->
  let models_url := rstrip_slash base_url +++ "/models" in
  (forall (st : state) (error : string),
      recorded_error (reply (endpoint E models_url (requests st))) = Some error ->
      exists prints,
        Forall is_print prints /\
        probe_once E models_url interval_seconds st =
        (Retry error, after_retry E models_url interval_seconds prints st) /\
        forall fuel deadline last_error,
          now st < deadline ->
          poll E (S fuel) models_url deadline interval_seconds last_error st =
          poll E fuel models_url deadline interval_seconds error
               (after_retry E models_url interval_seconds prints st)) /\
  (forall (st : state) (body : string) (payload : dict),
      reply (endpoint E models_url (requests st)) = HttpBody body ->
      json_loads body = Some (VDict payload) ->
      dict_get payload "data" = None \/
      dict_get payload "data" = Some (VList []) \/
      (exists v, dict_get payload "data" = Some v /\ forall l, v <> VList l) \/
      (exists first rest, dict_get payload "data" = Some (VList (first :: rest)) /\
                          names_no_model first = true) ->
      fst (probe_once E models_url interval_seconds st)
      = Retry "No model entry found in /v1/models response") /\
  (forall (st : state) (n fuel : nat),
      (forall k, (k < n)%nat ->
                 recorded_error (reply (endpoint E models_url (requests st + k)%nat))
                 <> None) ->
      (forall k, (k < n)%nat ->
                 turn_start E models_url interval_seconds st k < now st + timeout_seconds) ->
      now st + timeout_seconds <= turn_start E models_url interval_seconds st n ->
      (n < fuel)%nat ->
      exists st' turns,
        wait_for_models_endpoint_and_get_first_model
          E fuel base_url timeout_seconds interval_seconds st = Some (Ret None, st') /\
        requests st' = (requests st + n)%nat /\
        now st' = turn_start E models_url interval_seconds st n /\
        trace st' =
          trace st
            ++ [Printed (waiting_banner models_url timeout_seconds)]
            ++ turns
            ++ [Printed ("Timed out waiting for endpoint/model: " +++ models_url);
                Printed ("Last probe error: "
                           +++ last_recorded_error E models_url st n "unknown error")] /\
        network_calls turns = repeat (HttpGet models_url) n /\
        sleeps turns = repeat (Sleep interval_seconds) n /\
        execs turns = []) /\
  ((forall m, 0 < interval_seconds + Z.of_N (elapsed (endpoint E models_url m))) ->
   forall st : state,
     (exists n,
         (n <= Z.to_nat timeout_seconds)%nat /\
         (forall k, (k < n)%nat ->
                    turn_start E models_url interval_seconds st k
                    < now st + timeout_seconds) /\
         now st + timeout_seconds <= turn_start E models_url interval_seconds st n) /\
     (forall fuel : nat,
         (Z.to_nat timeout_seconds < fuel)%nat ->
         exists o st',
           wait_for_models_endpoint_and_get_first_model
             E fuel base_url timeout_seconds interval_seconds st = Some (Ret o, st'))).
Proof.
  intros Hi models_url. split; [|split; [|split]].
  - intros st error Hrec.
    assert (Hreason : retry_reason (reply (endpoint E models_url (requests st)))
                      = Some error).
    { rewrite retry_reason_as_recorded. exact Hrec. }
    destruct (probe_once_retry E _ _ _ _ Hi Hreason) as (prints & Hprints & Hrun).
    exists prints. split; [exact Hprints|]. split; [exact Hrun|].
    intros fuel deadline last_error Hlt.
    rewrite (poll_before_deadline E _ _ _ _ _ _ Hlt), Hrun. reflexivity.
  - intros st body payload Hreply Hloads Hshape.
    assert (Hrec : recorded_error (reply (endpoint E models_url (requests st)))
                   = Some "No model entry found in /v1/models response").
    { rewrite Hreply. cbn [recorded_error]. rewrite Hloads.
      assert (Hlacks : lacks_usable_entry payload = true).
      { unfold lacks_usable_entry.
        destruct Hshape as [->|[->|[(v & -> & Hv)|(first & rest & -> & Hfirst)]]];
          try reflexivity; [|exact Hfirst].
        destruct v as [| | | | |l|]; try reflexivity.
        exfalso. exact (Hv l eq_refl). }
      rewrite Hlacks. reflexivity. }
    rewrite <- retry_reason_as_recorded in Hrec.
    destruct (probe_once_retry E _ _ _ _ Hi Hrec) as (prints & _ & Hrun).
    rewrite Hrun. reflexivity.
  - intros st n fuel Hfail Hbefore Hafter Hfuel. rewrite wait_as_poll.
    fold models_url.
    set (st0 := {| now := now st;
                   requests := requests st;
                   trace := trace st
                              ++ [Printed (waiting_banner models_url timeout_seconds)] |}).
    assert (Hstart : forall k,
               turn_start E models_url interval_seconds st0 k
               = turn_start E models_url interval_seconds st k).
    { induction k as [|k IHk]; cbn [turn_start]; [reflexivity|].
      rewrite IHk. reflexivity. }
    destruct (poll_times_out models_url (now st + timeout_seconds) interval_seconds Hi
                n fuel "unknown error" st0)
      as (st' & turns & Hpoll & Hreq & Hnow & Htr & Hnet & Hsl & Hex).
    + exact Hfail.
    + intros k Hk. rewrite Hstart. apply Hbefore, Hk.
    + rewrite Hstart. exact Hafter.
    + exact Hfuel.
    + exists st', turns. split; [exact Hpoll|]. split; [exact Hreq|].
      split; [rewrite Hnow; apply Hstart|]. split; [|split; [|split]]; try assumption.
      rewrite Htr.
      change (last_recorded_error E models_url st0 n "unknown error")
        with (last_recorded_error E models_url st n "unknown error").
      unfold st0. cbn [trace]. rewrite <- !app_assoc. reflexivity.
  - intros Hprogress st. split.
    + destruct (deadline_turn_exists models_url (now st + timeout_seconds)
                  interval_seconds st Hprogress) as (n & Hn & Hbefore & Hafter).
      exists n. split; [|split; assumption].
      replace (now st + timeout_seconds - now st) with timeout_seconds in Hn by lia.
      exact Hn.
    + intros fuel Hfuel. rewrite wait_as_poll.
      destruct (poll_returns E models_url (now st + timeout_seconds) interval_seconds
                  Hi Hprogress fuel "unknown error"
                  {| now := now st;
                     requests := requests st;
                     trace := trace st
                                ++ [Printed (waiting_banner models_url timeout_seconds)] |})
        as (o & st' & Hpoll & _).
      * cbn [now].
        replace (now st + timeout_seconds - now st) with timeout_seconds by lia.
        exact Hfuel.
      * exists o, st'. exact Hpoll.
Qed.

End ProberDeadline.

Lemma prober_retries_until_deadline_witness :
  0 <= 2 /\
  exists st' turns,
    @wait_for_models_endpoint_and_get_first_model
      (sample_runtime warming_bodies) loading_env 3 "http://localhost:8000/v1" 4 2 start
    = Some (Ret None, st') /\
    requests st' = 2%nat /\
    now st' = 6 /\
    trace st' =
      [Printed (waiting_banner models_url_8000 4)]
        ++ turns
        ++ [Printed ("Timed out waiting for endpoint/model: " +++ models_url_8000);
            Printed "Last probe error: No model entry found in /v1/models response"] /\
    network_calls turns = [HttpGet models_url_8000; HttpGet models_url_8000] /\
    sleeps turns = [Sleep 2; Sleep 2].
Proof.
  assert (Hi : 0 <= 2) by lia.
  split; [exact Hi|].
  destruct (@prober_retries_until_deadline (sample_runtime warming_bodies) loading_env
              "http://localhost:8000/v1" 4 2 Hi) as (_ & _ & Hrun & _).
  destruct (Hrun start 2%nat 3%nat)
    as (st' & turns & Hwait & Hreq & Hnow & Htr & Hnet & Hsl & _).
  - intros k _. vm_compute. discriminate.
  - intros k Hk. destruct k as [|[|k]]; [reflexivity | reflexivity | lia].
  - vm_compute. discriminate.
  - lia.
  - exists st', turns. split; [exact Hwait|]. split; [exact Hreq|].
    split; [exact Hnow|]. split; [exact Htr|]. split; [exact Hnet | exact Hsl].
Defined.
